(** * Memory engine: memory management and context optimisation

    A shallow embedding of the Python memory engine
    ([memory-engine/app.py] and [services/memory-engine/services/*.py])
    together with the properties its specification states about it.

    Conventions of the embedding.
    - A Python function that can raise returns a [Result]: [Ok v] for a
      normal return, [Raise e] for an exception that leaves the function.
    - External collaborators (ChromaDB, the OpenAI endpoints, the JSON
      codec) are parameters of the model: each call is given its
      outcome by an oracle, so that every behaviour of the collaborator,
      failures included, is covered by a universally quantified theorem.
    - The Redis server of [memory-engine/app.py] is a state of hashes,
      sets, strings and lifetimes behind a connection that works. Of its
      commands [EXPIRE] alone can answer with an error, for a timeout the
      server refuses; which timeouts it refuses is an oracle. A lost
      connection is outside the model.
    - Python [float] values are idealised as real numbers: rounding,
      infinities and NaN are outside the model.
    - Python dictionaries used as maps are [gmap]s; dictionaries used as
      records are Rocq records. *)

From Stdlib Require Import Reals Lra ZArith Lia Zify ZifyNat.
From Stdlib Require OrdersEx.
From stdpp Require Import gmap strings list fin_maps sorting.

#[local] Unset Default Proof Using.

(* ===================================================================== *)
(** * Exceptions and results *)
(* ===================================================================== *)

(** The exceptions the modelled code raises or lets through. *)
Inductive Exc : Type :=
  | ZeroDivisionError
  | BackendError            (* any failure of Redis, ChromaDB or OpenAI *)
  | HTTPException (status : nat).

Inductive Result (A : Type) : Type :=
  | Ok (v : A)
  | Raise (e : Exc).
Arguments Ok {A} v.
Arguments Raise {A} e.

Definition bind {A B} (r : Result A) (k : A -> Result B) : Result B :=
  match r with
  | Ok v => k v
  | Raise e => Raise e
  end.

Notation "'let*' x ':=' r 'in' k" := (bind r (fun x => k))
  (at level 10, x name, r at level 100, k at level 200).

(** [for x in l: acc.append(f x)] where [f] may raise. *)
Fixpoint mapM {A B} (f : A -> Result B) (l : list A) : Result (list B) :=
  match l with
  | [] => Ok []
  | x :: l' => let* y := f x in let* ys := mapM f l' in Ok (y :: ys)
  end.

(** [try: body  except Exception: raise HTTPException(500)] *)
Definition except_http500 {A} (r : Result A) : Result A :=
  match r with
  | Ok v => Ok v
  | Raise _ => Raise (HTTPException 500)
  end.

Definition is_ok {A} (r : Result A) : bool :=
  match r with Ok _ => true | Raise _ => false end.

(* ===================================================================== *)
(** * Python list primitives *)
(* ===================================================================== *)

Module Py.

(** [l[:n]] for a literal [n >= 0]. *)
Definition slice_to {A} (n : nat) (l : list A) : list A := take n l.

(** [l[-n:]] for a literal [n > 0]: the start index [len(l) - n] is
    clamped at [0]. *)
Definition slice_last {A} (n : nat) (l : list A) : list A :=
  drop (length l - n) l.

(** [l[i:i+n]] for [i, n >= 0]. *)
Definition slice_range {A} (i n : nat) (l : list A) : list A :=
  take n (drop i l).

(** [range(0, stop, step)] for [step > 0]: [0, step, 2*step, ...] below
    [stop]; there are [ceil(stop / step)] of them. *)
Definition range_step (stop step : nat) : list nat :=
  (fun j => j * step) <$> seq 0 ((stop + (step - 1)) `div` step).

(** Truthiness of a string and of a list. *)
Definition truthy_str (s : string) : bool :=
  match s with EmptyString => false | _ => true end.

Definition truthy_list {A} (l : list A) : bool :=
  match l with [] => false | _ => true end.

(** Truthiness of an optional string ([None] and [""] are falsy). *)
Definition truthy_opt (o : option string) : bool :=
  match o with None => false | Some s => truthy_str s end.

Section Sorted.
Context {A K : Type}.
Variable key : A -> K.
Variable ltb : K -> K -> bool.

(** Insertion in front of the first element that is not smaller:
    an element goes before the equal ones already there. *)
Fixpoint insert_by (x : A) (l : list A) : list A :=
  match l with
  | [] => [x]
  | y :: l' =>
      if ltb (key y) (key x) then y :: insert_by x l' else x :: y :: l'
  end.

(** [sorted(l, key=key)]: ascending and stable (equal keys keep the
    order of [l]). *)
Fixpoint sorted (l : list A) : list A :=
  match l with
  | [] => []
  | x :: l' => insert_by x (sorted l')
  end.

(** [sorted(l, key=key, reverse=True)]: CPython reverses the list,
    sorts it ascending and stable, and reverses the result, so that
    equal keys still keep the order of [l]. *)
Definition sorted_reverse (l : list A) : list A :=
  reverse (sorted (reverse l)).

(** Two keys neither of which is below the other. *)
Definition key_equiv (a b : K) : bool :=
  negb (ltb a b) && negb (ltb b a).
End Sorted.

End Py.

(* ===================================================================== *)
(** * Relevance ranker and context optimiser ([memory-engine/app.py]) *)
(* ===================================================================== *)

Module Optimizer.

Local Open Scope R_scope.

#[global] Instance R_eq_dec : EqDecision R := Req_dec_T.
#[global] Instance R_lt_dec : RelDecision Rlt := Rlt_dec.

(** [x < y] on floats. *)
Definition Rltb (x y : R) : bool := bool_decide (x < y).

(** [x / y] on floats raises [ZeroDivisionError] when [y] is zero. *)
Definition py_div (x y : R) : Result R :=
  if decide (y = 0) then Raise ZeroDivisionError else Ok (x / y).

(** [sum(g)] of a generator of numbers. *)
Definition py_sum (l : list R) : R := foldr Rplus 0 l.

(** [zip(a, b)], truncated at the shorter list. *)
Fixpoint py_zip {A B} (a : list A) (b : list B) : list (A * B) :=
  match a, b with
  | x :: a', y :: b' => (x, y) :: py_zip a' b'
  | _, _ => []
  end.

(** [sum(a * b for a, b in zip(query_embedding, memory_embedding))] *)
Definition dot_product (q m : list R) : R :=
  py_sum ((fun p => fst p * snd p) <$> py_zip q m).

(** [sum(a * a for a in v) ** 0.5] *)
Definition magnitude (v : list R) : R :=
  sqrt (py_sum ((fun a => a * a) <$> v)).

(** [dot_product / (magnitude1 * magnitude2)
       if magnitude1 * magnitude2 > 0 else 0] *)
Definition similarity (q m : list R) : Result R :=
  let magnitude1 := magnitude q in
  let magnitude2 := magnitude m in
  if Rltb 0 (magnitude1 * magnitude2)
  then py_div (dot_product q m) (magnitude1 * magnitude2)
  else Ok 0.

Section Optimize.
(** The payloads the optimiser only moves around. *)
Context {Turn Value : Type}.

(** [json.dumps(v)] and [str(v)], and the [isinstance(v, dict)] test. *)
Variable json_dumps : Value -> string.
Variable py_str : Value -> string.
Variable is_dict : Value -> bool.

(** [generate_embedding]: total, a provider failure is turned into the
    zero vector inside it. *)
Variable generate_embedding : string -> list R.

(** [round(score, 2)] *)
Variable round2 : R -> R.

(** One entry of the [memories] list returned by [get_memories]. *)
Record Memory := {
  mem_id : string;
  mem_key : string;
  mem_value : Value;
}.

Record RelevantMemory := {
  content : Value;
  relevance : R;
}.

Record OptimizedContext := {
  conversation_history : list Turn;
  relevant_memories : list RelevantMemory;
  session_context : gmap string Value;
}.

(** The request dictionary after its [.get] calls. *)
Record Request := {
  req_conversation_history : list Turn;
  req_user_query : string;
  req_userId : option string;
  req_sessionId : option string;
  req_max_tokens : nat;
}.

(** The two awaited endpoints: [get_memories(user_id, type="long_term")]
    yields its [memories] list or raises; [get_session_context] yields
    its [context] map or raises. *)
Record Backends := {
  get_memories : string -> Result (list Memory);
  get_session_context : string -> Result (gmap string Value);
}.

Definition memory_text (m : Memory) : string :=
  if is_dict (mem_value m) then json_dumps (mem_value m)
  else py_str (mem_value m).

(** The loop computing [relevance_scores]. *)
Definition relevance_scores (query_embedding : list R)
    (memory_embeddings : list (list R)) : Result (list R) :=
  mapM (similarity query_embedding) memory_embeddings.

(** [sorted(zip(memory_metadata, relevance_scores),
            key=lambda x: x[1], reverse=True)] *)
Definition sorted_memories (memories : list Memory) (scores : list R)
    : list (Memory * R) :=
  Py.sorted_reverse snd Rltb (py_zip memories scores).

(** The pairs that the final loop lets through:
    [for memory, score in sorted_memories[:3]: if score > 0.7]. *)
Definition select_top (sorted_mems : list (Memory * R))
    : list (Memory * R) :=
  filter (fun p => 0.7 < snd p) (Py.slice_to 3 sorted_mems).

Definition to_relevant (p : Memory * R) : RelevantMemory :=
  {| content := mem_value (fst p); relevance := round2 (snd p) |}.

(** Step 1: the [if user_id:] block. *)
Definition fetch_relevant (be : Backends) (req : Request)
    : Result (list RelevantMemory) :=
  match req_userId req with
  | Some user_id =>
      if Py.truthy_str user_id then
        let* memories := get_memories be user_id in
        if Py.truthy_list memories && Py.truthy_str (req_user_query req)
        then
          let query_embedding := generate_embedding (req_user_query req) in
          let memory_texts := memory_text <$> memories in
          let memory_embeddings := generate_embedding <$> memory_texts in
          let* scores := relevance_scores query_embedding memory_embeddings in
          Ok (to_relevant <$> select_top (sorted_memories memories scores))
        else Ok []
      else Ok []
  | None => Ok []
  end.

(** Step 2: the [if session_id:] block with its bare [except: pass]. *)
Definition fetch_session (be : Backends) (req : Request)
    : gmap string Value :=
  match req_sessionId req with
  | Some session_id =>
      if Py.truthy_str session_id then
        match get_session_context be session_id with
        | Ok ctx => ctx
        | Raise _ => ∅
        end
      else ∅
  | None => ∅
  end.

(** Step 3: the positional truncation of the history. *)
Definition optimized_history (h : list Turn) : list Turn :=
  if decide (10 < length h)%nat
  then Py.slice_to 2 h ++ Py.slice_last 8 h
  else h.

(** [optimize_context]: the body runs inside
    [try: ... except Exception: raise HTTPException(500)]. *)
Definition optimize_context (be : Backends) (req : Request)
    : Result OptimizedContext :=
  except_http500 (
    let* relevant := fetch_relevant be req in
    let session := fetch_session be req in
    Ok {| conversation_history :=
            optimized_history (req_conversation_history req);
          relevant_memories := relevant;
          session_context := session |}).

End Optimize.

End Optimizer.

(* ===================================================================== *)
(** * Embedding service ([services/embedding_service.py]) *)
(* ===================================================================== *)

Module EmbeddingService.

(** One element of [response.data]. *)
Record Datum := {
  index : nat;
  embedding : list R;
}.

(** [openai.embeddings.create(model=..., input=batch)]: the outcome of
    the call made for the batch starting at offset [i]. *)
Definition Provider := nat -> list string -> Result (list Datum).

Definition batch_size : nat := 100.

(** [[0.0] * 1536] *)
Definition zero_vector : list R := replicate 1536 0%R.

(** The body of the [try] for one batch, with its [except] branch:
    the vectors appended to [all_embeddings] and the new health flag. *)
Definition batch_embeddings (provider : Provider) (texts : list string)
    (i : nat) : list (list R) * bool :=
  let batch := Py.slice_range i batch_size texts in
  match provider i batch with
  | Ok data =>
      let sorted_embeddings := Py.sorted index Nat.ltb data in
      (embedding <$> sorted_embeddings, true)
  | Raise _ =>
      (replicate (length batch) zero_vector, false)
  end.

(** One turn of [for i in range(0, len(texts), batch_size)] on the state
    [(all_embeddings, self.healthy)]. *)
Definition step (provider : Provider) (texts : list string)
    (st : list (list R) * bool) (i : nat) : list (list R) * bool :=
  let r := batch_embeddings provider texts i in
  (fst st ++ fst r, snd r).

(** [get_embeddings(texts)], started with health flag [healthy]; returns
    the embeddings and the final flag. *)
Definition get_embeddings (provider : Provider) (healthy : bool)
    (texts : list string) : list (list R) * bool :=
  match texts with
  | [] => ([], healthy)
  | _ =>
      foldl (step provider texts) ([], healthy)
            (Py.range_step (length texts) batch_size)
  end.

End EmbeddingService.

(* ===================================================================== *)
(** * JSON payloads and the dictionaries of the memory service *)
(* ===================================================================== *)

(** A decoded JSON value. *)
#[local] Unset Elimination Schemes.
Inductive Json : Type :=
  | JNull
  | JBool (b : bool)
  | JNum (x : R)
  | JStr (s : string)
  | JList (l : list Json)
  | JObj (fields : list (string * Json)).
#[local] Set Elimination Schemes.

(** A conversation turn as a dictionary: every key may be absent, the code
    reads each with [.get(key, default)]. *)
Record TurnDict := {
  t_messageId : option string;
  t_message : option string;
  t_response : option string;
  t_timestamp : option string;
  t_channel : option string;
  t_metadata : option Json;
}.

(** The memory aggregate ([Memory.dict()] of [main.py]); the same shape is
    built by [get_memory]. *)
Record MemoryObj := {
  m_userId : string;
  m_sessionId : string;
  m_history : list TurnDict;
  m_context : gmap string Json;
  m_firstInteraction : option string;
  m_lastInteraction : option string;
}.

(** The dictionary [memory_data] that is stored, and what
    [json.loads(full_data)] gives back: every key may be absent;
    [d_context] is [Some] when the key is present and holds a dictionary. *)
Record MemoryData := {
  d_userId : option string;
  d_sessionId : option string;
  d_message : option string;
  d_response : option string;
  d_messageId : option string;
  d_timestamp : option string;
  d_channel : option string;
  d_metadata : option Json;
  d_context : option (gmap string Json);
  d_history : option (list TurnDict);
  d_similarity_score : option R;
}.

(** [s1 < s2] on Python strings: lexicographic. *)
Definition str_ltb (s1 s2 : string) : bool :=
  match OrdersEx.String_as_OT.compare s1 s2 with
  | Lt => true
  | _ => false
  end.

(* ===================================================================== *)
(** * Long-term store adapter ([services/vector_store.py]) *)
(* ===================================================================== *)

Module VectorStore.

(** The metadata stored with a document; only [full_data] is read back. *)
Record Metadata := {
  md_full_data : option string;
}.

(** The result of [memory_collection.query]. *)
Record QueryResult := {
  qr_metadatas : list (list Metadata);
  qr_distances : option (list (list R));
}.

(** The ChromaDB collection and the JSON codec, as oracles.
    [chroma_add id data] is the outcome of [memory_collection.add] for
    the record built from [data] (document and metadata are functions of
    [data], the outcome is arbitrary in any case). [json_loads] is [None]
    on [JSONDecodeError]. *)
Record Backend := {
  uuid4 : string;
  chroma_add : string -> MemoryData -> Result unit;
  chroma_query : string -> string -> nat -> Result QueryResult;
  chroma_get : string -> Result (list Metadata);
  json_loads : string -> option MemoryData;
}.

(** [store_memory]: the id returned or the exception re-raised, and the
    health flag afterwards. *)
Definition store_memory (be : Backend) (healthy : bool) (user_id : string)
    (memory_data : MemoryData) : Result string * bool :=
  let memory_id := uuid4 be in
  match chroma_add be memory_id memory_data with
  | Ok _ => (Ok memory_id, healthy)
  | Raise e => (Raise e, false)
  end.

(** [json.loads(metadata.get("full_data", "{}"))] *)
Definition load_full_data (be : Backend) (md : Metadata)
    : option MemoryData :=
  json_loads be (default "{}" (md_full_data md)).

(** [results["distances"][0][i]], which raises when out of range. *)
Definition distance_at (distances : list (list R)) (i : nat) : Result R :=
  match distances with
  | [] => Raise BackendError
  | row :: _ =>
      match row !! i with
      | Some d => Ok d
      | None => Raise BackendError
      end
  end.

Definition set_similarity (d : MemoryData) (s : R) : MemoryData :=
  {| d_userId := d_userId d; d_sessionId := d_sessionId d;
     d_message := d_message d; d_response := d_response d;
     d_messageId := d_messageId d; d_timestamp := d_timestamp d;
     d_channel := d_channel d; d_metadata := d_metadata d;
     d_context := d_context d; d_history := d_history d;
     d_similarity_score := Some s |}.

(** The loop over [enumerate(results["metadatas"][0])]. *)
Fixpoint collect_results (be : Backend) (distances : option (list (list R)))
    (i : nat) (mds : list Metadata) : Result (list MemoryData) :=
  match mds with
  | [] => Ok []
  | md :: mds' =>
      match load_full_data be md with
      | None => collect_results be distances (S i) mds'
      | Some full_data =>
          let* full_data' :=
            match distances with
            | Some (d :: ds) =>
                let* s := distance_at (d :: ds) i in
                Ok (set_similarity full_data s)
            | _ => Ok full_data
            end in
          let* rest := collect_results be distances (S i) mds' in
          Ok (full_data' :: rest)
      end
  end.

(** [search_memories]: every exception is caught, flips the health flag
    and gives the empty list. *)
Definition search_memories (be : Backend) (healthy : bool)
    (user_id query : string) (limit : nat) : list MemoryData * bool :=
  let body :=
    let* results := chroma_query be user_id query limit in
    match qr_metadatas results with
    | [] => Ok []
    | mds :: _ => collect_results be (qr_distances results) 0 mds
    end in
  match body with
  | Ok memories => (memories, healthy)
  | Raise _ => ([], false)
  end.

(** [get_all_user_memories]: the same handler. *)
Definition get_all_user_memories (be : Backend) (healthy : bool)
    (user_id : string) : list MemoryData * bool :=
  match chroma_get be user_id with
  | Ok metadatas => (omap (load_full_data be) metadatas, healthy)
  | Raise _ => ([], false)
  end.

End VectorStore.

(* ===================================================================== *)
(** * Memory manager ([services/memory_manager.py]) *)
(* ===================================================================== *)

Module MemoryManager.

(** What a call can leave behind: the adapter's health flag and the
    conversation texts sent to the text-generation provider, oldest
    first. *)
Record World := {
  vs_healthy : bool;
  llm_requests : list string;
}.

(** The text-generation provider and the JSON codec of the summariser.
    [chat_completion text] is the [content] of the first choice, or the
    exception of a call that failed; [summary_loads] is [None] on
    [JSONDecodeError]. *)
Record Summarizer := {
  chat_completion : string -> Result string;
  summary_loads : string -> option Json;
}.

Definition with_history (memory : MemoryObj) (h : list TurnDict)
    (c : gmap string Json) : MemoryObj :=
  {| m_userId := m_userId memory; m_sessionId := m_sessionId memory;
     m_history := h; m_context := c;
     m_firstInteraction := m_firstInteraction memory;
     m_lastInteraction := m_lastInteraction memory |}.

(** The two lines appended to [conversation] for one turn. *)
Definition turn_lines (turn : TurnDict) : list string :=
  [ "User: " +:+ default "" (t_message turn);
    "Assistant: " +:+ default "" (t_response turn) ].

(** ["\n".join(conversation)] *)
Definition conversation_text (history : list TurnDict) : string :=
  String.concat (String (Ascii.ascii_of_nat 10) EmptyString)
                (history ≫= turn_lines).

(** [_summarize_context]: the memory object after the call (it is
    updated in place and returned) and the world afterwards. *)
Definition _summarize_context (sm : Summarizer) (w : World)
    (user_id session_id : string) (memory : MemoryObj)
    : MemoryObj * World :=
  let history := m_history memory in
  if decide (length history < 5) then (memory, w)
  else
    let text := conversation_text history in
    let w' := {| vs_healthy := vs_healthy w;
                 llm_requests := llm_requests w ++ [text] |} in
    match chat_completion sm text with
    | Raise _ => (memory, w')
    | Ok summary_text =>
        let summary :=
          match summary_loads sm summary_text with
          | Some j => j
          | None => JObj [("summary", JStr summary_text)]
          end in
        (with_history memory (Py.slice_last 10 history)
           (<["conversation_summary" := summary]> (m_context memory)),
         w')
    end.

(** The dictionary [memory_data] built by [store_memory]; [now] is
    [datetime.now().isoformat()]. *)
Definition build_memory_data (now user_id session_id : string)
    (turn : TurnDict) (memory : option MemoryObj) : MemoryData :=
  {| d_userId := Some user_id;
     d_sessionId := Some session_id;
     d_message := Some (default "" (t_message turn));
     d_response := Some (default "" (t_response turn));
     d_messageId := Some (default "" (t_messageId turn));
     d_timestamp := Some (default now (t_timestamp turn));
     d_channel := Some (default "unknown" (t_channel turn));
     d_metadata := Some (default (JObj []) (t_metadata turn));
     d_context := m_context <$> memory;
     d_history := m_history <$> memory;
     d_similarity_score := None |}.

(** [store_memory]: the id returned or the exception re-raised, the
    memory object the caller passed as it is after the call, and the
    world afterwards. *)
Definition store_memory (be : VectorStore.Backend) (sm : Summarizer)
    (now : string) (w : World) (user_id session_id : string)
    (turn : TurnDict) (memory : option MemoryObj)
    : Result string * option MemoryObj * World :=
  let memory_data := build_memory_data now user_id session_id turn memory in
  let '(stored, healthy) :=
    VectorStore.store_memory be (vs_healthy w) user_id memory_data in
  let w1 := {| vs_healthy := healthy; llm_requests := llm_requests w |} in
  match stored with
  | Raise e => (Raise e, memory, w1)
  | Ok memory_id =>
      match memory with
      | Some mem =>
          if decide (20 < length (m_history mem)) then
            let '(mem', w2) := _summarize_context sm w1 user_id session_id mem in
            (Ok memory_id, Some mem', w2)
          else (Ok memory_id, memory, w1)
      | None => (Ok memory_id, memory, w1)
      end
  end.

(** [x.get("timestamp", "")], the sort key of [get_memory]. *)
Definition timestamp_key (m : MemoryData) : string :=
  default "" (d_timestamp m).

(** The accumulators of the loop of [get_memory]. *)
Record Acc := {
  acc_history : list TurnDict;
  acc_context : gmap string Json;
  acc_first : option string;
  acc_last : option string;
}.

Definition acc_init : Acc :=
  {| acc_history := []; acc_context := ∅;
     acc_first := None; acc_last := None |}.

Definition turn_of (memory : MemoryData) : TurnDict :=
  {| t_messageId := Some (default "" (d_messageId memory));
     t_message := Some (default "" (d_message memory));
     t_response := Some (default "" (d_response memory));
     t_timestamp := Some (default "" (d_timestamp memory));
     t_channel := Some (default "unknown" (d_channel memory));
     t_metadata := Some (default (JObj []) (d_metadata memory)) |}.

(** [if not first_interaction or timestamp < first_interaction] *)
Definition track_first (first : option string) (timestamp : string)
    : option string :=
  match first with
  | Some f =>
      if negb (Py.truthy_str f) || str_ltb timestamp f
      then Some timestamp else first
  | None => Some timestamp
  end.

(** [if not last_interaction or timestamp > last_interaction] *)
Definition track_last (last : option string) (timestamp : string)
    : option string :=
  match last with
  | Some l =>
      if negb (Py.truthy_str l) || str_ltb l timestamp
      then Some timestamp else last
  | None => Some timestamp
  end.

(** One turn of [for memory in memories]. *)
Definition acc_step (a : Acc) (memory : MemoryData) : Acc :=
  let history :=
    match d_message memory, d_response memory with
    | Some _, Some _ => acc_history a ++ [turn_of memory]
    | _, _ => acc_history a
    end in
  let context :=
    match d_context memory with
    | Some c => c ∪ acc_context a       (* context.update(c) *)
    | None => acc_context a
    end in
  let '(first, last) :=
    match d_timestamp memory with
    | Some timestamp =>
        if Py.truthy_str timestamp
        then (track_first (acc_first a) timestamp,
              track_last (acc_last a) timestamp)
        else (acc_first a, acc_last a)
    | None => (acc_first a, acc_last a)
    end in
  {| acc_history := history; acc_context := context;
     acc_first := first; acc_last := last |}.

(** [m.get("sessionId") == session_id] *)
Definition in_session (session_id : string) (m : MemoryData) : Prop :=
  d_sessionId m = Some session_id.

#[global] Instance in_session_dec s m : Decision (in_session s m).
Proof. unfold in_session. apply _. Defined.

(** The list [memories] after the optional filter and the sort. *)
Definition selected_memories (session_id : option string)
    (memories : list MemoryData) : list MemoryData :=
  let filtered :=
    if Py.truthy_opt session_id
    then filter (in_session (default "" session_id)) memories
    else memories in
  Py.sorted timestamp_key str_ltb filtered.

(** [get_memory] *)
Definition get_memory (be : VectorStore.Backend) (w : World)
    (user_id : string) (session_id : option string)
    : Result MemoryObj * World :=
  let '(memories, healthy) :=
    VectorStore.get_all_user_memories be (vs_healthy w) user_id in
  let a := foldl acc_step acc_init (selected_memories session_id memories) in
  (Ok {| m_userId := user_id;
         m_sessionId := if Py.truthy_opt session_id
                        then default "" session_id else "";
         m_history := acc_history a;
         m_context := acc_context a;
         m_firstInteraction := acc_first a;
         m_lastInteraction := acc_last a |},
   {| vs_healthy := healthy; llm_requests := llm_requests w |}).

(** [search_memories] *)
Definition search_memories (be : VectorStore.Backend) (w : World)
    (user_id query : string) (limit : nat)
    : Result (list MemoryData) * World :=
  let '(memories, healthy) :=
    VectorStore.search_memories be (vs_healthy w) user_id query limit in
  (Ok memories, {| vs_healthy := healthy; llm_requests := llm_requests w |}).

End MemoryManager.

(* ===================================================================== *)
(** * Storing memory items ([memory-engine/app.py]) *)
(* ===================================================================== *)

Module MemoryApi.

(** The request model [MemoryItem]. *)
Record MemoryItem := {
  userId : string;
  type : string;
  key : string;
  value : gmap string Json;
  metadata : option (gmap string Json);
  ttl : option Z;
}.

(** The part of Redis the service uses, on a server that is reached:
    hashes, sets, and the lifetime that a key was given with [EXPIRE]. *)
Record Redis := {
  hashes : gmap string (gmap string string);
  sets : gmap string (gset string);
  expiry : gmap string Z;
}.

(** [HSET key field value ...]: fields given are written, others kept. *)
Definition hset (k : string) (mapping : gmap string string) (r : Redis)
    : Redis :=
  {| hashes := <[k := mapping ∪ default ∅ (hashes r !! k)]> (hashes r);
     sets := sets r;
     expiry := expiry r |}.

(** [DEL key] *)
Definition del (k : string) (r : Redis) : Redis :=
  {| hashes := delete k (hashes r);
     sets := delete k (sets r);
     expiry := delete k (expiry r) |}.

(** The key holds a hash or a set (neither is ever empty in Redis). *)
Definition key_exists (k : string) (r : Redis) : bool :=
  negb (bool_decide (default ∅ (hashes r !! k) = ∅))
  || negb (bool_decide (default ∅ (sets r !! k) = ∅)).

(** The lifetime of [k] becomes [seconds]. *)
Definition set_lifetime (k : string) (seconds : Z) (r : Redis) : Redis :=
  {| hashes := hashes r;
     sets := sets r;
     expiry := <[k := seconds]> (expiry r) |}.

(** The server takes the number as a timeout. It reads a 64-bit integer
    and answers any other number with an error; of the 64-bit numbers it
    refuses those whose deadline overflows, which depends on its clock and
    its version: [expire_ok] is its verdict on them. *)
Definition takes_timeout (expire_ok : Z -> bool) (seconds : Z) : bool :=
  bool_decide (- 2 ^ 63 <= seconds < 2 ^ 63)%Z && expire_ok seconds.
Arguments takes_timeout : simpl never.

(** [EXPIRE key seconds]. A number the server does not take is answered
    with an error, whatever the key. On a key that does not exist nothing
    is done; a timeout that is not positive deletes the key at once; a
    positive one becomes the lifetime of the key. The passing of time, and
    with it the removal of a key at its deadline, is outside the model. *)
Definition expire (expire_ok : Z -> bool) (k : string) (seconds : Z)
    (r : Redis) : Result Redis :=
  if takes_timeout expire_ok seconds then
    if key_exists k r then
      if decide (seconds <= 0)%Z then Ok (del k r)
      else Ok (set_lifetime k seconds r)
    else Ok r
  else Raise BackendError.

(** [SADD key member] *)
Definition sadd (k member : string) (r : Redis) : Redis :=
  {| hashes := hashes r;
     sets := <[k := {[member]} ∪ default ∅ (sets r !! k)]> (sets r);
     expiry := expiry r |}.


(** A background task [store_memory_embedding(id, user, text, metadata)]. *)
Record Task := {
  task_memory_id : string;
  task_user_id : string;
  task_text : string;
  task_metadata : gmap string Json;
}.

(** [f"memory:{userId}:{type}:{key}"] *)
Definition memory_id_of (item : MemoryItem) : string :=
  "memory:" +:+ userId item +:+ ":" +:+ type item +:+ ":" +:+ key item.

(** [f"user:{userId}:memories"] *)
Definition index_key (user_id : string) : string :=
  "user:" +:+ user_id +:+ ":memories".

Section Store.
(** [json.dumps] on a dictionary. *)
Variable json_dumps : gmap string Json -> string.
Variable generate_embedding : string -> list R.
(** The verdict of the Redis server on a timeout, see [takes_timeout]. *)
Variable expire_ok : Z -> bool.

(** A dictionary is truthy when it is not empty. *)
Definition truthy_dict (m : option (gmap string Json)) : bool :=
  match m with
  | Some d => negb (bool_decide (d = ∅))
  | None => false
  end.

(** The field map [memory_data]; [now1] and [now2] are the two
    readings of the clock. *)
Definition short_term_fields (now1 now2 : string) (item : MemoryItem)
    : gmap string string :=
  list_to_map
    [ ("id", memory_id_of item);
      ("userId", userId item);
      ("type", type item);
      ("key", key item);
      ("value", json_dumps (value item));
      ("metadata", if truthy_dict (metadata item)
                   then json_dumps (default ∅ (metadata item))
                   else "{}");
      ("created_at", now1);
      ("last_accessed", now2) ].

(** [store_short_term_memory]: the id returned or the exception of
    [EXPIRE], and Redis afterwards; when [EXPIRE] raises, the hash is
    written and the index is not reached. *)
Definition store_short_term_memory (now1 now2 : string)
    (item : MemoryItem) (r : Redis) : Result string * Redis :=
  let memory_id := memory_id_of item in
  let r1 := hset memory_id (short_term_fields now1 now2 item) r in
  let expired :=
    match ttl item with
    | Some t =>
        if decide (t = 0)%Z then Ok r1 else expire expire_ok memory_id t r1
    | None => Ok r1
    end in
  match expired with
  | Ok r2 => (Ok memory_id, sadd (index_key (userId item)) memory_id r2)
  | Raise e => (Raise e, r1)
  end.

(** [store_long_term_memory]: the id and the task handed to
    [background_tasks]. *)
Definition store_long_term_memory (item : MemoryItem) : string * Task :=
  let memory_id := memory_id_of item in
  let memory_text := json_dumps (value item) in
  (memory_id,
   {| task_memory_id := memory_id;
      task_user_id := userId item;
      task_text := memory_text;
      task_metadata := default ∅ (metadata item) |}).


(** [create_memory]: the id of the response or the exception, the
    Redis state and the background tasks queued. Whatever is raised inside
    - the 400 for an unknown type, the error of Redis - leaves as HTTP
    500. *)
Definition create_memory (now1 now2 : string) (item : MemoryItem)
    (r : Redis) : Result string * Redis * list Task :=
  if String.eqb (type item) "short_term" then
    let '(stored, r') := store_short_term_memory now1 now2 item r in
    (except_http500 stored, r', [])
  else if String.eqb (type item) "long_term" then
    let '(memory_id, t) := store_long_term_memory item in
    (Ok memory_id, r, [t])
  else (except_http500 (Raise (HTTPException 400)), r, []).

End Store.

End MemoryApi.

(* ===================================================================== *)
(** * Health of the embedding service ([services/embedding_service.py]) *)
(* ===================================================================== *)

Module EmbeddingHealth.

(** [openai.embeddings.create(model=..., input=text)] followed by
    [response.data[0].embedding]: the outcome of attempt number [n] of a
    call of [_get_embedding], counted from [0]. *)
Definition Attempts := nat -> string -> Result (list R).

(** The body of [_get_embedding]: on failure the health flag is cleared and
    the exception raised again. *)
Definition attempt_once (attempts : Attempts) (n : nat) (healthy : bool)
    (text : string) : Result (list R) * bool :=
  match attempts n text with
  | Ok v => (Ok v, healthy)
  | Raise e => (Raise e, false)
  end.

(** [@retry(stop=stop_after_attempt(...))] around the body: attempt number
    [n] is made, and after a failure up to [more] further attempts; when
    none is left the decorator raises its own error. The waiting between
    attempts is outside the model. The result comes with the health flag
    and the number of attempts made so far. *)
Fixpoint retry (attempts : Attempts) (more n : nat) (healthy : bool)
    (text : string) : Result (list R) * bool * nat :=
  match attempt_once attempts n healthy text with
  | (Ok v, h) => (Ok v, h, S n)
  | (Raise _, h) =>
      match more with
      | 0 => (Raise BackendError, h, S n)
      | S more' => retry attempts more' (S n) h text
      end
  end.

(** [_get_embedding], decorated with [stop_after_attempt(3)]. *)
Definition _get_embedding (attempts : Attempts) (healthy : bool)
    (text : string) : Result (list R) * bool * nat :=
  retry attempts 2 0 healthy text.

(** [is_healthy]: the flag returned (and stored) and the attempts made. *)
Definition is_healthy (attempts : Attempts) (healthy : bool) : bool * nat :=
  let '(r, _, calls) := _get_embedding attempts healthy "Health check" in
  (is_ok r, calls).

(** [__init__]: [None] stands for the [ValueError] raised without an API
    key; otherwise the key kept and the health flag after the connection
    test. *)
Definition init (api_key env_key : option string) (attempts : Attempts)
    : option (option string * bool) :=
  let key := if Py.truthy_opt api_key then api_key else env_key in
  if Py.truthy_opt key then
    let '(r, h, _) := _get_embedding attempts true "Test connection" in
    Some (key, match r with Ok _ => h | Raise _ => false end)
  else None.

End EmbeddingHealth.

(* ===================================================================== *)
(** * Health and deletion in the adapter ([services/vector_store.py]) *)
(* ===================================================================== *)

Module VectorStoreHealth.

(** The calls of the adapter that [VectorStore.Backend] does not cover:
    [memory_collection.delete(where=...)] and [client.list_collections()]. *)
Record Admin := {
  chroma_delete : string -> Result unit;
  list_collections : Result unit;
}.

(** [delete_user_memories]: the answer and the health flag afterwards. *)
Definition delete_user_memories (ad : Admin) (healthy : bool)
    (user_id : string) : bool * bool :=
  match chroma_delete ad user_id with
  | Ok _ => (true, healthy)
  | Raise _ => (false, false)
  end.

(** [is_healthy]: the flag returned and stored. *)
Definition is_healthy (ad : Admin) (healthy : bool) : bool :=
  is_ok (list_collections ad).

End VectorStoreHealth.

(* ===================================================================== *)
(** * The endpoints of the memory service ([services/memory-engine/main.py]) *)
(* ===================================================================== *)

Module Service.

(** The request model [ConversationTurn]; every field is present. *)
Record ConversationTurn := {
  messageId : string;
  message : string;
  response : string;
  timestamp : string;
  channel : string;
  metadata : Json;
}.

(** [MemoryRequest]; [memory] is the optional [Memory]. *)
Record MemoryRequest := {
  userId : string;
  sessionId : string;
  conversationTurn : ConversationTurn;
  memory : option MemoryObj;
}.

(** [MemoryResponse]; [error] holds the exception whose text is reported. *)
Record MemoryResponse := {
  success : bool;
  resp_memory : option MemoryObj;
  error : option Exc;
}.

(** [SearchResponse] *)
Record SearchResponse := {
  s_success : bool;
  s_memories : list MemoryData;
  s_error : option Exc;
}.

(** [HealthResponse], without its timestamp and version. *)
Record HealthResponse := {
  status : string;
  vector_db : string;
  embedding_service : string;
}.

(** [request.conversationTurn.dict()] *)
Definition turn_dict (t : ConversationTurn) : TurnDict :=
  {| t_messageId := Some (messageId t);
     t_message := Some (message t);
     t_response := Some (response t);
     t_timestamp := Some (timestamp t);
     t_channel := Some (channel t);
     t_metadata := Some (metadata t) |}.

(** [POST /api/memory] *)
Definition store_memory (be : VectorStore.Backend)
    (sm : MemoryManager.Summarizer) (now : string) (w : MemoryManager.World)
    (request : MemoryRequest) : MemoryResponse * MemoryManager.World :=
  let '(r, _, w') :=
    MemoryManager.store_memory be sm now w (userId request)
      (sessionId request) (turn_dict (conversationTurn request))
      (memory request) in
  match r with
  | Ok _ => ({| success := true; resp_memory := None; error := None |}, w')
  | Raise e =>
      ({| success := false; resp_memory := None; error := Some e |}, w')
  end.

(** [GET /api/memory] *)
Definition get_memory (be : VectorStore.Backend) (w : MemoryManager.World)
    (user_id : string) (session_id : option string)
    : MemoryResponse * MemoryManager.World :=
  let '(r, w') := MemoryManager.get_memory be w user_id session_id in
  match r with
  | Ok m => ({| success := true; resp_memory := Some m; error := None |}, w')
  | Raise e =>
      ({| success := false; resp_memory := None; error := Some e |}, w')
  end.

(** [GET /api/memory/search] *)
Definition search_memories (be : VectorStore.Backend)
    (w : MemoryManager.World) (user_id query : string) (limit : nat)
    : SearchResponse * MemoryManager.World :=
  let '(r, w') := MemoryManager.search_memories be w user_id query limit in
  match r with
  | Ok ms => ({| s_success := true; s_memories := ms; s_error := None |}, w')
  | Raise e =>
      ({| s_success := false; s_memories := []; s_error := Some e |}, w')
  end.

Definition status_of (healthy : bool) : string :=
  if healthy then "healthy" else "unhealthy".

(** [GET /api/health]: both probes are run; the overall status is
    ["healthy"] when every dependency reports ["healthy"]. *)
Definition health_check (ad : VectorStoreHealth.Admin)
    (attempts : EmbeddingHealth.Attempts) (vs_flag es_flag : bool)
    : HealthResponse :=
  let vdb := status_of (VectorStoreHealth.is_healthy ad vs_flag) in
  let emb := status_of (fst (EmbeddingHealth.is_healthy attempts es_flag)) in
  {| status := if String.eqb vdb "healthy" && String.eqb emb "healthy"
               then "healthy" else "unhealthy";
     vector_db := vdb;
     embedding_service := emb |}.

End Service.

(* ===================================================================== *)
(** * Reading memory items ([memory-engine/app.py], [get_memories]) *)
(* ===================================================================== *)

Module PyStr.

(** [needle in hay] on strings. *)
Fixpoint contains (needle hay : string) : bool :=
  String.prefix needle hay
  || match hay with
     | String _ hay' => contains needle hay'
     | EmptyString => false
     end.

(** [s.endswith(suffix)] *)
Fixpoint endswith (s suffix : string) : bool :=
  String.eqb s suffix
  || match s with
     | String _ s' => endswith s' suffix
     | EmptyString => false
     end.

End PyStr.

Module MemoryRead.

(** One entry of the [memories] list: the fields read from the hash other
    than [value] and [metadata], and these two decoded when the hash has
    them. *)
Record Item := {
  fields : gmap string string;
  item_value : option (gmap string Json);
  item_metadata : option (gmap string Json);
}.

Section Read.
(** [json.loads] on a stored object; [None] when it raises. *)
Variable json_loads : string -> option (gmap string Json).
(** [datetime.now().isoformat()] read when the record [id] is touched. *)
Variable clock : string -> string.
(** The block that asks ChromaDB for the user's records when Redis has
    none, with the exception it may raise. *)
Variable fallback : string -> Result (list Item).
(** [memory_collection] is set. *)
Variable collection_up : bool.

(** [json.loads(memory_data[field])] when the hash has the field. *)
Definition load_field (h : gmap string string) (field : string)
    : Result (option (gmap string Json)) :=
  match h !! field with
  | Some text =>
      match json_loads text with
      | Some v => Ok (Some v)
      | None => Raise BackendError
      end
  | None => Ok None
  end.

Definition load_item (h : gmap string string) : Result Item :=
  let* v := load_field h "value" in
  let* m := load_field h "metadata" in
  Ok {| fields := delete "value" (delete "metadata" h);
        item_value := v;
        item_metadata := m |}.

(** The loop [for memory_id in memory_ids]; a key without hash (or with an
    empty one) is skipped, a record read is touched. The state returned is
    the one reached, also when a record does not decode. *)
Fixpoint read_items (ids : list string) (r : MemoryApi.Redis)
    : Result (list Item) * MemoryApi.Redis :=
  match ids with
  | [] => (Ok [], r)
  | id :: ids' =>
      let h := default ∅ (MemoryApi.hashes r !! id) in
      if bool_decide (h = ∅) then read_items ids' r
      else
        match load_item h with
        | Raise e => (Raise e, r)
        | Ok it =>
            let r1 :=
              MemoryApi.hset id {[ "last_accessed" := clock id ]} r in
            let '(rest, r2) := read_items ids' r1 in
            (let* l := rest in Ok (it :: l), r2)
        end
  end.

(** The two list comprehensions on [memory_ids]. *)
Definition filter_ids (type key : option string) (ids : list string)
    : list string :=
  let ids1 :=
    if Py.truthy_opt type
    then filter (fun mid =>
                   PyStr.contains (":" +:+ default "" type +:+ ":") mid = true)
                ids
    else ids in
  if Py.truthy_opt key
  then filter (fun mid => PyStr.endswith mid (":" +:+ default "" key) = true)
              ids1
  else ids1.

(** [get_memories]: the [memories] list or the exception, and Redis
    afterwards. The members of the user's index are taken in the order
    [elements] gives them. *)
Definition get_memories (user_id : string) (type key : option string)
    (r : MemoryApi.Redis) : Result (list Item) * MemoryApi.Redis :=
  let memory_ids :=
    elements (default ∅ (MemoryApi.sets r !! MemoryApi.index_key user_id)) in
  let '(read, r') := read_items (filter_ids type key memory_ids) r in
  let answer :=
    let* memories := read in
    if bool_decide (type = Some "long_term")
       && negb (Py.truthy_list memories) && collection_up
    then fallback user_id
    else Ok memories in
  (except_http500 answer, r').

End Read.

End MemoryRead.

(* ===================================================================== *)
(** * Session context ([memory-engine/app.py]) *)
(* ===================================================================== *)

Module SessionContext.

(** Redis with its string values beside the hashes and sets. *)
Record Store := {
  redis : MemoryApi.Redis;
  strings : gmap string string;
}.

(** [f"session:{session_id}:context"] and [f"session:{session_id}:metadata"] *)
Definition context_key (session_id : string) : string :=
  "session:" +:+ session_id +:+ ":context".

Definition metadata_key (session_id : string) : string :=
  "session:" +:+ session_id +:+ ":metadata".

(** [SET key value]: the value is replaced and the lifetime of the key
    dropped. *)
Definition set (k v : string) (st : Store) : Store :=
  {| redis := {| MemoryApi.hashes := MemoryApi.hashes (redis st);
                 MemoryApi.sets := MemoryApi.sets (redis st);
                 MemoryApi.expiry := delete k (MemoryApi.expiry (redis st)) |};
     strings := <[k := v]> (strings st) |}.

Definition on_redis (f : MemoryApi.Redis -> MemoryApi.Redis) (st : Store)
    : Store :=
  {| redis := f (redis st); strings := strings st |}.

(** The key holds a string, a hash or a set. *)
Definition key_exists (k : string) (st : Store) : bool :=
  bool_decide (is_Some (strings st !! k)) || MemoryApi.key_exists k (redis st).

(** [EXPIRE key seconds] on the store with its strings, as
    [MemoryApi.expire]. *)
Definition expire (expire_ok : Z -> bool) (k : string) (seconds : Z)
    (st : Store) : Result Store :=
  if MemoryApi.takes_timeout expire_ok seconds then
    if key_exists k st then
      if decide (seconds <= 0)%Z
      then Ok {| redis := MemoryApi.del k (redis st);
                 strings := delete k (strings st) |}
      else Ok (on_redis (MemoryApi.set_lifetime k seconds) st)
    else Ok st
  else Raise BackendError.

Section Context.
Variable json_dumps : gmap string Json -> string.
Variable json_loads : string -> option (gmap string Json).
(** [int(text)]; [None] when it raises. *)
Variable py_int : string -> option Z.
(** The verdict of the Redis server on a timeout. *)
Variable expire_ok : Z -> bool.

(** [get_session_context]; [now] is the clock read for the touch. *)
Definition get_session_context (now : string) (st : Store)
    (session_id : string) : Result (gmap string Json) * Store :=
  match strings st !! context_key session_id with
  | Some context_data =>
      if Py.truthy_str context_data then
        match json_loads context_data with
        | Some context =>
            (Ok context,
             on_redis (MemoryApi.hset (metadata_key session_id)
                         {[ "last_accessed" := now ]}) st)
        | None => (Raise (HTTPException 500), st)
        end
      else (Ok ∅, st)
  | None => (Ok ∅, st)
  end.

(** [update_session_context]; [env_ttl] is the environment variable
    [SESSION_CONTEXT_TTL] when set. *)
Definition update_session_context (now1 now2 : string)
    (env_ttl : option string) (st : Store) (session_id : string)
    (context : gmap string Json) : Result unit * Store :=
  let st1 := set (context_key session_id) (json_dumps context) st in
  let st2 :=
    on_redis (MemoryApi.hset (metadata_key session_id)
                (<["last_updated" := now1]> {[ "last_accessed" := now2 ]}))
             st1 in
  match py_int (default "86400" env_ttl) with
  | Some ttl =>
      match expire expire_ok (context_key session_id) ttl st2 with
      | Ok st3 => (Ok (), st3)
      | Raise _ => (Raise (HTTPException 500), st2)
      end
  | None => (Raise (HTTPException 500), st2)
  end.

End Context.

End SessionContext.

(* ===================================================================== *)
(** * Knowledge search ([memory-engine/app.py]) *)
(* ===================================================================== *)

Module Knowledge.

(** The metadata of a knowledge document, as far as it is read. *)
Record Meta := {
  title : option string;
  source : option string;
  url : option string;
}.

(** The answer of [knowledge_collection.query]: one list per query. *)
Record Answer := {
  documents : list (list string);
  metadatas : list (list Meta);
  distances : list (list R);
  ids : list (list string);
}.

(** [KnowledgeSearchResult] *)
Record SearchResult := {
  res_id : string;
  res_title : string;
  res_content : string;
  res_relevance : R;
  res_source : string;
  res_url : option string;
}.

(** [KnowledgeSearchRequest] *)
Record SearchRequest := {
  query : string;
  organizationId : string;
  limit : nat;
  threshold : R;
}.

(** [l[0]], which raises on the empty list. *)
Definition first {A} (l : list A) : Result A :=
  match l with
  | x :: _ => Ok x
  | [] => Raise BackendError
  end.

(** [l[i]], which raises when out of range. *)
Definition at_index {A} (l : list A) (i : nat) : Result A :=
  match l !! i with
  | Some x => Ok x
  | None => Raise BackendError
  end.

Section Search.
Variable generate_embedding : string -> list R.
Variable round2 : R -> R.

(** The body of the loop for the document at position [i]: nothing when
    the document is skipped. The two bound tests are joined by [or], so
    the distances are not looked at when the first test holds. *)
Definition result_at (results : Answer) (threshold : R) (i : nat)
    (doc : string) : Result (option SearchResult) :=
  let* metas := first (metadatas results) in
  if bool_decide (length metas <= i) then Ok None
  else
    let* dists := first (distances results) in
    if bool_decide (length dists <= i) then Ok None
    else
      let* metadata := at_index metas i in
      let* distance := at_index dists i in
      let relevance := (1 - distance)%R in
      if bool_decide (relevance < threshold)%R then Ok None
      else
        let* ids0 := first (ids results) in
        let* id := at_index ids0 i in
        Ok (Some {| res_id := id;
                    res_title := default "Untitled" (title metadata);
                    res_content := doc;
                    res_relevance := round2 relevance;
                    res_source := default "knowledge_base" (source metadata);
                    res_url := url metadata |}).

(** [for i, doc in enumerate(docs)], started at position [i]. *)
Fixpoint collect (results : Answer) (threshold : R) (i : nat)
    (docs : list string) : Result (list SearchResult) :=
  match docs with
  | [] => Ok []
  | doc :: docs' =>
      let* found := result_at results threshold i doc in
      let* rest := collect results threshold (S i) docs' in
      Ok (match found with Some res => res :: rest | None => rest end)
  end.

(** [search_knowledge]; the collection is [None] when it could not be
    created at start-up, otherwise the outcome of its [query]. *)
Definition search_knowledge
    (knowledge_collection :
       option (list R -> string -> nat -> Result Answer))
    (request : SearchRequest) : Result (list SearchResult) :=
  except_http500 (
    match knowledge_collection with
    | None => Raise (HTTPException 503)
    | Some run_query =>
        let query_embedding := generate_embedding (query request) in
        let* results :=
          run_query query_embedding (organizationId request)
                    (limit request) in
        let* docs := first (documents results) in
        collect results (threshold request) 0 docs
    end).

End Search.

End Knowledge.

(* ===================================================================== *)
(** * Health of the API service ([memory-engine/app.py]) *)
(* ===================================================================== *)

Module ApiHealth.

(** [HealthResponse], without its version. *)
Record HealthResponse := {
  status : string;
  redis_status : string;
  chroma_status : string;
  openai_status : string;
}.

Section Health.
(** [str(e)] *)
Variable describe : Exc -> string.

(** [health_check]: [ping] is the outcome of [redis_client.ping()],
    [knowledge_collection] the outcome of its [count()] when the collection
    is set, [openai_api_key] the key of the environment. *)
Definition health_check (ping : Result unit)
    (knowledge_collection : option (Result nat))
    (openai_api_key : option string) : HealthResponse :=
  let redis_status :=
    match ping with
    | Ok _ => "healthy"
    | Raise e => "unhealthy: " +:+ describe e
    end in
  let chroma_status :=
    match knowledge_collection with
    | Some (Ok _) => "healthy"
    | Some (Raise e) => "unhealthy: " +:+ describe e
    | None => "unavailable"
    end in
  let openai_status :=
    if Py.truthy_opt openai_api_key then "healthy" else "unconfigured" in
  {| status := if String.eqb redis_status "healthy"
                  && String.eqb chroma_status "healthy"
               then "healthy" else "degraded";
     redis_status := redis_status;
     chroma_status := chroma_status;
     openai_status := openai_status |}.

End Health.

End ApiHealth.

(* ===================================================================== *)
(** * Sample inputs *)
(* ===================================================================== *)

Module Sample.

(** An optimiser over numbered turns and trivial payloads; embeddings are
    the empty vector. *)
Definition optimize :=
  Optimizer.optimize_context (Turn := nat) (Value := unit)
    (fun _ => "{}") (fun _ => "None") (fun _ => true)
    (fun _ => []) (fun x => x).

(** A session context holding one entry. *)
Definition ctx1 : gmap string unit := {[ "topic" := () ]}.

(** Both fetches work; the user has no memory. *)
Definition backends_up : @Optimizer.Backends unit :=
  {| Optimizer.get_memories := fun _ => Ok [];
     Optimizer.get_session_context := fun _ => Ok ctx1 |}.

(** Redis serves the session context, the memory fetch raises. *)
Definition backends_memories_down : @Optimizer.Backends unit :=
  {| Optimizer.get_memories := fun _ => Raise (HTTPException 500);
     Optimizer.get_session_context := fun _ => Ok ctx1 |}.

(** The memory fetch works, the session-context fetch raises. *)
Definition backends_session_down : @Optimizer.Backends unit :=
  {| Optimizer.get_memories := fun _ => Ok [];
     Optimizer.get_session_context := fun _ => Raise (HTTPException 500) |}.

(** A request of twelve turns without user and session. *)
Definition request_anonymous : @Optimizer.Request nat :=
  {| Optimizer.req_conversation_history := seq 0 12;
     Optimizer.req_user_query := "where is my order";
     Optimizer.req_userId := None;
     Optimizer.req_sessionId := None;
     Optimizer.req_max_tokens := 4000 |}.

(** A request naming a user and a session. *)
Definition request_known : @Optimizer.Request nat :=
  {| Optimizer.req_conversation_history := seq 0 3;
     Optimizer.req_user_query := "where is my order";
     Optimizer.req_userId := Some "u1";
     Optimizer.req_sessionId := Some "s1";
     Optimizer.req_max_tokens := 4000 |}.

(** Two texts; the provider answers the first batch out of order: the
    datum of the second text comes first. *)
Definition texts2 : list string := ["first"; "second"].

Definition provider_unordered : EmbeddingService.Provider :=
  fun i batch =>
    match i with
    | 0 => Ok [ {| EmbeddingService.index := 1;
                   EmbeddingService.embedding := [2%R] |};
                {| EmbeddingService.index := 0;
                   EmbeddingService.embedding := [1%R] |} ]
    | _ => Raise BackendError
    end.

(** A turn, and aggregates whose history repeats it. *)
Definition turn1 : TurnDict :=
  {| t_messageId := Some "m1";
     t_message := Some "hello";
     t_response := Some "hi";
     t_timestamp := Some "2024-01-01T10:00:00";
     t_channel := Some "web";
     t_metadata := Some (JObj []) |}.

Definition aggregate (n : nat) : MemoryObj :=
  {| m_userId := "u1";
     m_sessionId := "s1";
     m_history := replicate n turn1;
     m_context := ∅;
     m_firstInteraction := None;
     m_lastInteraction := None |}.

(** A vector database that stores and a one that is unreachable. *)
Definition store_up : VectorStore.Backend :=
  {| VectorStore.uuid4 := "id-1";
     VectorStore.chroma_add := fun _ _ => Ok ();
     VectorStore.chroma_query := fun _ _ _ =>
       Ok {| VectorStore.qr_metadatas := [];
             VectorStore.qr_distances := None |};
     VectorStore.chroma_get := fun _ => Ok [];
     VectorStore.json_loads := fun _ => None |}.

Definition store_down : VectorStore.Backend :=
  {| VectorStore.uuid4 := "id-1";
     VectorStore.chroma_add := fun _ _ => Raise BackendError;
     VectorStore.chroma_query := fun _ _ _ => Raise BackendError;
     VectorStore.chroma_get := fun _ => Raise BackendError;
     VectorStore.json_loads := fun _ => None |}.

(** A text-generation provider that answers with a JSON object. *)
Definition summarizer_up : MemoryManager.Summarizer :=
  {| MemoryManager.chat_completion := fun _ => Ok "{}";
     MemoryManager.summary_loads := fun _ => Some (JObj []) |}.

(** Two stored records of one user: the first was stored with an empty
    timestamp. *)
Definition record (timestamp : string) : MemoryData :=
  {| d_userId := Some "u1"; d_sessionId := Some "s1";
     d_message := Some "hello"; d_response := Some "hi";
     d_messageId := Some "m1"; d_timestamp := Some timestamp;
     d_channel := Some "web"; d_metadata := Some (JObj []);
     d_context := None; d_history := None; d_similarity_score := None |}.

Definition store_two : VectorStore.Backend :=
  {| VectorStore.uuid4 := "id-1";
     VectorStore.chroma_add := fun _ _ => Ok ();
     VectorStore.chroma_query := fun _ _ _ => Raise BackendError;
     VectorStore.chroma_get := fun _ =>
       Ok [ {| VectorStore.md_full_data := Some "a" |};
            {| VectorStore.md_full_data := Some "b" |} ];
     VectorStore.json_loads := fun text =>
       if String.eqb text "a" then Some (record "")
       else if String.eqb text "b" then Some (record "2024-01-01T10:00:00")
       else None |}.

(** A text-generation provider whose call fails. *)
Definition summarizer_down : MemoryManager.Summarizer :=
  {| MemoryManager.chat_completion := fun _ => Raise BackendError;
     MemoryManager.summary_loads := fun _ => None |}.

Definition world0 : MemoryManager.World :=
  {| MemoryManager.vs_healthy := true;
     MemoryManager.llm_requests := [] |}.

(** A vector database that answers a search with two records, the first
    of which does not decode, and with the distances given. *)
Definition store_search (row : list R) : VectorStore.Backend :=
  {| VectorStore.uuid4 := "id-1";
     VectorStore.chroma_add := fun _ _ => Ok ();
     VectorStore.chroma_query := fun _ _ _ =>
       Ok {| VectorStore.qr_metadatas :=
               [[ {| VectorStore.md_full_data := Some "not json" |};
                  {| VectorStore.md_full_data := Some "b" |} ]];
             VectorStore.qr_distances := Some [row] |};
     VectorStore.chroma_get := fun _ => Ok [];
     VectorStore.json_loads := fun text =>
       if String.eqb text "b" then Some (record "2024-01-01T10:00:00")
       else None |}.


(** A vector database holding one record: the turn [turn1] as
    [store_memory] files it with the aggregate of three turns. *)
Definition store_one : VectorStore.Backend :=
  {| VectorStore.uuid4 := "id-1";
     VectorStore.chroma_add := fun _ _ => Ok ();
     VectorStore.chroma_query := fun _ _ _ => Raise BackendError;
     VectorStore.chroma_get := fun _ =>
       Ok [ {| VectorStore.md_full_data := Some "t" |} ];
     VectorStore.json_loads := fun _ =>
       Some (MemoryManager.build_memory_data "2024-01-02T00:00:00"
               "u1" "s1" turn1 (Some (aggregate 3))) |}.


(** The database of [store_two] answering in the opposite order. *)
Definition store_two_reversed : VectorStore.Backend :=
  {| VectorStore.uuid4 := "id-1";
     VectorStore.chroma_add := fun _ _ => Ok ();
     VectorStore.chroma_query := fun _ _ _ => Raise BackendError;
     VectorStore.chroma_get := fun _ =>
       Ok [ {| VectorStore.md_full_data := Some "b" |};
            {| VectorStore.md_full_data := Some "a" |} ];
     VectorStore.json_loads := VectorStore.json_loads store_two |}.


(** A session context, and a codec that knows its text. *)
Definition ctx_order : gmap string Json := {[ "topic" := JStr "order" ]}.

Definition dumps_order (_ : gmap string Json) : string := "{topic: order}".

Definition loads_order (text : string) : option (gmap string Json) :=
  if String.eqb text "{topic: order}" then Some ctx_order else None.

Definition int_day (_ : string) : option Z := Some 86400%Z.

(** The verdict of a Redis server that takes every timeout of 64 bits,
    and of one that refuses those whose number of milliseconds leaves the
    64 bits. *)
Definition expire_any (_ : Z) : bool := true.

Definition expire_int64 (seconds : Z) : bool :=
  bool_decide (- 2 ^ 63 / 1000 <= seconds <= (2 ^ 63 - 1) / 1000)%Z.

Definition store_empty : SessionContext.Store :=
  {| SessionContext.redis :=
       {| MemoryApi.hashes := ∅; MemoryApi.sets := ∅;
          MemoryApi.expiry := ∅ |};
     SessionContext.strings := ∅ |}.

(** The store after the context [ctx_order] of session [s1] was updated. *)
Definition store_updated : SessionContext.Store :=
  snd (SessionContext.update_session_context dumps_order int_day
         expire_any "2024-01-01T10:00:00" "2024-01-01T10:00:01" None store_empty "s1"
         ctx_order).


(** A knowledge answer of two rows, at distances 0.1 and 0.6. *)
Definition answer_two : Knowledge.Answer :=
  {| Knowledge.documents := [["Refund policy"; "Opening hours"]];
     Knowledge.metadatas :=
       [[ {| Knowledge.title := Some "Refunds"; Knowledge.source := None;
             Knowledge.url := None |};
          {| Knowledge.title := None; Knowledge.source := Some "faq";
             Knowledge.url := Some "https://example.org/hours" |} ]];
     Knowledge.distances := [[ (1 / 10)%R; (6 / 10)%R ]];
     Knowledge.ids := [["doc-1"; "doc-2"]] |}.

Definition query_two (_ : list R) (_ : string) (_ : nat)
    : Result Knowledge.Answer := Ok answer_two.

(** A search with the default threshold 0.7. *)
Definition search_request : Knowledge.SearchRequest :=
  {| Knowledge.query := "refund"; Knowledge.organizationId := "org-1";
     Knowledge.limit := 5; Knowledge.threshold := (7 / 10)%R |}.


(** A short-term item whose value and metadata are the context
    [ctx_order], and Redis before anything was stored. *)
Definition item_prefs : MemoryApi.MemoryItem :=
  {| MemoryApi.userId := "u1"; MemoryApi.type := "short_term";
     MemoryApi.key := "prefs"; MemoryApi.value := ctx_order;
     MemoryApi.metadata := Some ctx_order; MemoryApi.ttl := Some 3600%Z |}.

Definition redis_empty : MemoryApi.Redis :=
  {| MemoryApi.hashes := ∅; MemoryApi.sets := ∅; MemoryApi.expiry := ∅ |}.





(** A provider whose call succeeds with an empty [data] list. *)
Definition provider_short : EmbeddingService.Provider :=
  fun _ _ => Ok [].


End Sample.

(* ===================================================================== *)
(** * Vocabulary of the statements *)
(* ===================================================================== *)

Section Orderings.
Context {A K : Type}.
Variable key : A -> K.
Variable ltb : K -> K -> bool.

(** [x] may stand before [y] in an ascending list. *)
Definition asc (x y : A) : Prop := ltb (key y) (key x) = false.

(** [x] may stand before [y] in a descending list. *)
Definition desc (x y : A) : Prop := ltb (key x) (key y) = false.

(** The elements whose key is equivalent to [s]. *)
Definition same_key (s : K) (x : A) : Prop :=
  Py.key_equiv ltb (key x) s = true.

#[global] Instance same_key_dec s x : Decision (same_key s x).
Proof. unfold same_key. apply _. Defined.

End Orderings.

(** The candidates whose score is [s]. *)
Definition scored {M : Type} (s : R) (p : M * R) : Prop := snd p = s.

#[global] Instance scored_dec {M : Type} s (p : M * R) : Decision (scored s p).
Proof. unfold scored. apply _. Defined.

(** The user whose memories the optimiser fetches, if the request names
    one. *)
Definition memories_user {Turn : Type} (req : @Optimizer.Request Turn)
    : option string :=
  match Optimizer.req_userId req with
  | Some u => if Py.truthy_str u then Some u else None
  | None => None
  end.

(** The session whose context the optimiser fetches, if the request names
    one. *)
Definition context_session {Turn : Type} (req : @Optimizer.Request Turn)
    : option string :=
  match Optimizer.req_sessionId req with
  | Some s => if Py.truthy_str s then Some s else None
  | None => None
  end.

(** The embedding provider answers each batch of [texts] with one datum per
    input, tagged with the position of that input in the batch. *)
Definition answers_each_input (provider : EmbeddingService.Provider)
    (texts : list string) : Prop :=
  forall i data,
    provider i (Py.slice_range i EmbeddingService.batch_size texts) = Ok data ->
    EmbeddingService.index <$> data
    ≡ₚ seq 0 (length (Py.slice_range i EmbeddingService.batch_size texts)).

(** A stored record that carries both a message and a response. *)
Definition has_turn (m : MemoryData) : Prop :=
  is_Some (d_message m) /\ is_Some (d_response m).

#[global] Instance has_turn_dec m : Decision (has_turn m).
Proof. unfold has_turn. apply _. Defined.

(** The timestamp of a turn of the history. *)
Definition turn_timestamp (t : TurnDict) : string :=
  default "" (t_timestamp t).

(** The value a stored record gives to key [k] of the context, if any. *)
Definition context_value (k : string) (m : MemoryData) : option Json :=
  d_context m ≫= (fun c => c !! k).

(** The non-empty timestamps of a list of stored records, in order. *)
Definition stamps (l : list MemoryData) : list string :=
  filter (fun t => Py.truthy_str t = true) (omap d_timestamp l).

(** Every timestamp of a list of stored records, the sort key [""]
    standing for an absent one. *)
Definition all_stamps (l : list MemoryData) : list string :=
  MemoryManager.timestamp_key <$> l.

(** [t] is a least, respectively greatest, element of [ts]. *)
Definition is_min (t : string) (ts : list string) : Prop :=
  t ∈ ts /\ forall t', t' ∈ ts -> str_ltb t' t = false.

Definition is_max (t : string) (ts : list string) : Prop :=
  t ∈ ts /\ forall t', t' ∈ ts -> str_ltb t t' = false.

(** [o] is the extremum of [ts], and [None] when [ts] is empty. *)
Definition extremum (P : string -> list string -> Prop) (o : option string)
    (ts : list string) : Prop :=
  match o with
  | Some t => P t ts
  | None => ts = []
  end.



(** The record of a search result, decoded, with the distance found at its
    position; nothing when the record does not decode. *)
Definition scored_record (be : VectorStore.Backend)
    (p : VectorStore.Metadata * R) : option MemoryData :=
  (fun d => VectorStore.set_similarity d (snd p))
    <$> VectorStore.load_full_data be (fst p).


(** The string holds no colon (character 58). *)
Fixpoint colon_free (s : string) : bool :=
  match s with
  | EmptyString => true
  | String c s' => negb (Ascii.eqb c (Ascii.ascii_of_nat 58)) && colon_free s'
  end.


(** The row of a knowledge answer at position [i]: the document, the
    metadata, the distance and the id that the first list of each field
    holds there. *)
Definition answer_row (ans : Knowledge.Answer) (i : nat) (doc : string)
    (m : Knowledge.Meta) (d : R) (id : string) : Prop :=
  head (Knowledge.documents ans) ≫= (.!! i) = Some doc
  /\ head (Knowledge.metadatas ans) ≫= (.!! i) = Some m
  /\ head (Knowledge.distances ans) ≫= (.!! i) = Some d
  /\ head (Knowledge.ids ans) ≫= (.!! i) = Some id.

(** The search result built from a row. *)
Definition row_result (round2 : R -> R) (doc : string) (m : Knowledge.Meta)
    (d : R) (id : string) : Knowledge.SearchResult :=
  {| Knowledge.res_id := id;
     Knowledge.res_title := default "Untitled" (Knowledge.title m);
     Knowledge.res_content := doc;
     Knowledge.res_relevance := round2 (1 - d)%R;
     Knowledge.res_source := default "knowledge_base" (Knowledge.source m);
     Knowledge.res_url := Knowledge.url m |}.


(** The [ttl] of an item lets the store run to its end: it is absent or
    zero (no [EXPIRE] is sent) or a number the server takes. *)
Definition ttl_accepted (expire_ok : Z -> bool) (ttl : option Z) : bool :=
  match ttl with
  | Some t => bool_decide (t = 0)%Z || MemoryApi.takes_timeout expire_ok t
  | None => true
  end.

(** ... and leaves the record in place: it is not negative either. *)
Definition ttl_keeps (expire_ok : Z -> bool) (ttl : option Z) : bool :=
  match ttl with
  | Some t =>
      bool_decide (t = 0)%Z
      || (MemoryApi.takes_timeout expire_ok t && bool_decide (0 < t)%Z)
  | None => true
  end.


(* ===================================================================== *)
(** * Facts about the Python list primitives *)
(* ===================================================================== *)

Section SortedFacts.
Context {A K : Type}.
Variable key : A -> K.
Variable ltb : K -> K -> bool.

(** The comparison is a strict weak order. *)
Hypothesis ltb_irrefl : forall a, ltb a a = false.
Hypothesis ltb_trans :
  forall a b c, ltb a b = true -> ltb b c = true -> ltb a c = true.
Hypothesis ltb_negtrans :
  forall a b c, ltb a b = false -> ltb b c = false -> ltb a c = false.

Lemma insert_by_perm x l : Py.insert_by key ltb x l ≡ₚ x :: l.
Proof.
  induction l as [|y l IH]; simpl; [done|].
  destruct (ltb (key y) (key x)); [|done].
  rewrite IH. apply Permutation_swap.
Qed.

Lemma sorted_perm l : Py.sorted key ltb l ≡ₚ l.
Proof.
  induction l as [|x l IH]; simpl; [done|].
  by rewrite insert_by_perm, IH.
Qed.

Lemma sorted_length l : length (Py.sorted key ltb l) = length l.
Proof. by rewrite sorted_perm. Qed.

Lemma ltb_asym a b : ltb a b = true -> ltb b a = false.
Proof.
  intros Hab. destruct (ltb b a) eqn:Hba; [|done].
  by rewrite <-(ltb_irrefl a), (ltb_trans _ _ _ Hab Hba).
Qed.

Lemma insert_by_asc x l :
  StronglySorted (asc key ltb) l -> StronglySorted (asc key ltb) (Py.insert_by key ltb x l).
Proof.
  induction 1 as [|y l Hl IH Hy]; simpl.
  - repeat constructor.
  - destruct (ltb (key y) (key x)) eqn:Hyx.
    + constructor; [done|].
      rewrite insert_by_perm. constructor; [|done].
      by apply ltb_asym.
    + constructor; [by constructor|].
      constructor; [done|].
      eapply Forall_impl; [exact Hy|].
      intros z Hz. unfold asc in *. by eapply ltb_negtrans.
Qed.

Lemma sorted_asc l : StronglySorted (asc key ltb) (Py.sorted key ltb l).
Proof.
  induction l as [|x l IH]; simpl; [constructor|].
  by apply insert_by_asc.
Qed.

Lemma same_key_not_lt s x y :
  same_key key ltb s x -> same_key key ltb s y -> ltb (key y) (key x) = false.
Proof.
  unfold same_key, Py.key_equiv.
  rewrite !andb_true_iff, !negb_true_iff.
  intros [_ Hsx] [Hys _]. by eapply ltb_negtrans.
Qed.

Lemma insert_by_filter s x l :
  filter (same_key key ltb s) (Py.insert_by key ltb x l)
  = filter (same_key key ltb s) (x :: l).
Proof.
  induction l as [|y l IH]; simpl; [done|].
  destruct (ltb (key y) (key x)) eqn:Hyx; [|done].
  rewrite filter_cons, IH, !filter_cons.
  destruct (decide (same_key key ltb s y)) as [Hy|Hy];
    destruct (decide (same_key key ltb s x)) as [Hx|Hx]; try done.
  by rewrite (same_key_not_lt s x y) in Hyx.
Qed.

(** Stability of [sorted]: the elements of one key class come out in
    the order they went in. *)
Lemma sorted_stable s l :
  filter (same_key key ltb s) (Py.sorted key ltb l) = filter (same_key key ltb s) l.
Proof.
  induction l as [|x l IH]; simpl; [done|].
  by rewrite insert_by_filter, !filter_cons, IH.
Qed.

Lemma StronglySorted_reverse_flip (rel : relation A) l :
  StronglySorted rel l -> StronglySorted (flip rel) (reverse l).
Proof.
  induction 1 as [|x l Hl IH Hx]; [constructor|].
  rewrite reverse_cons.
  apply StronglySorted_app_2; [|done|repeat constructor].
  intros y z Hy Hz. apply list_elem_of_singleton in Hz as ->.
  rewrite elem_of_reverse in Hy. unfold flip.
  rewrite Forall_forall in Hx. by apply Hx.
Qed.

Lemma sorted_reverse_perm l : Py.sorted_reverse key ltb l ≡ₚ l.
Proof.
  unfold Py.sorted_reverse.
  by rewrite reverse_Permutation, sorted_perm, reverse_Permutation.
Qed.

Lemma sorted_reverse_length l :
  length (Py.sorted_reverse key ltb l) = length l.
Proof. by rewrite sorted_reverse_perm. Qed.

Lemma sorted_reverse_desc l :
  StronglySorted (desc key ltb) (Py.sorted_reverse key ltb l).
Proof.
  unfold Py.sorted_reverse.
  apply (StronglySorted_reverse_flip (asc key ltb)), sorted_asc.
Qed.

Lemma sorted_reverse_stable s l :
  filter (same_key key ltb s) (Py.sorted_reverse key ltb l)
  = filter (same_key key ltb s) l.
Proof.
  unfold Py.sorted_reverse.
  by rewrite filter_reverse, sorted_stable, filter_reverse,
             reverse_involutive.
Qed.

End SortedFacts.

Section ListFacts.
Context {A : Type}.

Lemma StronglySorted_sublist (rel : relation A) (l k : list A) :
  l `sublist_of` k -> StronglySorted rel k -> StronglySorted rel l.
Proof.
  induction 1 as [|x l k Hs IH|x l k Hs IH]; intros Hk.
  - constructor.
  - apply StronglySorted_inv in Hk as [Hk Hx]. constructor; [by apply IH|].
    eapply Forall_forall. intros y Hy. rewrite Forall_forall in Hx.
    apply Hx. by eapply elem_of_sublist.
  - apply StronglySorted_inv in Hk as [Hk _]. by apply IH.
Qed.

Lemma StronglySorted_weaken (rel rel' : relation A) (l : list A) :
  (forall x y, rel x y -> rel' x y) ->
  StronglySorted rel l -> StronglySorted rel' l.
Proof.
  intros Himp. induction 1 as [|x l Hl IH Hx]; constructor; [done|].
  eapply Forall_impl; [exact Hx|]. intros y. apply Himp.
Qed.

Lemma filter_take_prefix (P : A -> Prop) `{!forall x, Decision (P x)}
    (n : nat) (l : list A) :
  filter P (take n l) `prefix_of` filter P l.
Proof.
  exists (filter P (drop n l)).
  by rewrite <-filter_app, take_drop.
Qed.

Lemma filter_filter_eq (P Q : A -> Prop) `{!forall x, Decision (P x)}
    `{!forall x, Decision (Q x)} (l : list A) :
  (forall x, P x -> Q x) -> filter P (filter Q l) = filter P l.
Proof.
  intros HPQ. induction l as [|x l IH]; [done|].
  rewrite (filter_cons Q). destruct (decide (Q x)) as [HQ|HQ].
  - rewrite !filter_cons. destruct (decide (P x)); by rewrite IH.
  - rewrite filter_cons. destruct (decide (P x)) as [HP|HP]; [|done].
    by destruct HQ; apply HPQ.
Qed.

Lemma filter_filter_nil (P Q : A -> Prop) `{!forall x, Decision (P x)}
    `{!forall x, Decision (Q x)} (l : list A) :
  (forall x, P x -> ~ Q x) -> filter P (filter Q l) = [].
Proof.
  intros HPQ. induction l as [|x l IH]; [done|].
  rewrite filter_cons.
  destruct (decide (Q x)) as [HQ|HQ]; [|done].
  rewrite filter_cons. destruct (decide (P x)) as [HP|HP]; [|done].
  by destruct (HPQ x HP).
Qed.

(** [l[:2] + l[-8:]] read position by position. *)
Lemma slice_head_tail_lookup (l : list A) (i : nat) :
  10 < length l ->
  (Py.slice_to 2 l ++ Py.slice_last 8 l) !! i
  = if decide (i < 2) then l !! i
    else if decide (i < 10) then l !! (length l - 10 + i) else None.
Proof.
  intros Hl. unfold Py.slice_to, Py.slice_last.
  destruct (decide (i < 2)) as [Hi|Hi].
  - rewrite lookup_app_l by (rewrite length_take; lia).
    by rewrite lookup_take_lt.
  - rewrite lookup_app_r by (rewrite length_take; lia).
    rewrite length_take, lookup_drop.
    replace (2 `min` length l) with 2 by lia.
    destruct (decide (i < 10)).
    + f_equal. lia.
    + apply lookup_ge_None. lia.
Qed.

Lemma slice_head_tail_length (l : list A) :
  10 < length l -> length (Py.slice_to 2 l ++ Py.slice_last 8 l) = 10.
Proof.
  intros Hl. unfold Py.slice_to, Py.slice_last.
  rewrite length_app, length_take, length_drop. lia.
Qed.

Lemma slice_head_tail_sublist (l : list A) :
  10 < length l -> Py.slice_to 2 l ++ Py.slice_last 8 l `sublist_of` l.
Proof.
  intros Hl. unfold Py.slice_to, Py.slice_last.
  transitivity (take 2 l ++ drop 2 l); [|by rewrite take_drop].
  apply sublist_app; [done|].
  replace (length l - 8) with (2 + (length l - 10)) by lia.
  rewrite <-drop_drop. apply sublist_drop.
Qed.

End ListFacts.

(* ===================================================================== *)
(** * The relevance ranker *)
(* ===================================================================== *)

Section RankerFacts.
Import Optimizer.
Local Open Scope R_scope.

Lemma Rltb_irrefl a : Rltb a a = false.
Proof. apply bool_decide_eq_false. lra. Qed.

Lemma Rltb_trans a b c :
  Rltb a b = true -> Rltb b c = true -> Rltb a c = true.
Proof.
  unfold Rltb. rewrite !bool_decide_eq_true. lra.
Qed.

Lemma Rltb_negtrans a b c :
  Rltb a b = false -> Rltb b c = false -> Rltb a c = false.
Proof.
  unfold Rltb. rewrite !bool_decide_eq_false. lra.
Qed.

Lemma Rltb_equiv a b : Py.key_equiv Rltb a b = true <-> a = b.
Proof.
  unfold Py.key_equiv, Rltb.
  rewrite andb_true_iff, !negb_true_iff, !bool_decide_eq_false. lra.
Qed.

Lemma py_sum_squares_nonneg v : 0 <= py_sum ((fun a => a * a) <$> v).
Proof.
  unfold py_sum. induction v as [|a v IH]; csimpl; [lra|].
  pose proof (Rle_0_sqr a) as Ha. unfold Rsqr in Ha. lra.
Qed.

Lemma magnitude_nonneg v : 0 <= magnitude v.
Proof. apply sqrt_pos. Qed.

(** The magnitude vanishes exactly on the vectors of zeros. *)
Lemma magnitude_zero_iff v : magnitude v = 0 <-> Forall (fun a => a = 0) v.
Proof.
  unfold magnitude. split.
  - intros H. apply sqrt_eq_0 in H; [|apply py_sum_squares_nonneg].
    induction v as [|a v IH]; [constructor|].
    pose proof (py_sum_squares_nonneg v) as Hv.
    unfold py_sum in *. csimpl in H.
    pose proof (Rle_0_sqr a) as Ha. unfold Rsqr in Ha.
    assert (a * a = 0) as Haa by lra.
    constructor; [|apply IH; lra].
    by apply Rmult_integral in Haa as [?|?].
  - intros H. replace (py_sum ((fun a => a * a) <$> v)) with 0;
      [apply sqrt_0|].
    unfold py_sum.
    induction H as [|a v -> _ IH]; csimpl; [done|]. rewrite <-IH. lra.
Qed.

Lemma similarity_eq q m :
  similarity q m
  = Ok (if decide (magnitude q = 0 \/ magnitude m = 0) then 0
        else dot_product q m / (magnitude q * magnitude m)).
Proof.
  unfold similarity, Rltb, py_div.
  pose proof (magnitude_nonneg q) as Hq.
  pose proof (magnitude_nonneg m) as Hm.
  destruct (decide (magnitude q = 0 \/ magnitude m = 0)) as [Hz|Hz].
  - rewrite bool_decide_eq_false_2; [done|].
    destruct Hz as [-> | ->]; lra.
  - assert (0 < magnitude q * magnitude m) as Hpos.
    { apply Rmult_lt_0_compat; apply Rnot_le_lt; intros ?; apply Hz;
        [left|right]; lra. }
    rewrite bool_decide_eq_true_2 by done.
    destruct (decide (magnitude q * magnitude m = 0)); [lra|done].
Qed.

Lemma relevance_scores_ok q ms :
  exists scores,
    relevance_scores q ms = Ok scores /\ length scores = length ms.
Proof.
  unfold relevance_scores.
  induction ms as [|m ms IH]; simpl; [by exists []|].
  destruct IH as (scores & Hs & Hlen).
  rewrite similarity_eq. simpl. rewrite Hs. simpl.
  eexists; split; [done|]. simpl. by rewrite Hlen.
Qed.

End RankerFacts.



Section SelectTopFacts.
Import Optimizer.
Local Open Scope R_scope.
Context {Value : Type}.
Implicit Types (cands : list (@Memory Value * R)) (s : R).

Lemma filter_scored_same_key s cands :
  filter (scored s) cands = filter (same_key snd Rltb s) cands.
Proof.
  apply list_filter_iff. intros p. unfold scored, same_key.
  by rewrite Rltb_equiv.
Qed.

Lemma sorted_reverse_scored s cands :
  filter (scored s) (Py.sorted_reverse snd Rltb cands)
  = filter (scored s) cands.
Proof.
  rewrite !filter_scored_same_key.
  apply sorted_reverse_stable;
    first [apply Rltb_irrefl | apply Rltb_trans | apply Rltb_negtrans].
Qed.

Lemma sorted_reverse_descending cands :
  StronglySorted (fun p q => snd q <= snd p)
                 (Py.sorted_reverse snd Rltb cands).
Proof.
  eapply (StronglySorted_weaken (desc snd Rltb)).
  - intros p q. unfold desc, Rltb. rewrite bool_decide_eq_false. lra.
  - apply sorted_reverse_desc;
      first [apply Rltb_irrefl | apply Rltb_trans | apply Rltb_negtrans].
Qed.

Lemma select_top_sublist cands :
  select_top cands `sublist_of` cands.
Proof.
  unfold select_top, Py.slice_to.
  etransitivity; [apply sublist_filter|apply sublist_take].
Qed.

Lemma select_top_length cands : (length (select_top cands) <= 3)%nat.
Proof.
  unfold select_top, Py.slice_to.
  etransitivity; [apply length_filter|]. rewrite length_take. lia.
Qed.

Lemma select_top_scored s cands :
  filter (scored s) (select_top cands) `prefix_of` filter (scored s) cands.
Proof.
  unfold select_top, Py.slice_to.
  destruct (decide (0.7 < s)) as [Hs|Hs].
  - rewrite filter_filter_eq; [apply filter_take_prefix|].
    intros p. unfold scored. by intros ->.
  - rewrite filter_filter_nil; [apply prefix_nil|].
    intros p. unfold scored. by intros ->.
Qed.

End SelectTopFacts.

(** C5. The selection of relevant memories sorts the candidates by
    descending score with a stable sort (candidates with equal scores keep
    the order they had), keeps at most 3 of them, and returns none whose
    score is at most 0.7. *)
Theorem select_top_ranking {Value : Type}
    (memories : list (@Optimizer.Memory Value)) (scores : list R) :
  let cands := Optimizer.py_zip memories scores in
  let ranked := Optimizer.sorted_memories memories scores in
  let res := Optimizer.select_top ranked in
  (* the ranking is a stable descending sort of the candidates *)
  ranked ≡ₚ cands
  /\ StronglySorted (fun p q => (snd q <= snd p)%R) ranked
  /\ (forall s, filter (scored s) ranked = filter (scored s) cands)
  (* the selection *)
  /\ length res <= 3
  /\ (forall p, p ∈ res -> ~ (snd p <= 0.7)%R)
  /\ res `sublist_of` ranked
  /\ StronglySorted (fun p q => (snd q <= snd p)%R) res
  /\ (forall s, filter (scored s) res `prefix_of` filter (scored s) cands).
Proof.
  intros cands ranked res. subst res ranked. unfold Optimizer.sorted_memories.
  fold cands.
  assert (StronglySorted (fun p q => (snd q <= snd p)%R)
            (Py.sorted_reverse snd Optimizer.Rltb cands)) as Hdesc
    by apply sorted_reverse_descending.
  repeat split.
  - apply sorted_reverse_perm.
  - exact Hdesc.
  - intros s. apply sorted_reverse_scored.
  - apply select_top_length.
  - intros p Hp. unfold Optimizer.select_top in Hp.
    apply list_elem_of_filter in Hp as [Hp _]. lra.
  - apply select_top_sublist.
  - eapply StronglySorted_sublist; [apply select_top_sublist|exact Hdesc].
  - intros s. rewrite <-(sorted_reverse_scored s cands).
    apply select_top_scored.
Qed.

(* ===================================================================== *)
(** * The context optimiser *)
(* ===================================================================== *)

Section OptimizeFacts.
Import Optimizer.
Context {Turn Value : Type}.
Variables (json_dumps py_str : Value -> string) (is_dict : Value -> bool).
Variables (generate_embedding : string -> list R) (round2 : R -> R).

Local Abbreviation optimize :=
  (optimize_context (Turn := Turn) json_dumps py_str is_dict
                    generate_embedding round2).
Local Abbreviation relevant :=
  (fetch_relevant (Turn := Turn) json_dumps py_str is_dict
                  generate_embedding round2).

Implicit Types (be : @Backends Value) (req : @Request Turn).

Lemma fetch_relevant_no_user be req :
  memories_user req = None -> relevant be req = Ok [].
Proof.
  unfold memories_user, fetch_relevant.
  destruct (req_userId req) as [u|]; [|done].
  by destruct (Py.truthy_str u).
Qed.

Lemma fetch_relevant_raise be req u e :
  memories_user req = Some u -> get_memories be u = Raise e ->
  relevant be req = Raise e.
Proof.
  unfold memories_user, fetch_relevant.
  destruct (req_userId req) as [u'|]; [|done].
  destruct (Py.truthy_str u'); [|done].
  intros [= ->] ->. done.
Qed.

Lemma fetch_relevant_ok be req u ms :
  memories_user req = Some u -> get_memories be u = Ok ms ->
  exists rel, relevant be req = Ok rel /\ length rel <= 3.
Proof.
  unfold memories_user, fetch_relevant.
  destruct (req_userId req) as [u'|]; [|done].
  destruct (Py.truthy_str u'); [|done].
  intros [= ->] ->. simpl.
  destruct (Py.truthy_list ms && Py.truthy_str (req_user_query req));
    [|exists []; split; [done|simpl; lia]].
  destruct (relevance_scores_ok
              (generate_embedding (req_user_query req))
              (generate_embedding <$> (memory_text json_dumps py_str is_dict <$> ms)))
    as (scores & -> & _).
  simpl. eexists; split; [done|].
  rewrite length_fmap. apply select_top_length.
Qed.

Lemma fetch_session_raise be req s e :
  context_session req = Some s -> get_session_context be s = Raise e ->
  fetch_session be req = ∅.
Proof.
  unfold context_session, fetch_session.
  destruct (req_sessionId req) as [s'|]; [|done].
  destruct (Py.truthy_str s'); [|done].
  by intros [= ->] ->.
Qed.

Lemma fetch_session_ok be req s ctx :
  context_session req = Some s -> get_session_context be s = Ok ctx ->
  fetch_session be req = ctx.
Proof.
  unfold context_session, fetch_session.
  destruct (req_sessionId req) as [s'|]; [|done].
  destruct (Py.truthy_str s'); [|done].
  by intros [= ->] ->.
Qed.

Lemma fetch_session_none be req :
  context_session req = None -> fetch_session be req = ∅.
Proof.
  unfold context_session, fetch_session.
  destruct (req_sessionId req) as [s'|]; [|done].
  by destruct (Py.truthy_str s').
Qed.

Lemma optimize_unfold be req :
  optimize be req
  = match relevant be req with
    | Ok rel =>
        Ok {| conversation_history :=
                optimized_history (req_conversation_history req);
              relevant_memories := rel;
              session_context := fetch_session be req |}
    | Raise _ => Raise (HTTPException 500)
    end.
Proof.
  unfold optimize_context. by destruct (relevant be req).
Qed.

End OptimizeFacts.


(** C4. Whenever [optimize_context] returns, its conversation history is
    the input history unchanged when that has at most 10 turns, and
    otherwise the first 2 turns followed by the last 8: 10 turns, in their
    original order. A history [T0..T11] gives
    [T0, T1, T4, T5, T6, T7, T8, T9, T10, T11]. *)
Theorem optimize_truncation {Turn Value : Type}
    (json_dumps py_str : Value -> string) (is_dict : Value -> bool)
    (generate_embedding : string -> list R) (round2 : R -> R)
    (be : Optimizer.Backends) (req : @Optimizer.Request Turn)
    (r : Optimizer.OptimizedContext) :
  Optimizer.optimize_context json_dumps py_str is_dict generate_embedding
                             round2 be req = Ok r ->
  let h := Optimizer.req_conversation_history req in
  let out := Optimizer.conversation_history r in
  (length h <= 10 -> out = h)
  /\ (10 < length h ->
      out = take 2 h ++ drop (length h - 8) h
      /\ length out = 10
      /\ out `sublist_of` h
      /\ forall i, out !! i = if decide (i < 2) then h !! i
                             else if decide (i < 10)
                                  then h !! (length h - 10 + i) else None)
  /\ (forall T0 T1 T2 T3 T4 T5 T6 T7 T8 T9 T10 T11,
        h = [T0; T1; T2; T3; T4; T5; T6; T7; T8; T9; T10; T11] ->
        out = [T0; T1; T4; T5; T6; T7; T8; T9; T10; T11]).
Proof.
  rewrite optimize_unfold.
  destruct (Optimizer.fetch_relevant _ _ _ _ _ be req) as [rel|e]; [|done].
  intros [= <-]. simpl. unfold Optimizer.optimized_history.
  split; [|split].
  - intros Hle. destruct (decide _); [lia|done].
  - intros Hlt. rewrite decide_True by done.
    split; [done|]. split; [by apply slice_head_tail_length|].
    split; [by apply slice_head_tail_sublist|].
    intros i. by apply slice_head_tail_lookup.
  - intros T0 T1 T2 T3 T4 T5 T6 T7 T8 T9 T10 T11 ->. done.
Qed.

Lemma optimize_truncation_witness :
  exists r,
    Sample.optimize Sample.backends_up Sample.request_anonymous = Ok r
    /\ Optimizer.conversation_history r = [0; 1; 4; 5; 6; 7; 8; 9; 10; 11]
    /\ Optimizer.relevant_memories r = []
    /\ Optimizer.session_context r = ∅.
Proof.
  assert (Sample.optimize Sample.backends_up Sample.request_anonymous
          = Ok {| Optimizer.conversation_history :=
                    [0; 1; 4; 5; 6; 7; 8; 9; 10; 11];
                  Optimizer.relevant_memories := [];
                  Optimizer.session_context := ∅ |}) as Hrun
    by reflexivity.
  eexists. split; [exact Hrun|].
  split; [|split; reflexivity].
  destruct (optimize_truncation _ _ _ _ _ _ _ _ Hrun) as (_ & _ & H12).
  exact (H12 0 1 2 3 4 5 6 7 8 9 10 11 eq_refl).
Defined.

(** C2, the claim as stated fails: the session context is available, yet a
    failing memory fetch makes [optimize_context] raise, so that no session
    context is assembled. *)
Lemma optimize_memory_failure_propagates :
  Optimizer.get_session_context Sample.backends_memories_down "s1"
  = Ok Sample.ctx1
  /\ Sample.optimize Sample.backends_memories_down Sample.request_known
     = Raise (HTTPException 500)
  /\ ~ (exists r,
          Sample.optimize Sample.backends_memories_down Sample.request_known
          = Ok r).
Proof.
  split; [reflexivity|]. split; [reflexivity|].
  intros [r Hr]. discriminate Hr.
Qed.

(** C2, amended. In [optimize_context] the session-context fetch is
    fault-isolated and the memory fetch is not: whenever the memory fetch
    does not fail the call returns, with the relevant memories of step 1
    and with the fetched session context or, when that fetch fails or no
    session is named, the empty map; a failing memory fetch makes the call
    raise HTTP 500; a call without user and session returns the truncated
    history, no relevant memories and an empty session context. *)
Theorem optimize_fault_isolation {Turn Value : Type}
    (json_dumps py_str : Value -> string) (is_dict : Value -> bool)
    (generate_embedding : string -> list R) (round2 : R -> R)
    (be : Optimizer.Backends) (req : @Optimizer.Request Turn) :
  let optimize :=
    Optimizer.optimize_context json_dumps py_str is_dict generate_embedding
                               round2 in
  let relevant :=
    Optimizer.fetch_relevant (Turn := Turn) json_dumps py_str is_dict
                             generate_embedding round2 in
  let h := Optimizer.optimized_history (Optimizer.req_conversation_history req) in
  (* step 1 does not look at the session backend *)
  (forall gsc gsc',
      relevant {| Optimizer.get_memories := Optimizer.get_memories be;
                  Optimizer.get_session_context := gsc |} req
      = relevant {| Optimizer.get_memories := Optimizer.get_memories be;
                    Optimizer.get_session_context := gsc' |} req)
  (* the memory fetch succeeded or was not made: the call returns *)
  /\ ((memories_user req = None
       \/ exists u ms, memories_user req = Some u
                       /\ Optimizer.get_memories be u = Ok ms) ->
      exists rel,
        relevant be req = Ok rel
        /\ optimize be req
           = Ok {| Optimizer.conversation_history := h;
                   Optimizer.relevant_memories := rel;
                   Optimizer.session_context :=
                     match context_session req with
                     | Some s =>
                         match Optimizer.get_session_context be s with
                         | Ok ctx => ctx
                         | Raise _ => ∅
                         end
                     | None => ∅
                     end |})
  (* the memory fetch failed: the call fails *)
  /\ (forall u e, memories_user req = Some u ->
                  Optimizer.get_memories be u = Raise e ->
                  optimize be req = Raise (HTTPException 500))
  (* neither user nor session *)
  /\ (Optimizer.req_userId req = None ->
      Optimizer.req_sessionId req = None ->
      optimize be req
      = Ok {| Optimizer.conversation_history := h;
              Optimizer.relevant_memories := [];
              Optimizer.session_context := ∅ |}).
Proof.
  intros optimize relevant h. subst optimize relevant h.
  split; [done|]. split; [|split].
  - intros Hmem.
    assert (exists rel,
      Optimizer.fetch_relevant (Turn := Turn) json_dumps py_str is_dict
        generate_embedding round2 be req = Ok rel) as [rel Hrel].
    { destruct Hmem as [Hnone|(u & ms & Hu & Hms)].
      - exists []. by apply fetch_relevant_no_user.
      - destruct (fetch_relevant_ok json_dumps py_str is_dict
                    generate_embedding round2 be req u ms Hu Hms)
          as (rel & Hrel & _).
        by exists rel. }
    exists rel. split; [done|].
    rewrite optimize_unfold, Hrel. do 2 f_equal.
    destruct (context_session req) as [s|] eqn:Hs.
    + destruct (Optimizer.get_session_context be s) as [ctx|e] eqn:Hctx.
      * by eapply fetch_session_ok.
      * by eapply fetch_session_raise.
    + by apply fetch_session_none.
  - intros u e Hu He.
    rewrite optimize_unfold.
    by rewrite (fetch_relevant_raise json_dumps py_str is_dict
                  generate_embedding round2 be req u e Hu He).
  - intros Hu Hs. rewrite optimize_unfold.
    rewrite fetch_relevant_no_user
      by (unfold memories_user; by rewrite Hu).
    rewrite fetch_session_none
      by (unfold context_session; by rewrite Hs).
    done.
Qed.

Lemma optimize_fault_isolation_witness :
  Sample.optimize Sample.backends_session_down Sample.request_known
  = Ok {| Optimizer.conversation_history := [0; 1; 2];
          Optimizer.relevant_memories := [];
          Optimizer.session_context := ∅ |}
  /\ Sample.optimize Sample.backends_memories_down Sample.request_known
     = Raise (HTTPException 500).
Proof.
  pose proof (optimize_fault_isolation (Turn := nat) (Value := unit)
                (fun _ => "{}") (fun _ => "None") (fun _ => true)
                (fun _ => []) (fun x => x)) as H.
  split.
  - destruct (H Sample.backends_session_down Sample.request_known)
      as (_ & Hok & _).
    destruct Hok as (rel & Hrel & Hopt).
    + right. exists "u1", []. split; reflexivity.
    + injection Hrel as <-. exact Hopt.
  - destruct (H Sample.backends_memories_down Sample.request_known)
      as (_ & _ & Hfail & _).
    exact (Hfail "u1" (HTTPException 500) eq_refl eq_refl).
Defined.

(* ===================================================================== *)
(** * The embedding service *)
(* ===================================================================== *)

Section EmbeddingFacts.
Import EmbeddingService.
Ltac Zify.zify_post_hook ::= Z.div_mod_to_equations.

Variable provider : Provider.
Variable texts : list string.

Local Abbreviation answers_each_input :=
  (answers_each_input provider texts).

Lemma foldl_step starts acc h :
  fst (foldl (step provider texts) (acc, h) starts)
  = acc ++ concat ((fun i => fst (batch_embeddings provider texts i))
                     <$> starts).
Proof.
  revert acc h. induction starts as [|i starts IH]; intros acc h; simpl.
  - by rewrite app_nil_r.
  - unfold step at 2. simpl. rewrite IH. by rewrite <-app_assoc.
Qed.

Lemma get_embeddings_concat h :
  fst (get_embeddings provider h texts)
  = concat ((fun j => fst (batch_embeddings provider texts (j * batch_size)))
              <$> seq 0 ((length texts + 99) / 100)).
Proof.
  unfold get_embeddings. destruct texts as [|t ts] eqn:Htexts; [done|].
  rewrite <-Htexts. rewrite foldl_step. simpl.
  unfold Py.range_step. rewrite <-list_fmap_compose. done.
Qed.

Lemma slice_range_length i :
  length (Py.slice_range i batch_size texts)
  = Nat.min batch_size (length texts - i).
Proof. unfold Py.slice_range. by rewrite length_take, length_drop. Qed.

Lemma sorted_by_index (data : list Datum) n :
  index <$> data ≡ₚ seq 0 n ->
  index <$> Py.sorted index Nat.ltb data = seq 0 n.
Proof.
  intros Hperm.
  apply (StronglySorted_unique le).
  - eapply (StronglySorted_fmap _ (asc index Nat.ltb)).
    + intros x y. unfold asc. rewrite Nat.ltb_ge. done.
    + apply sorted_asc.
      * intros a. apply Nat.ltb_irrefl.
      * intros a b c. rewrite !Nat.ltb_lt. lia.
      * intros a b c. rewrite !Nat.ltb_ge. lia.
  - clear. generalize 0. induction n as [|n IH]; intros k; simpl;
      constructor; [apply IH|].
    apply Forall_forall. intros x Hx. apply elem_of_seq in Hx. lia.
  - rewrite <-Hperm. apply fmap_Permutation, sorted_perm.
Qed.

Lemma batch_embeddings_length i :
  answers_each_input ->
  length (fst (batch_embeddings provider texts i))
  = Nat.min batch_size (length texts - i).
Proof.
  intros Hp. unfold batch_embeddings.
  destruct (provider i (Py.slice_range i batch_size texts)) as [data|e] eqn:Hd;
    simpl.
  - rewrite length_fmap, sorted_length.
    apply Hp in Hd. apply Permutation_length in Hd.
    rewrite length_fmap, length_seq in Hd. by rewrite Hd, slice_range_length.
  - by rewrite length_replicate, slice_range_length.
Qed.

Lemma chunks_length (G : nat -> list (list R)) (L K : nat) :
  (forall j, j < K -> length (G j) = Nat.min 100 (L - j * 100)) ->
  length (concat (G <$> seq 0 K)) = Nat.min (K * 100) L.
Proof.
  induction K as [|K IH]; intros HG; [done|].
  rewrite seq_S, fmap_app, concat_app, length_app.
  change (concat (G <$> [0 + K])) with (G K ++ []).
  rewrite app_nil_r, IH by (intros; apply HG; lia).
  rewrite HG by lia. lia.
Qed.

Lemma chunks_lookup (G : nat -> list (list R)) (L K i : nat) :
  (forall j, j < K -> length (G j) = Nat.min 100 (L - j * 100)) ->
  i < L -> i / 100 < K ->
  concat (G <$> seq 0 K) !! i = G (i / 100) !! (i mod 100).
Proof.
  induction K as [|K IH]; intros HG Hi HK; [lia|].
  rewrite seq_S, fmap_app, concat_app.
  change (concat (G <$> [0 + K])) with (G K ++ []). rewrite app_nil_r.
  assert (length (concat (G <$> seq 0 K)) = Nat.min (K * 100) L) as Hlen
    by (apply chunks_length; intros; apply HG; lia).
  destruct (decide (i < K * 100)) as [Hlt|Hge].
  - rewrite lookup_app_l by lia.
    apply IH; [intros; apply HG; lia|done|lia].
  - rewrite lookup_app_r by lia. rewrite Hlen.
    replace (i / 100) with K by lia. f_equal. lia.
Qed.

End EmbeddingFacts.


(** C10, the claim as stated fails: the vectors appended for a batch whose
    call succeeds are the elements of [response.data], however many they
    are. With a provider that answers without data, two texts give no
    vector at all, and the service is left healthy. *)
Lemma get_embeddings_short_answer :
  let out :=
    EmbeddingService.get_embeddings Sample.provider_short false
      Sample.texts2 in
  out = ([], true)
  /\ length (fst out) <> length Sample.texts2.
Proof. cbv zeta. split; [reflexivity|]. simpl. lia. Qed.

(** C10, amended. When the provider answers each batch with one datum per
    input, tagged with the position of that input in the batch,
    [get_embeddings] returns exactly one vector per input text, in input
    order: the vector at the position of a text is the embedding that the
    provider tagged with the position of that text in its batch, or the
    all-zero vector of dimension 1536 when the call for that batch failed.
    The output is as long as the input. *)
Theorem get_embeddings_one_per_text (provider : EmbeddingService.Provider)
    (healthy : bool) (texts : list string) :
  answers_each_input provider texts ->
  let out := fst (EmbeddingService.get_embeddings provider healthy texts) in
  length out = length texts
  /\ length EmbeddingService.zero_vector = 1536
  /\ forall k text, texts !! k = Some text ->
       let i := k / 100 * 100 in
       match provider i (Py.slice_range i EmbeddingService.batch_size texts)
       with
       | Ok data =>
           exists d, d ∈ data
                     /\ EmbeddingService.index d = k mod 100
                     /\ out !! k = Some (EmbeddingService.embedding d)
       | Raise _ => out !! k = Some EmbeddingService.zero_vector
       end.
Proof.
  intros Hp out. subst out. rewrite get_embeddings_concat.
  set (G := fun j => fst (EmbeddingService.batch_embeddings provider texts
                            (j * EmbeddingService.batch_size))).
  assert (forall j, j < (length texts + 99) / 100 ->
                    length (G j) = Nat.min 100 (length texts - j * 100)) as HG.
  { intros j _. unfold G. by rewrite batch_embeddings_length. }
  split; [|split].
  - rewrite (chunks_length G (length texts)) by done.
    pose proof (Nat.div_mod_eq (length texts + 99) 100) as Hdm.
    pose proof (Nat.mod_upper_bound (length texts + 99) 100) as Hub. lia.
  - apply length_replicate.
  - intros k text Hk i.
    apply lookup_lt_Some in Hk as Hlt.
    assert (k / 100 < (length texts + 99) / 100) as HK.
    { apply Nat.Div0.div_lt_upper_bound.
      pose proof (Nat.div_mod_eq (length texts + 99) 100) as Hdm.
      pose proof (Nat.mod_upper_bound (length texts + 99) 100) as Hub. lia. }
    rewrite (chunks_lookup G (length texts)) by done.
    unfold G, EmbeddingService.batch_embeddings. fold i.
    change (k / 100 * EmbeddingService.batch_size) with i.
    assert (k mod 100
            < length (Py.slice_range i EmbeddingService.batch_size texts))
      as Hpos.
    { rewrite slice_range_length. unfold EmbeddingService.batch_size. subst i.
      pose proof (Nat.div_mod_eq k 100) as Hdm.
      pose proof (Nat.mod_upper_bound k 100) as Hub. lia. }
    destruct (provider i (Py.slice_range i EmbeddingService.batch_size texts))
      as [data|e] eqn:Hd; cbn [fst].
    + pose proof (sorted_by_index data _ (Hp _ _ Hd)) as Hidx.
      assert (length (Py.sorted EmbeddingService.index Nat.ltb data)
              = length (Py.slice_range i EmbeddingService.batch_size texts))
        as Hlen.
      { rewrite <-(length_fmap EmbeddingService.index), Hidx.
        apply length_seq. }
      destruct (lookup_lt_is_Some_2
                  (Py.sorted EmbeddingService.index Nat.ltb data) (k mod 100))
        as [d Hd']; [lia|].
      exists d. split; [|split].
      * rewrite <-(sorted_perm EmbeddingService.index Nat.ltb data).
        by eapply list_elem_of_lookup_2.
      * assert ((EmbeddingService.index
                   <$> Py.sorted EmbeddingService.index Nat.ltb data)
                !! (k mod 100) = Some (EmbeddingService.index d)) as Hi
          by (by rewrite list_lookup_fmap, Hd').
        rewrite Hidx in Hi. apply lookup_seq in Hi as [Hi _]. by rewrite Hi.
      * by rewrite list_lookup_fmap, Hd'.
    + by apply lookup_replicate_2.
Qed.

Lemma get_embeddings_one_per_text_witness :
  answers_each_input Sample.provider_unordered Sample.texts2
  /\ fst (EmbeddingService.get_embeddings Sample.provider_unordered true
                                          Sample.texts2)
     = [[1%R]; [2%R]]
  /\ length (fst (EmbeddingService.get_embeddings Sample.provider_unordered
                                                  true Sample.texts2))
     = length Sample.texts2.
Proof.
  assert (answers_each_input Sample.provider_unordered Sample.texts2) as Hp.
  { intros [|i] data; [|discriminate].
    intros [= <-]. apply Permutation_swap. }
  split; [exact Hp|]. split; [reflexivity|].
  exact (proj1 (get_embeddings_one_per_text Sample.provider_unordered true
                  Sample.texts2 Hp)).
Defined.


(* ===================================================================== *)
(** * The memory manager and the summariser *)
(* ===================================================================== *)

Section SummarizeFacts.
Import MemoryManager.
Implicit Types (sm : Summarizer) (w : World) (memory : MemoryObj).

Lemma summarize_short sm w u s memory :
  length (m_history memory) < 5 ->
  _summarize_context sm w u s memory = (memory, w).
Proof.
  intros Hlen. unfold _summarize_context. by rewrite decide_True.
Qed.

Lemma summarize_requests sm w u s memory :
  5 <= length (m_history memory) ->
  llm_requests (snd (_summarize_context sm w u s memory))
  = llm_requests w ++ [conversation_text (m_history memory)].
Proof.
  intros Hlen. unfold _summarize_context. rewrite decide_False by lia.
  by destruct (chat_completion sm _).
Qed.

Lemma summarize_failure sm w u s memory e :
  chat_completion sm (conversation_text (m_history memory)) = Raise e ->
  fst (_summarize_context sm w u s memory) = memory.
Proof.
  intros He. unfold _summarize_context.
  destruct (decide _); [done|]. by rewrite He.
Qed.

Lemma summarize_success sm w u s memory text :
  5 <= length (m_history memory) ->
  chat_completion sm (conversation_text (m_history memory)) = Ok text ->
  exists summary,
    fst (_summarize_context sm w u s memory)
    = with_history memory (Py.slice_last 10 (m_history memory))
        (<["conversation_summary" := summary]> (m_context memory))
    /\ summary = default (JObj [("summary", JStr text)]) (summary_loads sm text).
Proof.
  intros Hlen Htext. unfold _summarize_context.
  rewrite decide_False by lia. rewrite Htext.
  eexists. split; [done|]. by destruct (summary_loads sm text).
Qed.

Lemma summarize_healthy sm w u s memory :
  vs_healthy (snd (_summarize_context sm w u s memory)) = vs_healthy w.
Proof.
  unfold _summarize_context. destruct (decide _); [done|].
  by destruct (chat_completion sm _).
Qed.

Lemma slice_last_length {A} (l : list A) n :
  length (Py.slice_last n l) = Nat.min n (length l).
Proof. unfold Py.slice_last. rewrite length_drop. lia. Qed.

End SummarizeFacts.

Section StoreFacts.
Import MemoryManager.
Implicit Types (be : VectorStore.Backend) (sm : Summarizer) (w : World).
Implicit Types (memory : MemoryObj) (turn : TurnDict).

(** The world once the adapter has stored the record. *)
Lemma store_memory_stored be sm now w u s turn memory :
  VectorStore.chroma_add be (VectorStore.uuid4 be)
    (build_memory_data now u s turn (Some memory)) = Ok () ->
  store_memory be sm now w u s turn (Some memory)
  = if decide (20 < length (m_history memory)) then
      (Ok (VectorStore.uuid4 be),
       Some (fst (_summarize_context sm
                    {| vs_healthy := vs_healthy w;
                       llm_requests := llm_requests w |} u s memory)),
       snd (_summarize_context sm
              {| vs_healthy := vs_healthy w;
                 llm_requests := llm_requests w |} u s memory))
    else (Ok (VectorStore.uuid4 be), Some memory,
          {| vs_healthy := vs_healthy w; llm_requests := llm_requests w |}).
Proof.
  intros Hadd. unfold store_memory, VectorStore.store_memory.
  rewrite Hadd. destruct (decide _); [|done].
  by destruct (_summarize_context _ _ _ _ _).
Qed.

Lemma store_memory_failed be sm now w u s turn (mem : option MemoryObj) e :
  VectorStore.chroma_add be (VectorStore.uuid4 be)
    (build_memory_data now u s turn mem) = Raise e ->
  store_memory be sm now w u s turn mem
  = (Raise e, mem, {| vs_healthy := false; llm_requests := llm_requests w |}).
Proof.
  intros Hadd. unfold store_memory, VectorStore.store_memory.
  by rewrite Hadd.
Qed.

Lemma store_memory_result be sm now w u s turn (mem : option MemoryObj) :
  fst (fst (store_memory be sm now w u s turn mem))
  = match VectorStore.chroma_add be (VectorStore.uuid4 be)
            (build_memory_data now u s turn mem) with
    | Ok _ => Ok (VectorStore.uuid4 be)
    | Raise e => Raise e
    end.
Proof.
  unfold store_memory, VectorStore.store_memory.
  destruct (VectorStore.chroma_add _ _ _) as [[]|e]; [|done].
  destruct mem as [memory|]; [|done].
  destruct (decide _); [|done].
  by destruct (_summarize_context _ _ _ _ _).
Qed.

End StoreFacts.

(** C7. Summarisation is best-effort: with fewer than 5 turns of history
    the summariser returns the memory unchanged (and calls no provider); on
    a failure of the provider call it returns the original memory
    unmodified; and the outcome of [store_memory] is that of the store
    adapter, whatever the summariser does. *)
Theorem summarization_best_effort (sm : MemoryManager.Summarizer)
    (w : MemoryManager.World) (u s : string) (memory : MemoryObj) :
  (length (m_history memory) < 5 ->
   MemoryManager._summarize_context sm w u s memory = (memory, w))
  /\ (forall e,
        MemoryManager.chat_completion sm
          (MemoryManager.conversation_text (m_history memory)) = Raise e ->
        fst (MemoryManager._summarize_context sm w u s memory) = memory)
  /\ (forall be now turn,
        let out := MemoryManager.store_memory be sm now w u s turn
                     (Some memory) in
        (VectorStore.chroma_add be (VectorStore.uuid4 be)
           (MemoryManager.build_memory_data now u s turn (Some memory))
         = Ok () ->
         fst (fst out) = Ok (VectorStore.uuid4 be))
        /\ (forall e,
              MemoryManager.chat_completion sm
                (MemoryManager.conversation_text (m_history memory))
              = Raise e ->
              snd (fst out) = Some memory)).
Proof.
  split; [apply summarize_short|]. split; [apply summarize_failure|].
  intros be now turn out. subst out. split.
  - intros Hadd. by rewrite store_memory_result, Hadd.
  - intros e He.
    destruct (VectorStore.chroma_add be (VectorStore.uuid4 be)
                (MemoryManager.build_memory_data now u s turn (Some memory)))
      as [[]|e'] eqn:Hadd.
    + rewrite store_memory_stored by done.
      destruct (decide _); [|done]. simpl.
      by erewrite summarize_failure.
    + by rewrite (store_memory_failed be sm now w u s turn (Some memory)
                    e' Hadd).
Qed.

Lemma summarization_best_effort_witness :
  MemoryManager._summarize_context Sample.summarizer_up Sample.world0
    "u1" "s1" (Sample.aggregate 4)
  = (Sample.aggregate 4, Sample.world0)
  /\ fst (MemoryManager._summarize_context Sample.summarizer_down
            Sample.world0 "u1" "s1" (Sample.aggregate 21))
     = Sample.aggregate 21
  /\ fst (fst (MemoryManager.store_memory Sample.store_up
                 Sample.summarizer_down "2024-01-02T00:00:00" Sample.world0
                 "u1" "s1" Sample.turn1 (Some (Sample.aggregate 21))))
     = Ok "id-1".
Proof.
  split; [|split].
  - destruct (summarization_best_effort Sample.summarizer_up Sample.world0
                "u1" "s1" (Sample.aggregate 4)) as (Hshort & _).
    apply Hshort. simpl. lia.
  - destruct (summarization_best_effort Sample.summarizer_down Sample.world0
                "u1" "s1" (Sample.aggregate 21)) as (_ & Hfail & _).
    exact (Hfail BackendError eq_refl).
  - destruct (summarization_best_effort Sample.summarizer_down Sample.world0
                "u1" "s1" (Sample.aggregate 21)) as (_ & _ & Hstore).
    destruct (Hstore Sample.store_up "2024-01-02T00:00:00" Sample.turn1)
      as (Hok & _).
    exact (Hok eq_refl).
Defined.

(** C1, the claim as stated fails: with a history of 20 turns and all
    collaborators working, storing a turn calls no provider and leaves the
    20 turns in place; and with a history of 21 turns and a provider whose
    call fails, the summariser is called and the 21 turns stay. *)
Lemma store_at_20_does_not_summarize :
  let store sm n :=
    MemoryManager.store_memory Sample.store_up sm "2024-01-02T00:00:00"
      Sample.world0 "u1" "s1" Sample.turn1 (Some (Sample.aggregate n)) in
  let out := store Sample.summarizer_up 20 in
  let out' := store Sample.summarizer_down 21 in
  (fst (fst out) = Ok "id-1"
   /\ MemoryManager.llm_requests (snd out) = []
   /\ (m_history <$> snd (fst out)) = Some (replicate 20 Sample.turn1)
   /\ (length <$> (m_history <$> snd (fst out))) <> Some (Nat.min 10 20))
  /\ (fst (fst out') = Ok "id-1"
      /\ length (MemoryManager.llm_requests (snd out')) = 1
      /\ (length <$> (m_history <$> snd (fst out'))) = Some 21).
Proof.
  cbv zeta. split.
  - split; [reflexivity|]. split; [reflexivity|].
    split; [reflexivity|]. discriminate.
  - split; [reflexivity|]. split; reflexivity.
Qed.

(** C1, amended. Storing a turn with an existing aggregate summarises only
    when the history has more than 20 turns: with at most 20 turns (19 and
    20 among them) no provider is called and the aggregate is unchanged;
    with more than 20 turns, once the record is stored, the summariser is
    called on the history, and when the provider answers the history is cut
    to its last 10 turns, which is [min(10, originalLength)], while a
    failing provider leaves the aggregate unchanged. *)
Theorem store_summarization_trigger (be : VectorStore.Backend)
    (sm : MemoryManager.Summarizer) (now : string) (w : MemoryManager.World)
    (u s : string) (turn : TurnDict) (memory : MemoryObj) :
  let h := m_history memory in
  let out := MemoryManager.store_memory be sm now w u s turn (Some memory) in
  let requests := MemoryManager.llm_requests (snd out) in
  (length h <= 20 ->
   snd (fst out) = Some memory /\ requests = MemoryManager.llm_requests w)
  /\ (20 < length h -> is_ok (fst (fst out)) = true ->
      requests = MemoryManager.llm_requests w
                 ++ [MemoryManager.conversation_text h]
      /\ (forall text,
            MemoryManager.chat_completion sm
              (MemoryManager.conversation_text h) = Ok text ->
            exists memory',
              snd (fst out) = Some memory'
              /\ m_history memory' = drop (length h - 10) h
              /\ length (m_history memory') = Nat.min 10 (length h)
              /\ length (m_history memory') = 10
              /\ is_Some (m_context memory' !! "conversation_summary"))
      /\ (forall e,
            MemoryManager.chat_completion sm
              (MemoryManager.conversation_text h) = Raise e ->
            snd (fst out) = Some memory))
  /\ (is_ok (fst (fst out)) = false ->
      snd (fst out) = Some memory /\ requests = MemoryManager.llm_requests w).
Proof.
  intros h out requests. subst requests out h.
  destruct (VectorStore.chroma_add be (VectorStore.uuid4 be)
              (MemoryManager.build_memory_data now u s turn (Some memory)))
    as [[]|e'] eqn:Hadd.
  - rewrite store_memory_stored by done.
    destruct (decide (20 < length (m_history memory))) as [Hgt|Hle]; simpl.
    + split; [lia|]. split; [|done]. intros _ _.
      split; [by rewrite summarize_requests by lia|]. split.
      * intros text Htext.
        destruct (summarize_success sm
                    {| MemoryManager.vs_healthy := MemoryManager.vs_healthy w;
                       MemoryManager.llm_requests :=
                         MemoryManager.llm_requests w |}
                    u s memory text) as (summary & -> & _); [lia|done|].
        eexists. split; [done|]. simpl.
        rewrite slice_last_length.
        split; [done|]. split; [done|]. split; [lia|].
        rewrite lookup_insert_eq. by eexists.
      * intros e He. by erewrite summarize_failure.
    + split; [done|]. split; [lia|done].
  - rewrite (store_memory_failed be sm now w u s turn (Some memory)
               e' Hadd). simpl.
    split; [done|]. split; [done|done].
Qed.

Lemma store_summarization_trigger_witness :
  exists memory',
    snd (fst (MemoryManager.store_memory Sample.store_up Sample.summarizer_up
                "2024-01-02T00:00:00" Sample.world0 "u1" "s1" Sample.turn1
                (Some (Sample.aggregate 21))))
    = Some memory'
    /\ length (m_history memory') = 10.
Proof.
  pose proof (store_summarization_trigger Sample.store_up
                Sample.summarizer_up "2024-01-02T00:00:00" Sample.world0
                "u1" "s1" Sample.turn1 (Sample.aggregate 21)) as H.
  cbv zeta in H. destruct H as (_ & H & _).
  destruct H as (_ & Hok & _).
  - simpl. lia.
  - reflexivity.
  - destruct (Hok "{}" eq_refl) as (memory' & Hm & _ & _ & Hlen & _).
    exists memory'. split; assumption.
Defined.

Section ReadFacts.
Import MemoryManager.
Implicit Types (be : VectorStore.Backend) (w : World).

Lemma get_all_failed be healthy u e :
  VectorStore.chroma_get be u = Raise e ->
  VectorStore.get_all_user_memories be healthy u = ([], false).
Proof. intros He. unfold VectorStore.get_all_user_memories. by rewrite He. Qed.

Lemma search_failed be healthy u q limit e :
  VectorStore.chroma_query be u q limit = Raise e ->
  VectorStore.search_memories be healthy u q limit = ([], false).
Proof. intros He. unfold VectorStore.search_memories. by rewrite He. Qed.

Lemma selected_memories_nil sess : selected_memories sess [] = [].
Proof. unfold selected_memories. by destruct (Py.truthy_opt sess). Qed.

Lemma get_memory_ok be w u sess :
  is_ok (fst (get_memory be w u sess)) = true.
Proof.
  unfold get_memory. by destruct (VectorStore.get_all_user_memories _ _ _).
Qed.

Lemma search_memories_ok be w u q limit :
  is_ok (fst (search_memories be w u q limit)) = true.
Proof.
  unfold search_memories. by destruct (VectorStore.search_memories _ _ _ _ _).
Qed.

End ReadFacts.

(** C3, the claim as stated fails: with an unreachable vector database the
    manager's get and search return normally, with an empty memory and an
    empty list. *)
Lemma adapter_failure_gives_empty_result :
  VectorStore.chroma_get Sample.store_down "u1" = Raise BackendError
  /\ VectorStore.chroma_query Sample.store_down "u1" "order" 5
     = Raise BackendError
  /\ fst (MemoryManager.get_memory Sample.store_down Sample.world0 "u1" None)
     = Ok {| m_userId := "u1"; m_sessionId := ""; m_history := [];
             m_context := ∅; m_firstInteraction := None;
             m_lastInteraction := None |}
  /\ fst (MemoryManager.search_memories Sample.store_down Sample.world0
            "u1" "order" 5) = Ok []
  /\ (forall e,
        fst (MemoryManager.get_memory Sample.store_down Sample.world0 "u1"
               None) <> Raise e)
  /\ (forall e,
        fst (MemoryManager.search_memories Sample.store_down Sample.world0
               "u1" "order" 5) <> Raise e).
Proof.
  repeat split; try reflexivity; intros e; discriminate.
Qed.

(** C3, amended. A backend failure inside the long-term store adapter
    reaches the caller of the manager only on the store path. On get and
    search the adapter catches it, clears its health flag and returns the
    empty list, so that the manager returns an empty memory, respectively
    an empty result; the manager's get and search never raise. *)
Theorem adapter_failure_semantics (be : VectorStore.Backend)
    (w : MemoryManager.World) (u : string) :
  (forall sess e,
      VectorStore.chroma_get be u = Raise e ->
      MemoryManager.get_memory be w u sess
      = (Ok {| m_userId := u;
               m_sessionId := if Py.truthy_opt sess then default "" sess
                              else "";
               m_history := []; m_context := ∅;
               m_firstInteraction := None; m_lastInteraction := None |},
         {| MemoryManager.vs_healthy := false;
            MemoryManager.llm_requests := MemoryManager.llm_requests w |}))
  /\ (forall q limit e,
        VectorStore.chroma_query be u q limit = Raise e ->
        MemoryManager.search_memories be w u q limit
        = (Ok [],
           {| MemoryManager.vs_healthy := false;
              MemoryManager.llm_requests := MemoryManager.llm_requests w |}))
  /\ (forall sess q limit,
        is_ok (fst (MemoryManager.get_memory be w u sess)) = true
        /\ is_ok (fst (MemoryManager.search_memories be w u q limit)) = true)
  /\ (forall sm now s turn mem e,
        VectorStore.chroma_add be (VectorStore.uuid4 be)
          (MemoryManager.build_memory_data now u s turn mem) = Raise e ->
        MemoryManager.store_memory be sm now w u s turn mem
        = (Raise e, mem,
           {| MemoryManager.vs_healthy := false;
              MemoryManager.llm_requests := MemoryManager.llm_requests w |})).
Proof.
  split; [|split; [|split]].
  - intros sess e He. unfold MemoryManager.get_memory.
    rewrite (get_all_failed be _ u e He). by rewrite selected_memories_nil.
  - intros q limit e He. unfold MemoryManager.search_memories.
    by rewrite (search_failed be _ u q limit e He).
  - intros sess q limit. split.
    + apply get_memory_ok.
    + apply search_memories_ok.
  - intros sm now s turn mem e He. by apply store_memory_failed.
Qed.

Lemma adapter_failure_semantics_witness :
  MemoryManager.get_memory Sample.store_down Sample.world0 "u1" (Some "s1")
  = (Ok {| m_userId := "u1"; m_sessionId := "s1"; m_history := [];
           m_context := ∅; m_firstInteraction := None;
           m_lastInteraction := None |},
     {| MemoryManager.vs_healthy := false;
        MemoryManager.llm_requests := [] |})
  /\ MemoryManager.search_memories Sample.store_down Sample.world0 "u1"
       "order" 5
     = (Ok [],
        {| MemoryManager.vs_healthy := false;
           MemoryManager.llm_requests := [] |}).
Proof.
  destruct (adapter_failure_semantics Sample.store_down Sample.world0 "u1")
    as (Hget & Hsearch & _).
  split.
  - exact (Hget (Some "s1") BackendError eq_refl).
  - exact (Hsearch "order" 5 BackendError eq_refl).
Defined.

Section StringOrder.

Lemma str_ltb_lt a b :
  str_ltb a b = true <-> OrdersEx.String_as_OT.lt a b.
Proof.
  unfold str_ltb, OrdersEx.String_as_OT.lt.
  destruct (OrdersEx.String_as_OT.compare a b); split; congruence.
Qed.

Lemma str_ltb_irrefl a : str_ltb a a = false.
Proof.
  apply not_true_is_false. rewrite str_ltb_lt.
  apply (StrictOrder_Irreflexive (R := OrdersEx.String_as_OT.lt)).
Qed.

Lemma str_ltb_trans a b c :
  str_ltb a b = true -> str_ltb b c = true -> str_ltb a c = true.
Proof.
  rewrite !str_ltb_lt.
  apply (StrictOrder_Transitive (R := OrdersEx.String_as_OT.lt)).
Qed.

Lemma str_ltb_total a b :
  str_ltb a b = true \/ a = b \/ str_ltb b a = true.
Proof.
  rewrite !str_ltb_lt.
  destruct (OrdersEx.String_as_OT.compare_spec a b); auto.
Qed.

Lemma str_ltb_negtrans a b c :
  str_ltb a b = false -> str_ltb b c = false -> str_ltb a c = false.
Proof.
  intros Hab Hbc. apply not_true_is_false. intros Hac.
  destruct (str_ltb_total a b) as [H|[->|H]]; [congruence|congruence|].
  destruct (str_ltb_total b c) as [H'|[->|H']]; [congruence|congruence|].
  pose proof (str_ltb_trans _ _ _ H' H) as Hca.
  pose proof (str_ltb_trans _ _ _ Hac Hca) as Haa.
  by rewrite str_ltb_irrefl in Haa.
Qed.

End StringOrder.

Section GetMemoryFacts.
Import MemoryManager.
Implicit Types (a : Acc) (l : list MemoryData) (m : MemoryData).

Lemma acc_step_history a m :
  acc_history (acc_step a m)
  = if decide (has_turn m) then acc_history a ++ [turn_of m]
    else acc_history a.
Proof.
  assert (acc_history (acc_step a m)
          = match d_message m, d_response m with
            | Some _, Some _ => acc_history a ++ [turn_of m]
            | _, _ => acc_history a
            end) as ->.
  { unfold acc_step.
    by destruct (d_timestamp m) as [t|]; [destruct (Py.truthy_str t)|]. }
  destruct (decide (has_turn m)) as [[[? H1] [? H2]]|Hn].
  - by rewrite H1, H2.
  - destruct (d_message m) eqn:H1; [|done].
    destruct (d_response m) eqn:H2; [|done].
    destruct Hn. unfold has_turn. rewrite H1, H2. split; by eexists.
Qed.

Lemma acc_step_context a m :
  acc_context (acc_step a m)
  = match d_context m with
    | Some c => c ∪ acc_context a
    | None => acc_context a
    end.
Proof.
  unfold acc_step.
  by destruct (d_timestamp m) as [t|]; [destruct (Py.truthy_str t)|].
Qed.

Lemma acc_step_first a m :
  acc_first (acc_step a m)
  = match d_timestamp m with
    | Some t => if Py.truthy_str t then track_first (acc_first a) t
                else acc_first a
    | None => acc_first a
    end.
Proof.
  unfold acc_step.
  by destruct (d_timestamp m) as [t|]; [destruct (Py.truthy_str t)|].
Qed.

Lemma acc_step_last a m :
  acc_last (acc_step a m)
  = match d_timestamp m with
    | Some t => if Py.truthy_str t then track_last (acc_last a) t
                else acc_last a
    | None => acc_last a
    end.
Proof.
  unfold acc_step.
  by destruct (d_timestamp m) as [t|]; [destruct (Py.truthy_str t)|].
Qed.

Lemma fold_history l a :
  acc_history (foldl acc_step a l)
  = acc_history a ++ (turn_of <$> filter has_turn l).
Proof.
  revert a. induction l as [|m l IH]; intros a; simpl.
  - by rewrite app_nil_r.
  - rewrite IH, filter_cons, acc_step_history.
    destruct (decide (has_turn m)); [|done].
    by rewrite fmap_cons, <-app_assoc.
Qed.

Lemma fold_context l a k :
  acc_context (foldl acc_step a l) !! k
  = match last (omap (context_value k) l) with
    | Some v => Some v
    | None => acc_context a !! k
    end.
Proof.
  revert a. induction l as [|m l IH]; intros a; [done|].
  change (foldl acc_step a (m :: l)) with (foldl acc_step (acc_step a m) l).
  change (omap (context_value k) (m :: l))
    with (match context_value k m with
          | Some v => v :: omap (context_value k) l
          | None => omap (context_value k) l
          end).
  rewrite IH, acc_step_context.
  destruct (context_value k m) as [v|] eqn:Hv.
  - rewrite last_cons.
    destruct (last (omap (context_value k) l)); [done|].
    unfold context_value in Hv.
    destruct (d_context m) as [c|]; [|done]. simpl in Hv.
    rewrite lookup_union_l' by (by rewrite Hv). done.
  - destruct (last (omap (context_value k) l)); [done|].
    unfold context_value in Hv.
    destruct (d_context m) as [c|]; [|done]. simpl in Hv.
    by rewrite lookup_union_r.
Qed.

Lemma stamps_snoc l m :
  stamps (l ++ [m])
  = stamps l ++ match d_timestamp m with
                | Some t => if Py.truthy_str t then [t] else []
                | None => []
                end.
Proof.
  unfold stamps. rewrite omap_app, filter_app. f_equal. simpl.
  destruct (d_timestamp m) as [t|]; [|done]. simpl.
  rewrite filter_cons. destruct (decide _) as [->|Hn]; [done|].
  by destruct (Py.truthy_str t).
Qed.

Lemma stamps_truthy l t : t ∈ stamps l -> Py.truthy_str t = true.
Proof. unfold stamps. by intros [? _]%list_elem_of_filter. Qed.

Lemma track_first_min o ts t :
  Py.truthy_str t = true ->
  (forall f, o = Some f -> Py.truthy_str f = true) ->
  extremum is_min o ts ->
  extremum is_min (track_first o t) (ts ++ [t]).
Proof.
  intros Ht Htr Hmin. unfold track_first.
  destruct o as [f|]; simpl in *.
  - rewrite (Htr f eq_refl). simpl. destruct Hmin as [Hin Hle].
    destruct (str_ltb t f) eqn:Htf; simpl; split.
    + apply elem_of_app. right. by apply list_elem_of_singleton.
    + intros t' [Ht'|Ht']%elem_of_app.
      * apply not_true_is_false. intros Hlt.
        specialize (Hle t' Ht').
        by rewrite (str_ltb_trans _ _ _ Hlt Htf) in Hle.
      * apply list_elem_of_singleton in Ht' as ->. apply str_ltb_irrefl.
    + apply elem_of_app. by left.
    + intros t' [Ht'|Ht']%elem_of_app; [by apply Hle|].
      by apply list_elem_of_singleton in Ht' as ->.
  - subst ts. split; [by apply list_elem_of_singleton|].
    intros t' ->%list_elem_of_singleton. apply str_ltb_irrefl.
Qed.

Lemma track_last_max o ts t :
  Py.truthy_str t = true ->
  (forall f, o = Some f -> Py.truthy_str f = true) ->
  extremum is_max o ts ->
  extremum is_max (track_last o t) (ts ++ [t]).
Proof.
  intros Ht Htr Hmax. unfold track_last.
  destruct o as [f|]; simpl in *.
  - rewrite (Htr f eq_refl). simpl. destruct Hmax as [Hin Hle].
    destruct (str_ltb f t) eqn:Hft; simpl; split.
    + apply elem_of_app. right. by apply list_elem_of_singleton.
    + intros t' [Ht'|Ht']%elem_of_app.
      * apply not_true_is_false. intros Hlt.
        specialize (Hle t' Ht').
        by rewrite (str_ltb_trans _ _ _ Hft Hlt) in Hle.
      * apply list_elem_of_singleton in Ht' as ->. apply str_ltb_irrefl.
    + apply elem_of_app. by left.
    + intros t' [Ht'|Ht']%elem_of_app; [by apply Hle|].
      by apply list_elem_of_singleton in Ht' as ->.
  - subst ts. split; [by apply list_elem_of_singleton|].
    intros t' ->%list_elem_of_singleton. apply str_ltb_irrefl.
Qed.

Lemma extremum_truthy P o l :
  (forall t ts, P t ts -> t ∈ ts) ->
  extremum P o (stamps l) ->
  forall f, o = Some f -> Py.truthy_str f = true.
Proof.
  intros HP Hext f ->. simpl in Hext. eapply stamps_truthy, HP, Hext.
Qed.

Lemma fold_first_last l :
  extremum is_min (acc_first (foldl acc_step acc_init l)) (stamps l)
  /\ extremum is_max (acc_last (foldl acc_step acc_init l)) (stamps l).
Proof.
  induction l as [|m l [IHf IHl]] using rev_ind; [done|].
  rewrite foldl_app, stamps_snoc. simpl.
  rewrite acc_step_first, acc_step_last.
  destruct (d_timestamp m) as [t|]; [|by rewrite app_nil_r].
  destruct (Py.truthy_str t) eqn:Ht; [|by rewrite app_nil_r].
  split.
  - apply track_first_min; [done| |done].
    eapply extremum_truthy; [|exact IHf]. by intros ? ? [? _].
  - apply track_last_max; [done| |done].
    eapply extremum_truthy; [|exact IHl]. by intros ? ? [? _].
Qed.

Lemma selected_memories_sorted sess l :
  StronglySorted (asc timestamp_key str_ltb) (selected_memories sess l).
Proof.
  unfold selected_memories. apply sorted_asc.
  - apply str_ltb_irrefl.
  - apply str_ltb_trans.
  - apply str_ltb_negtrans.
Qed.

Lemma selected_memories_perm sess l :
  selected_memories sess l
  ≡ₚ if Py.truthy_opt sess then filter (in_session (default "" sess)) l
     else l.
Proof. unfold selected_memories. apply sorted_perm. Qed.

Lemma history_sorted l :
  StronglySorted (asc timestamp_key str_ltb) l ->
  StronglySorted (asc turn_timestamp str_ltb)
                 (turn_of <$> filter has_turn l).
Proof.
  intros Hl.
  eapply (StronglySorted_fmap _ (asc timestamp_key str_ltb)).
  - intros x y Hxy. exact Hxy.
  - eapply StronglySorted_sublist; [apply sublist_filter|exact Hl].
Qed.

End GetMemoryFacts.

(** C8, the claim as stated fails: of two retrieved records, one stored
    with the empty timestamp, [firstInteraction] is the timestamp of the
    other one, which is not the least timestamp of the retrieved records. *)
Lemma first_interaction_skips_empty_timestamp :
  let retrieved :=
    MemoryManager.selected_memories None
      (fst (VectorStore.get_all_user_memories Sample.store_two true "u1")) in
  all_stamps retrieved = [""; "2024-01-01T10:00:00"]
  /\ is_min "" (all_stamps retrieved)
  /\ exists m,
       fst (MemoryManager.get_memory Sample.store_two Sample.world0 "u1" None)
       = Ok m
       /\ m_firstInteraction m = Some "2024-01-01T10:00:00"
       /\ ~ extremum is_min (m_firstInteraction m) (all_stamps retrieved).
Proof.
  cbv zeta.
  assert (all_stamps
            (MemoryManager.selected_memories None
               (fst (VectorStore.get_all_user_memories Sample.store_two true
                       "u1")))
          = [""; "2024-01-01T10:00:00"]) as Hst by reflexivity.
  rewrite Hst. split; [done|]. split.
  - split; [apply list_elem_of_here|].
    intros t' Ht'. by destruct t'.
  - eexists. split; [reflexivity|]. split; [reflexivity|].
    simpl. intros [_ Hmin].
    specialize (Hmin "" (list_elem_of_here _ _)). discriminate Hmin.
Qed.

(** C8, amended. [get_memory] returns a memory whose history is built from
    the retrieved records sorted ascending by timestamp, whose context
    gives to each key the value of the last record, in that order, whose
    context holds the key, and whose [firstInteraction] and
    [lastInteraction] are the least and the greatest of the non-empty
    timestamps of the retrieved records, and [None] when there is none. *)
Theorem get_memory_aggregate (be : VectorStore.Backend)
    (w : MemoryManager.World) (u : string) (sess : option string) :
  let fetched :=
    fst (VectorStore.get_all_user_memories be (MemoryManager.vs_healthy w) u)
  in
  let retrieved := MemoryManager.selected_memories sess fetched in
  exists m,
    fst (MemoryManager.get_memory be w u sess) = Ok m
    /\ retrieved
       ≡ₚ (if Py.truthy_opt sess
           then filter (MemoryManager.in_session (default "" sess)) fetched
           else fetched)
    /\ StronglySorted (asc MemoryManager.timestamp_key str_ltb) retrieved
    /\ m_history m = MemoryManager.turn_of <$> filter has_turn retrieved
    /\ StronglySorted (asc turn_timestamp str_ltb) (m_history m)
    /\ (forall k, m_context m !! k = last (omap (context_value k) retrieved))
    /\ extremum is_min (m_firstInteraction m) (stamps retrieved)
    /\ extremum is_max (m_lastInteraction m) (stamps retrieved).
Proof.
  intros fetched retrieved. unfold MemoryManager.get_memory.
  destruct (VectorStore.get_all_user_memories be (MemoryManager.vs_healthy w) u)
    as [memories healthy] eqn:Hget.
  subst fetched retrieved. simpl.
  eexists. split; [done|]. simpl.
  split; [apply selected_memories_perm|].
  split; [apply selected_memories_sorted|].
  rewrite fold_history. simpl.
  split; [done|].
  split; [apply history_sorted, selected_memories_sorted|].
  split.
  - intros k. rewrite fold_context. simpl.
    by destruct (last _).
  - apply fold_first_last.
Qed.

Lemma get_memory_aggregate_witness :
  exists m,
    fst (MemoryManager.get_memory Sample.store_two Sample.world0 "u1" None)
    = Ok m
    /\ length (m_history m) = 2
    /\ m_firstInteraction m = Some "2024-01-01T10:00:00"
    /\ is_min "2024-01-01T10:00:00" ["2024-01-01T10:00:00"].
Proof.
  destruct (get_memory_aggregate Sample.store_two Sample.world0 "u1" None)
    as (m & Hm & _ & _ & _ & _ & _ & Hfirst & _).
  exists m. split; [exact Hm|].
  assert (fst (MemoryManager.get_memory Sample.store_two Sample.world0 "u1"
                 None)
          = Ok {| m_userId := "u1"; m_sessionId := "";
                  m_history :=
                    MemoryManager.turn_of
                      <$> [Sample.record ""; Sample.record "2024-01-01T10:00:00"];
                  m_context := ∅;
                  m_firstInteraction := Some "2024-01-01T10:00:00";
                  m_lastInteraction := Some "2024-01-01T10:00:00" |}) as Hrun
    by reflexivity.
  rewrite Hrun in Hm. injection Hm as <-.
  split; [reflexivity|]. split; [reflexivity|]. exact Hfirst.
Defined.

(* ===================================================================== *)
(** * Storing memory items *)
(* ===================================================================== *)

Section StoreItemFacts.
Import MemoryApi.
Variable json_dumps : gmap string Json -> string.
Variable expire_ok : Z -> bool.
Implicit Types (item : MemoryItem) (r : Redis).

Local Abbreviation fields := (short_term_fields json_dumps).
Local Abbreviation store := (store_short_term_memory json_dumps expire_ok).



Lemma fields_nonempty n1 n2 item (old : gmap string string) :
  fields n1 n2 item ∪ old <> ∅.
Proof.
  intros Heq. apply (f_equal (fun m => m !! "id")) in Heq.
  rewrite lookup_empty in Heq.
  by rewrite (lookup_union_Some_l _ _ _ (memory_id_of item)) in Heq.
Qed.

(** After [HSET] the key exists. *)
Lemma hset_fields_exists n1 n2 item r :
  key_exists (memory_id_of item)
    (hset (memory_id_of item) (fields n1 n2 item) r) = true.
Proof.
  unfold key_exists, hset. simpl. rewrite lookup_insert_eq. simpl.
  rewrite bool_decide_false by apply fields_nonempty. done.
Qed.

(** The store, case by case on the [ttl] of the item. *)
Lemma store_cases n1 n2 item r :
  let id := memory_id_of item in
  let r1 := hset id (fields n1 n2 item) r in
  let indexed r2 := (Ok id, sadd (index_key (userId item)) id r2) in
  store n1 n2 item r
  = match ttl item with
    | None => indexed r1
    | Some t =>
        if decide (t = 0)%Z then indexed r1
        else if takes_timeout expire_ok t then
               if decide (t <= 0)%Z then indexed (del id r1)
               else indexed (set_lifetime id t r1)
             else (Raise BackendError, r1)
    end.
Proof.
  intros id r1 indexed. unfold store_short_term_memory, expire.
  fold id. fold r1.
  destruct (ttl item) as [t|]; [|done].
  destruct (decide (t = 0)%Z); [done|].
  destruct (takes_timeout expire_ok t); [|done].
  unfold r1, id. rewrite hset_fields_exists.
  by destruct (decide (t <= 0)%Z).
Qed.

(** With a [ttl] that keeps the record, the store writes the hash, gives
    it its lifetime and files the id in the index. *)
Lemma store_kept n1 n2 item r :
  ttl_keeps expire_ok (ttl item) = true ->
  let id := memory_id_of item in
  let r1 := hset id (fields n1 n2 item) r in
  store n1 n2 item r
  = (Ok id,
     sadd (index_key (userId item)) id
       match ttl item with
       | Some t => if decide (t = 0)%Z then r1 else set_lifetime id t r1
       | None => r1
       end).
Proof.
  intros Hk id r1. rewrite store_cases. fold id. fold r1.
  unfold ttl_keeps in Hk. destruct (ttl item) as [t|]; [|done].
  destruct (decide (t = 0)%Z); [done|].
  rewrite bool_decide_false in Hk by done. simpl in Hk.
  apply andb_true_iff in Hk as [-> Hpos%bool_decide_eq_true].
  by rewrite decide_False by lia.
Qed.


Lemma store_hashes n1 n2 item r :
  ttl_keeps expire_ok (ttl item) = true ->
  hashes (snd (store n1 n2 item r))
  = <[memory_id_of item :=
        fields n1 n2 item ∪ default ∅ (hashes r !! memory_id_of item)]>
      (hashes r).
Proof.
  intros Hk. rewrite store_kept by done. simpl.
  destruct (ttl item) as [t|]; [|done]. by destruct (decide _).
Qed.

Lemma store_sets n1 n2 item r :
  ttl_keeps expire_ok (ttl item) = true ->
  sets (snd (store n1 n2 item r))
  = <[index_key (userId item) :=
        {[memory_id_of item]}
        ∪ default ∅ (sets r !! index_key (userId item))]> (sets r).
Proof.
  intros Hk. rewrite store_kept by done. simpl.
  destruct (ttl item) as [t|]; [|done]. by destruct (decide _).
Qed.




End StoreItemFacts.




(** [create_memory] answers with the composite id on both paths. *)
Lemma create_memory_id (json_dumps : gmap string Json -> string)
    (expire_ok : Z -> bool)
    (n1 n2 : string) (item : MemoryApi.MemoryItem) (r : MemoryApi.Redis) :
  ttl_keeps expire_ok (MemoryApi.ttl item) = true ->
  MemoryApi.type item = "short_term" \/ MemoryApi.type item = "long_term" ->
  fst (fst (MemoryApi.create_memory json_dumps expire_ok n1 n2 item r))
  = Ok (MemoryApi.memory_id_of item).
Proof.
  intros Hk [Ht|Ht]; unfold MemoryApi.create_memory; rewrite Ht; [|done].
  simpl. by rewrite store_kept.
Qed.

(** The conversation-turn store of the vector-store adapter takes no memory
    item: a stored turn is filed under the id drawn for it. *)
Lemma vector_store_id_is_drawn (be : VectorStore.Backend) (healthy : bool)
    (user_id : string) (data : MemoryData) (id : string) :
  fst (VectorStore.store_memory be healthy user_id data) = Ok id ->
  id = VectorStore.uuid4 be.
Proof.
  unfold VectorStore.store_memory.
  destruct (VectorStore.chroma_add _ _ _); [|done]. by intros [= <-].
Qed.

(* ===================================================================== *)
(** * The primitives on small inputs *)
(* ===================================================================== *)

Example sorted_reverse_keeps_ties :
  Py.sorted_reverse snd Nat.ltb [("a", 1); ("b", 2); ("c", 1); ("d", 2)]
  = [("b", 2); ("d", 2); ("a", 1); ("c", 1)].
Proof. reflexivity. Qed.

Example sorted_keeps_ties :
  Py.sorted snd Nat.ltb [("a", 2); ("b", 1); ("c", 2); ("d", 1)]
  = [("b", 1); ("d", 1); ("a", 2); ("c", 2)].
Proof. reflexivity. Qed.

Example range_step_250 : Py.range_step 250 100 = [0; 100; 200].
Proof. reflexivity. Qed.

Example range_step_200 : Py.range_step 200 100 = [0; 100].
Proof. reflexivity. Qed.

Example slice_last_short : Py.slice_last 8 [1; 2; 3] = [1; 2; 3].
Proof. reflexivity. Qed.

Example conversation_text_one_turn :
  MemoryManager.conversation_text [Sample.turn1]
  = "User: hello" +:+ String (Ascii.ascii_of_nat 10) "Assistant: hi".
Proof. reflexivity. Qed.

Example memory_id_of_sample :
  MemoryApi.memory_id_of
    {| MemoryApi.userId := "u1"; MemoryApi.type := "short_term";
       MemoryApi.key := "lang"; MemoryApi.value := ∅;
       MemoryApi.metadata := None; MemoryApi.ttl := None |}
  = "memory:u1:short_term:lang".
Proof. reflexivity. Qed.

(* ===================================================================== *)
(** * Further properties of the ranker and the optimiser *)
(* ===================================================================== *)

Section HistoryFacts.
Context {Turn : Type}.
Implicit Types (h : list Turn).

Lemma optimized_history_short h :
  length h <= 10 -> Optimizer.optimized_history h = h.
Proof.
  intros Hle. unfold Optimizer.optimized_history.
  by rewrite decide_False by lia.
Qed.

Lemma optimized_history_long h :
  10 < length h ->
  Optimizer.optimized_history h = take 2 h ++ drop (length h - 8) h.
Proof.
  intros Hlt. unfold Optimizer.optimized_history.
  by rewrite decide_True by done.
Qed.

Lemma optimized_history_length h :
  length (Optimizer.optimized_history h) = Nat.min (length h) 10.
Proof.
  destruct (decide (10 < length h)) as [Hlt|Hle].
  - rewrite optimized_history_long by done.
    rewrite length_app, length_take, length_drop. lia.
  - rewrite optimized_history_short by lia. lia.
Qed.

Lemma optimized_history_tail h k :
  k <= 8 ->
  drop (length (Optimizer.optimized_history h) - k)
       (Optimizer.optimized_history h)
  = drop (length h - k) h.
Proof.
  intros Hk. rewrite optimized_history_length.
  destruct (decide (10 < length h)) as [Hlt|Hle].
  - rewrite optimized_history_long by done.
    rewrite drop_app_ge by (rewrite length_take; lia).
    rewrite length_take, drop_drop. f_equal. lia.
  - rewrite optimized_history_short by lia. f_equal. lia.
Qed.

End HistoryFacts.

(** X3. The truncation of the history never returns more than 10 turns nor
    more than it was given, returns a subsequence of its input, keeps the
    first two turns and the last eight (so the latest turn is never
    dropped), and truncating twice is truncating once. *)
Theorem optimized_history_invariants {Turn : Type} (h : list Turn) :
  let out := Optimizer.optimized_history h in
  length out = Nat.min (length h) 10
  /\ Optimizer.optimized_history out = out
  /\ out `sublist_of` h
  /\ take 2 out = take 2 h
  /\ (forall k, k <= 8 -> drop (length out - k) out = drop (length h - k) h)
  /\ last out = last h.
Proof.
  intros out. subst out.
  split; [apply optimized_history_length|].
  split.
  { apply optimized_history_short. rewrite optimized_history_length. lia. }
  split.
  { destruct (decide (10 < length h)) as [Hlt|Hle].
    - rewrite optimized_history_long by done.
      by apply slice_head_tail_sublist.
    - by rewrite optimized_history_short by lia. }
  split.
  { destruct (decide (10 < length h)) as [Hlt|Hle].
    - rewrite optimized_history_long by done.
      rewrite take_app_le by (rewrite length_take; lia).
      rewrite take_take. f_equal.
    - by rewrite optimized_history_short by lia. }
  split; [apply optimized_history_tail|].
  pose proof (optimized_history_tail h 1) as H1.
  rewrite !last_lookup.
  assert (forall l : list Turn, l !! pred (length l) = drop (length l - 1) l !! 0)
    as Hl.
  { intros l. rewrite lookup_drop. f_equal. lia. }
  rewrite !Hl, H1 by lia. done.
Qed.

Section RelevantFacts.
Import Optimizer.
Context {Turn Value : Type}.
Variables (json_dumps py_str : Value -> string) (is_dict : Value -> bool).
Variables (generate_embedding : string -> list R) (round2 : R -> R).

Lemma mapM_lookup {A B} (f : A -> Result B) (l : list A) (ys : list B) :
  mapM f l = Ok ys ->
  forall i y, ys !! i = Some y -> exists x, l !! i = Some x /\ f x = Ok y.
Proof.
  revert ys. induction l as [|x l IH]; intros ys; simpl.
  - intros [= <-] i y Hy. by rewrite lookup_nil in Hy.
  - destruct (f x) as [y0|e] eqn:Hfx; [|done]. simpl.
    destruct (mapM f l) as [ys0|e]; [|done]. simpl.
    intros [= <-] [|i] y Hy; simpl in Hy.
    + injection Hy as <-. by exists x.
    + by apply (IH ys0).
Qed.

Lemma py_zip_lookup {A B} (la : list A) (lb : list B) a b :
  (a, b) ∈ py_zip la lb ->
  exists i, la !! i = Some a /\ lb !! i = Some b.
Proof.
  revert lb. induction la as [|x la IH]; intros [|y lb]; simpl;
    try (by intros ?%elem_of_nil).
  intros [[= -> ->]|Hin]%elem_of_cons.
  - by exists 0.
  - destruct (IH lb Hin) as (i & ? & ?). by exists (S i).
Qed.

Lemma select_top_elem (cands : list (@Memory Value * R)) p :
  p ∈ select_top (Py.sorted_reverse snd Rltb cands) ->
  p ∈ cands /\ (0.7 < snd p)%R.
Proof.
  unfold select_top, Py.slice_to.
  intros [Hp Hin]%list_elem_of_filter. split; [|done].
  rewrite <-(sorted_reverse_perm snd Rltb cands).
  eapply elem_of_sublist; [exact Hin|apply sublist_take].
Qed.

End RelevantFacts.

(** X4. Step 1 of the optimiser fails only when the memory fetch fails,
    with the exception of that fetch. When it returns, it returns at most 3
    entries, and every entry is the value of one of the user's fetched
    memories whose cosine score against the query embedding exceeds 0.7,
    with the rounded score as relevance; an empty query gives no entry. *)
Theorem relevant_memories_provenance {Turn Value : Type}
    (json_dumps py_str : Value -> string) (is_dict : Value -> bool)
    (generate_embedding : string -> list R) (round2 : R -> R)
    (be : Optimizer.Backends) (req : @Optimizer.Request Turn) :
  match Optimizer.fetch_relevant json_dumps py_str is_dict
          generate_embedding round2 be req with
  | Ok rel =>
      length rel <= 3
      /\ forall r, r ∈ rel ->
           exists u ms m s,
             memories_user req = Some u
             /\ Optimizer.get_memories be u = Ok ms
             /\ m ∈ ms
             /\ Optimizer.req_user_query req <> ""
             /\ Optimizer.content r = Optimizer.mem_value m
             /\ Optimizer.similarity
                  (generate_embedding (Optimizer.req_user_query req))
                  (generate_embedding
                     (Optimizer.memory_text json_dumps py_str is_dict m))
                = Ok s
             /\ (0.7 < s)%R
             /\ Optimizer.relevance r = round2 s
  | Raise e =>
      exists u, memories_user req = Some u
                /\ Optimizer.get_memories be u = Raise e
  end.
Proof.
  unfold Optimizer.fetch_relevant, memories_user.
  destruct (Optimizer.req_userId req) as [u|];
    [|split; [simpl; lia|by intros r ?%elem_of_nil]].
  destruct (Py.truthy_str u);
    [|split; [simpl; lia|by intros r ?%elem_of_nil]].
  destruct (Optimizer.get_memories be u) as [ms|e] eqn:Hms; simpl;
    [|by exists u].
  destruct (Py.truthy_list ms) eqn:Hl; simpl;
    [|split; [simpl; lia|by intros r ?%elem_of_nil]].
  destruct (Py.truthy_str (Optimizer.req_user_query req)) eqn:Hq;
    [|split; [simpl; lia|by intros r ?%elem_of_nil]].
  destruct (relevance_scores_ok
              (generate_embedding (Optimizer.req_user_query req))
              (generate_embedding
                 <$> (Optimizer.memory_text json_dumps py_str is_dict <$> ms)))
    as (scores & Hscores & _).
  rewrite Hscores. simpl. split.
  - rewrite length_fmap. apply select_top_length.
  - intros r (p & -> & Hp)%list_elem_of_fmap.
    apply select_top_elem in Hp as [Hin Hgt].
    destruct p as [m s]. apply py_zip_lookup in Hin as (i & Hm & Hs).
    destruct (mapM_lookup _ _ _ Hscores i s Hs) as (v & Hv & Hsim).
    rewrite !list_lookup_fmap, Hm in Hv. injection Hv as <-.
    exists u, ms, m, s. repeat split; try done.
    + by eapply list_elem_of_lookup_2.
    + intros Hempty. by rewrite Hempty in Hq.
Qed.

(* ===================================================================== *)
(** * Further properties of the embedding service *)
(* ===================================================================== *)

Section BatchFacts.
Import EmbeddingService.
Ltac Zify.zify_post_hook ::= Z.div_mod_to_equations.
Implicit Types (texts : list string) (provider : Provider).

Lemma range_step_100 n :
  Py.range_step n batch_size = (fun j => j * 100) <$> seq 0 ((n + 99) / 100).
Proof. done. Qed.






Lemma foldl_step_flag provider texts starts i st :
  snd (foldl (step provider texts) st (starts ++ [i]))
  = is_ok (provider i (Py.slice_range i batch_size texts)).
Proof.
  rewrite foldl_app.
  change (foldl (step provider texts) ?a [i]) with (step provider texts a i).
  unfold step, batch_embeddings. cbn [snd].
  by destruct (provider i _).
Qed.

Lemma range_step_snoc n :
  0 < n ->
  Py.range_step n batch_size
  = ((fun j => j * 100) <$> seq 0 ((n - 1) / 100)) ++ [(n - 1) / 100 * 100].
Proof.
  intros Hn. rewrite range_step_100.
  replace ((n + 99) / 100) with (S ((n - 1) / 100)) by lia.
  by rewrite seq_S, fmap_app.
Qed.

End BatchFacts.


(** X6. The health flag that [get_embeddings] leaves behind tells how the
    call for the last batch went, whatever the flag was and however the
    earlier batches went; on an empty input no call is made, the result is
    empty and the flag is left alone. *)
Theorem get_embeddings_health (provider : EmbeddingService.Provider)
    (healthy : bool) (texts : list string) :
  match texts with
  | [] => EmbeddingService.get_embeddings provider healthy texts
          = ([], healthy)
  | _ =>
      let i := (length texts - 1) / 100 * 100 in
      snd (EmbeddingService.get_embeddings provider healthy texts)
      = is_ok (provider i
                 (Py.slice_range i EmbeddingService.batch_size texts))
  end.
Proof.
  destruct texts as [|t ts] eqn:Ht; [done|]. rewrite <-Ht.
  intros i. unfold EmbeddingService.get_embeddings.
  rewrite Ht at 1. rewrite range_step_snoc by (rewrite Ht; simpl; lia).
  apply foldl_step_flag.
Qed.

(* ===================================================================== *)
(** * Further properties of the long-term store adapter *)
(* ===================================================================== *)

Section SearchFacts.
Import VectorStore.
Implicit Types (be : Backend) (mds : list Metadata) (row : list R).

Lemma collect_results_unscored be mds i (distances : option (list (list R))) :
  distances = None \/ distances = Some [] ->
  collect_results be distances i mds = Ok (omap (load_full_data be) mds).
Proof.
  intros Hd. revert i. induction mds as [|md mds IH]; intros i; [done|].
  simpl. destruct (load_full_data be md) as [d|]; [|apply IH].
  rewrite IH. by destruct Hd as [-> | ->].
Qed.

Lemma collect_results_scored be mds row rest i :
  i + length mds <= length row ->
  collect_results be (Some (row :: rest)) i mds
  = Ok (omap (scored_record be) (zip mds (drop i row))).
Proof.
  revert i. induction mds as [|md mds IH]; intros i Hlen; [done|].
  simpl in Hlen.
  destruct (lookup_lt_is_Some_2 row i) as [s Hs]; [lia|].
  rewrite (drop_S _ _ _ Hs). simpl. unfold scored_record at 1. simpl.
  destruct (load_full_data be md) as [d|]; simpl.
  - rewrite Hs. simpl. by rewrite IH by lia.
  - apply IH. lia.
Qed.

Lemma collect_results_short be mds row rest i j md :
  mds !! j = Some md -> is_Some (load_full_data be md) ->
  length row <= i + j ->
  collect_results be (Some (row :: rest)) i mds = Raise BackendError.
Proof.
  revert i j. induction mds as [|md0 mds IH]; intros i j Hj Hload Hlen;
    [by rewrite lookup_nil in Hj|].
  simpl. destruct j as [|j]; simpl in Hj.
  - injection Hj as ->. destruct Hload as [d ->].
    rewrite (lookup_ge_None_2 row i) by lia. done.
  - assert (collect_results be (Some (row :: rest)) (S i) mds
            = Raise BackendError) as Hrest
      by (apply (IH (S i) j); [done|done|lia]).
    destruct (load_full_data be md0) as [d|]; [|done].
    rewrite Hrest. by destruct (row !! i).
Qed.

End SearchFacts.

(** X7. A search that the database answers returns the records that
    decode, in the order of the database, and the score attached to a
    record is the distance found at the position of that record in the
    answer, also after records that do not decode and are skipped; without
    distances the records carry no score. The health flag is left alone. *)
Theorem search_memories_alignment (be : VectorStore.Backend) (healthy : bool)
    (user_id query : string) (limit : nat) :
  match VectorStore.chroma_query be user_id query limit with
  | Raise _ =>
      VectorStore.search_memories be healthy user_id query limit = ([], false)
  | Ok results =>
      match VectorStore.qr_metadatas results with
      | [] =>
          VectorStore.search_memories be healthy user_id query limit
          = ([], healthy)
      | mds :: _ =>
          match VectorStore.qr_distances results with
          | Some (row :: _) =>
              length mds <= length row ->
              VectorStore.search_memories be healthy user_id query limit
              = (omap (scored_record be) (zip mds row), healthy)
          | _ =>
              VectorStore.search_memories be healthy user_id query limit
              = (omap (VectorStore.load_full_data be) mds, healthy)
          end
      end
  end.
Proof.
  unfold VectorStore.search_memories.
  destruct (VectorStore.chroma_query be user_id query limit)
    as [results|e]; [|done]. simpl.
  destruct (VectorStore.qr_metadatas results) as [|mds ?]; [done|].
  destruct (VectorStore.qr_distances results) as [[|row rest]|] eqn:Hd.
  - rewrite collect_results_unscored by (by right). done.
  - intros Hlen.
    rewrite (collect_results_scored be mds row rest 0) by (simpl; lia).
    done.
  - rewrite collect_results_unscored by (by left). done.
Qed.

Lemma search_memories_alignment_witness :
  VectorStore.search_memories (Sample.store_search [0.25%R; 0.5%R]) true
    "u1" "order" 5
  = ([VectorStore.set_similarity (Sample.record "2024-01-01T10:00:00")
        0.5%R], true).
Proof.
  pose proof (search_memories_alignment (Sample.store_search [0.25%R; 0.5%R])
                true "u1" "order" 5) as H.
  simpl in H. rewrite H by lia. reflexivity.
Defined.

(** X8. When a record that decodes stands in the answer at a position for
    which the answer holds no distance, the whole search gives the empty
    list and clears the health flag, whatever the other records are. *)
Theorem search_memories_short_distances (be : VectorStore.Backend)
    (healthy : bool) (user_id query : string) (limit : nat)
    (results : VectorStore.QueryResult) (mds : list VectorStore.Metadata)
    (others : list (list VectorStore.Metadata)) (row : list R)
    (rest : list (list R)) (j : nat) (md : VectorStore.Metadata) :
  VectorStore.chroma_query be user_id query limit = Ok results ->
  VectorStore.qr_metadatas results = mds :: others ->
  VectorStore.qr_distances results = Some (row :: rest) ->
  mds !! j = Some md ->
  is_Some (VectorStore.load_full_data be md) ->
  length row <= j ->
  VectorStore.search_memories be healthy user_id query limit = ([], false).
Proof.
  intros Hq Hm Hd Hj Hload Hlen. unfold VectorStore.search_memories.
  rewrite Hq. simpl. rewrite Hm, Hd.
  by rewrite (collect_results_short be mds row rest 0 j md).
Qed.

Lemma search_memories_short_distances_witness :
  VectorStore.search_memories (Sample.store_search [0.25%R]) true
    "u1" "order" 5
  = ([], false).
Proof.
  eapply (search_memories_short_distances (Sample.store_search [0.25%R])
            true "u1" "order" 5 _ _ _ _ _ 1).
  - reflexivity.
  - reflexivity.
  - reflexivity.
  - reflexivity.
  - by eexists.
  - simpl. lia.
Defined.

(* ===================================================================== *)
(** * Further properties of the memory manager *)
(* ===================================================================== *)

Section ManagerFacts.
Import MemoryManager.

Lemma sorted_singleton {A K} (key : A -> K) (ltb : K -> K -> bool) x :
  Py.sorted key ltb [x] = [x].
Proof. done. Qed.

Lemma NoDup_fmap_inj {A B} (f : A -> B) (l : list A) x y :
  NoDup (f <$> l) -> x ∈ l -> y ∈ l -> f x = f y -> x = y.
Proof.
  induction l as [|z l IH]; [by intros _ ?%elem_of_nil|].
  rewrite fmap_cons. intros [Hz Hl]%NoDup_cons.
  intros [->|Hx]%elem_of_cons [->|Hy]%elem_of_cons Hf; [done| | |by apply IH].
  - destruct Hz. rewrite Hf. apply list_elem_of_fmap. by exists y.
  - destruct Hz. rewrite <-Hf. apply list_elem_of_fmap. by exists x.
Qed.

Lemma sorted_timestamps_unique (l l' : list MemoryData) :
  l ≡ₚ l' -> NoDup (timestamp_key <$> l) ->
  Py.sorted timestamp_key str_ltb l = Py.sorted timestamp_key str_ltb l'.
Proof.
  intros Hperm Hnd.
  assert (forall k : list MemoryData,
            StronglySorted (asc timestamp_key str_ltb)
                           (Py.sorted timestamp_key str_ltb k)) as Hs.
  { intros k. apply sorted_asc.
    - apply str_ltb_irrefl.
    - apply str_ltb_trans.
    - apply str_ltb_negtrans. }
  apply (StronglySorted_unique_strong (asc timestamp_key str_ltb));
    [|apply Hs|apply Hs|by rewrite !sorted_perm].
  intros x y Hx Hy Hxy Hyx. unfold asc in *.
  rewrite sorted_perm in Hx. rewrite sorted_perm, <-Hperm in Hy.
  apply (NoDup_fmap_inj timestamp_key l); [done..|].
  destruct (str_ltb_total (timestamp_key x) (timestamp_key y))
    as [H|[H|H]]; congruence.
Qed.

Lemma filter_NoDup_keys (P : MemoryData -> Prop)
    `{!forall x, Decision (P x)} (l : list MemoryData) :
  NoDup (timestamp_key <$> l) -> NoDup (timestamp_key <$> filter P l).
Proof.
  intros Hnd. eapply sublist_NoDup; [exact Hnd|].
  apply fmap_sublist, sublist_filter.
Qed.

Lemma selected_memories_unique sess (l l' : list MemoryData) :
  l ≡ₚ l' -> NoDup (timestamp_key <$> l) ->
  selected_memories sess l = selected_memories sess l'.
Proof.
  intros Hperm Hnd. unfold selected_memories.
  destruct (Py.truthy_opt sess).
  - apply sorted_timestamps_unique; [by rewrite Hperm|].
    by apply filter_NoDup_keys.
  - by apply sorted_timestamps_unique.
Qed.

End ManagerFacts.

(** X9. A turn stored and then fetched back alone gives a memory whose
    history is that one turn (with the defaults of [store_memory] for the
    fields the turn lacks, hence the turn itself when it has all six),
    whose context is the context of the aggregate stored with it, and whose
    first and last interaction are both the timestamp under which it was
    stored. *)
Theorem stored_turn_read_back (be : VectorStore.Backend)
    (w : MemoryManager.World) (now u s : string) (turn : TurnDict)
    (mem : option MemoryObj) (md : VectorStore.Metadata) :
  VectorStore.chroma_get be u = Ok [md] ->
  VectorStore.load_full_data be md
  = Some (MemoryManager.build_memory_data now u s turn mem) ->
  let stamp := default now (t_timestamp turn) in
  let stored :=
    {| t_messageId := Some (default "" (t_messageId turn));
       t_message := Some (default "" (t_message turn));
       t_response := Some (default "" (t_response turn));
       t_timestamp := Some stamp;
       t_channel := Some (default "unknown" (t_channel turn));
       t_metadata := Some (default (JObj []) (t_metadata turn)) |} in
  fst (MemoryManager.get_memory be w u (Some s))
  = Ok {| m_userId := u; m_sessionId := s;
          m_history := [stored];
          m_context := default ∅ (m_context <$> mem);
          m_firstInteraction :=
            if Py.truthy_str stamp then Some stamp else None;
          m_lastInteraction :=
            if Py.truthy_str stamp then Some stamp else None |}
  /\ (forall i msg rsp ts ch meta,
        turn = {| t_messageId := Some i; t_message := Some msg;
                  t_response := Some rsp; t_timestamp := Some ts;
                  t_channel := Some ch; t_metadata := Some meta |} ->
        stored = turn).
Proof.
  intros Hget Hload stamp stored. split.
  - unfold MemoryManager.get_memory, VectorStore.get_all_user_memories.
    rewrite Hget. simpl. rewrite Hload. simpl.
    assert (MemoryManager.selected_memories (Some s)
              [MemoryManager.build_memory_data now u s turn mem]
            = [MemoryManager.build_memory_data now u s turn mem]) as ->.
    { unfold MemoryManager.selected_memories. simpl.
      destruct (Py.truthy_str s); [|done].
      rewrite filter_cons, decide_True by done. done. }
    simpl. unfold MemoryManager.acc_step. simpl. fold stamp.
    f_equal. destruct (Py.truthy_str stamp); destruct mem as [memory|];
      simpl; rewrite ?(right_id_L ∅ (∪)); f_equal; by destruct s.
  - intros i msg rsp ts ch meta ->. done.
Qed.

Lemma stored_turn_read_back_witness :
  fst (MemoryManager.get_memory Sample.store_one Sample.world0 "u1"
         (Some "s1"))
  = Ok {| m_userId := "u1"; m_sessionId := "s1";
          m_history := [Sample.turn1];
          m_context := ∅;
          m_firstInteraction := Some "2024-01-01T10:00:00";
          m_lastInteraction := Some "2024-01-01T10:00:00" |}.
Proof.
  exact (proj1 (stored_turn_read_back Sample.store_one Sample.world0
                  "2024-01-02T00:00:00" "u1" "s1" Sample.turn1
                  (Some (Sample.aggregate 3))
                  {| VectorStore.md_full_data := Some "t" |}
                  eq_refl eq_refl)).
Defined.

(** X10. When the stored records of a user carry pairwise different
    timestamps, [get_memory] does not depend on the order in which the
    database returns them. *)
Theorem get_memory_order_independent (be be' : VectorStore.Backend)
    (w : MemoryManager.World) (u : string) (sess : option string)
    (mds mds' : list VectorStore.Metadata) :
  VectorStore.chroma_get be u = Ok mds ->
  VectorStore.chroma_get be' u = Ok mds' ->
  mds ≡ₚ mds' ->
  (forall text, VectorStore.json_loads be text
                = VectorStore.json_loads be' text) ->
  NoDup (MemoryManager.timestamp_key
           <$> omap (VectorStore.load_full_data be) mds) ->
  MemoryManager.get_memory be w u sess = MemoryManager.get_memory be' w u sess.
Proof.
  intros Hget Hget' Hperm Hcodec Hnd.
  unfold MemoryManager.get_memory, VectorStore.get_all_user_memories.
  rewrite Hget, Hget'.
  assert (omap (VectorStore.load_full_data be') mds'
          = omap (VectorStore.load_full_data be) mds') as ->.
  { apply list_omap_ext, Forall2_same_length_lookup. split; [done|].
    intros i md md0 Hmd Hmd0. rewrite Hmd in Hmd0. injection Hmd0 as <-.
    unfold VectorStore.load_full_data. by rewrite Hcodec. }
  rewrite (selected_memories_unique sess
             (omap (VectorStore.load_full_data be) mds)
             (omap (VectorStore.load_full_data be) mds'));
    [done|by rewrite Hperm|done].
Qed.

Lemma get_memory_order_independent_witness :
  MemoryManager.get_memory Sample.store_two Sample.world0 "u1" None
  = MemoryManager.get_memory Sample.store_two_reversed Sample.world0 "u1"
      None.
Proof.
  apply (get_memory_order_independent Sample.store_two
           Sample.store_two_reversed Sample.world0 "u1" None
           [ {| VectorStore.md_full_data := Some "a" |};
             {| VectorStore.md_full_data := Some "b" |} ]
           [ {| VectorStore.md_full_data := Some "b" |};
             {| VectorStore.md_full_data := Some "a" |} ]).
  - reflexivity.
  - reflexivity.
  - apply Permutation_swap.
  - reflexivity.
  - simpl. apply NoDup_cons. split.
    + intros Hin. apply list_elem_of_singleton in Hin. discriminate Hin.
    + apply NoDup_singleton.
Defined.

(** X11. Whatever the provider does, the summariser keeps the identity of
    the memory and every context entry other than [conversation_summary],
    returns as history a suffix of the history it was given (all of it
    when that has at most 10 turns), leaves the adapter's health flag
    alone and sends at most one request. When the provider answers a
    history of at least 5 turns, the summary stored is the decoded answer,
    or the raw text under the key [summary] when it does not decode. *)
Theorem summarize_frame (sm : MemoryManager.Summarizer)
    (w : MemoryManager.World) (u s : string) (memory : MemoryObj) :
  let out := fst (MemoryManager._summarize_context sm w u s memory) in
  let w' := snd (MemoryManager._summarize_context sm w u s memory) in
  m_userId out = m_userId memory
  /\ m_sessionId out = m_sessionId memory
  /\ m_firstInteraction out = m_firstInteraction memory
  /\ m_lastInteraction out = m_lastInteraction memory
  /\ m_history out `suffix_of` m_history memory
  /\ (length (m_history memory) <= 10 -> m_history out = m_history memory)
  /\ (forall k, k <> "conversation_summary" ->
        m_context out !! k = m_context memory !! k)
  /\ MemoryManager.vs_healthy w' = MemoryManager.vs_healthy w
  /\ (exists sent, MemoryManager.llm_requests w'
                   = MemoryManager.llm_requests w ++ sent
                   /\ length sent <= 1)
  /\ (forall text,
        5 <= length (m_history memory) ->
        MemoryManager.chat_completion sm
          (MemoryManager.conversation_text (m_history memory)) = Ok text ->
        m_context out !! "conversation_summary"
        = Some (default (JObj [("summary", JStr text)])
                        (MemoryManager.summary_loads sm text))).
Proof.
  intros out w'. subst out w'. unfold MemoryManager._summarize_context.
  destruct (decide (length (m_history memory) < 5)) as [Hlt|Hge]; simpl.
  { repeat split; try done.
    - exists []. split; [by rewrite app_nil_r|simpl; lia].
    - intros text Hlen. lia. }
  destruct (MemoryManager.chat_completion sm _) as [text|e]; simpl.
  - repeat split; try done.
    + apply suffix_drop.
    + intros Hle. unfold Py.slice_last.
      replace (length (m_history memory) - 10) with 0 by lia. done.
    + intros k Hk. by rewrite lookup_insert_ne.
    + eexists. split; [done|simpl; lia].
    + intros text' _ [= <-]. rewrite lookup_insert_eq.
      by destruct (MemoryManager.summary_loads sm text).
  - repeat split; try done.
    + eexists. split; [done|simpl; lia].
Qed.

(* ===================================================================== *)
(** * Further properties of storing memory items *)
(* ===================================================================== *)

Section IdFacts.
Import MemoryApi.

Lemma str_app_assoc (a b c : string) : (a +:+ b) +:+ c = a +:+ b +:+ c.
Proof.
  induction a as [|x a IH]; [done|].
  change (String x ((a +:+ b) +:+ c) = String x (a +:+ b +:+ c)).
  by f_equal.
Qed.

Lemma str_app_length (a b : string) :
  String.length (a +:+ b) = String.length a + String.length b.
Proof.
  induction a as [|x a IH]; [done|].
  change (S (String.length (a +:+ b))
          = S (String.length a + String.length b)).
  by f_equal.
Qed.

Lemma colon_split_inj (u u' r r' : string) :
  colon_free u = true -> colon_free u' = true ->
  u +:+ ":" +:+ r = u' +:+ ":" +:+ r' -> u = u' /\ r = r'.
Proof.
  revert u'. induction u as [|c u IH]; intros [|c' u']; simpl.
  - intros _ _ Heq. split; [done|].
    change (String (Ascii.ascii_of_nat 58) r
            = String (Ascii.ascii_of_nat 58) r') in Heq.
    by injection Heq.
  - intros _ [Hc _]%andb_true_iff Heq.
    change (String (Ascii.ascii_of_nat 58) r
            = String c' (u' +:+ ":" +:+ r')) in Heq.
    injection Heq as <- _. done.
  - intros [Hc _]%andb_true_iff _ Heq.
    change (String c (u +:+ ":" +:+ r)
            = String (Ascii.ascii_of_nat 58) r') in Heq.
    injection Heq as -> _. done.
  - intros [_ Hu]%andb_true_iff [_ Hu']%andb_true_iff Heq.
    change (String c (u +:+ ":" +:+ r) = String c' (u' +:+ ":" +:+ r'))
      in Heq.
    injection Heq as -> Heq.
    destruct (IH u' Hu Hu' Heq) as [-> ->]. done.
Qed.

Lemma memory_id_collision (u t k x : string)
    (v v' : gmap string Json) (m m' : option (gmap string Json))
    (l l' : option Z) :
  memory_id_of {| userId := u +:+ ":" +:+ t +:+ ":" +:+ x; type := t;
                  key := k; value := v; metadata := m; ttl := l |}
  = memory_id_of {| userId := u; type := t;
                    key := x +:+ ":" +:+ t +:+ ":" +:+ k;
                    value := v'; metadata := m'; ttl := l' |}.
Proof.
  unfold memory_id_of. simpl. f_equal.
  by rewrite !str_app_assoc.
Qed.

End IdFacts.

(** The index key of a user is the id of no item. *)
Lemma index_key_not_id (user_id : string) (item : MemoryApi.MemoryItem) :
  MemoryApi.index_key user_id <> MemoryApi.memory_id_of item.
Proof.
  unfold MemoryApi.index_key, MemoryApi.memory_id_of. intros Heq.
  apply (f_equal (String.get 0)) in Heq. discriminate Heq.
Qed.

(** A store that runs to its end files the id in the index of the user,
    also when [EXPIRE] deleted the hash. *)
Lemma store_index_accepted (json_dumps : gmap string Json -> string)
    (expire_ok : Z -> bool) (n1 n2 : string) (item : MemoryApi.MemoryItem)
    (r : MemoryApi.Redis) :
  ttl_accepted expire_ok (MemoryApi.ttl item) = true ->
  let out := MemoryApi.store_short_term_memory json_dumps expire_ok n1 n2
               item r in
  fst out = Ok (MemoryApi.memory_id_of item)
  /\ MemoryApi.memory_id_of item
     ∈ default ∅ (MemoryApi.sets (snd out)
                    !! MemoryApi.index_key (MemoryApi.userId item)).
Proof.
  intros Ha out. subst out. rewrite store_cases. unfold ttl_accepted in Ha.
  assert (forall r2,
            MemoryApi.memory_id_of item
            ∈ default ∅
                (MemoryApi.sets
                   (MemoryApi.sadd (MemoryApi.index_key (MemoryApi.userId item))
                      (MemoryApi.memory_id_of item) r2)
                 !! MemoryApi.index_key (MemoryApi.userId item))) as Hin.
  { intros r2. simpl. rewrite lookup_insert_eq. simpl.
    by apply elem_of_union_l, elem_of_singleton. }
  destruct (MemoryApi.ttl item) as [t|]; [|split; [done|apply Hin]].
  destruct (decide (t = 0)%Z); [split; [done|apply Hin]|].
  rewrite bool_decide_false in Ha by done. simpl in Ha. rewrite Ha.
  destruct (decide (t <= 0)%Z); (split; [done|apply Hin]).
Qed.

(** A store whose [ttl] the server refuses raises after the hash was
    written and before the index is reached. *)
Lemma store_refused (json_dumps : gmap string Json -> string)
    (expire_ok : Z -> bool) (n1 n2 : string) (item : MemoryApi.MemoryItem)
    (r : MemoryApi.Redis) :
  ttl_accepted expire_ok (MemoryApi.ttl item) = false ->
  MemoryApi.store_short_term_memory json_dumps expire_ok n1 n2 item r
  = (Raise BackendError,
     MemoryApi.hset (MemoryApi.memory_id_of item)
       (MemoryApi.short_term_fields json_dumps n1 n2 item) r).
Proof.
  intros Ha. rewrite store_cases. unfold ttl_accepted in Ha.
  destruct (MemoryApi.ttl item) as [t|]; [|done].
  destruct (decide (t = 0)%Z) as [->|]; [done|].
  rewrite bool_decide_false in Ha by done. simpl in Ha. by rewrite Ha.
Qed.

(** X12. [create_memory] answers with the composite id exactly for a
    long-term item and for a short-term item whose [ttl] is absent, zero
    or a number that Redis takes. Such a short-term item is filed in the
    index of its user and queues no task; a short-term item whose [ttl]
    Redis refuses - as it does every number outside the 64 bits - is
    answered with HTTP 500 after its hash was written and before the
    index is reached; a long-term item leaves Redis untouched
    and queues the one task that will embed its value; any other type is
    answered with HTTP 500 (the 400 raised inside is converted), with
    Redis untouched and nothing queued. *)
Theorem create_memory_dispatch (json_dumps : gmap string Json -> string)
    (expire_ok : Z -> bool)
    (n1 n2 : string) (item : MemoryApi.MemoryItem) (r : MemoryApi.Redis) :
  let out := MemoryApi.create_memory json_dumps expire_ok n1 n2 item r in
  let id := MemoryApi.memory_id_of item in
  (MemoryApi.type item = "short_term" ->
   ttl_accepted expire_ok (MemoryApi.ttl item) = true ->
   fst (fst out) = Ok id
   /\ snd out = []
   /\ snd (fst out)
      = snd (MemoryApi.store_short_term_memory json_dumps expire_ok n1 n2
               item r)
   /\ id ∈ default ∅ (MemoryApi.sets (snd (fst out))
                        !! MemoryApi.index_key (MemoryApi.userId item)))
  /\ (MemoryApi.type item = "short_term" ->
      ttl_accepted expire_ok (MemoryApi.ttl item) = false ->
      out = (Raise (HTTPException 500),
             MemoryApi.hset id
               (MemoryApi.short_term_fields json_dumps n1 n2 item) r,
             []))
  /\ (forall t,
        MemoryApi.ttl item = Some t ->
        (t < - 2 ^ 63 \/ 2 ^ 63 <= t)%Z ->
        ttl_accepted expire_ok (MemoryApi.ttl item) = false)
  /\ (MemoryApi.type item = "long_term" ->
      out = (Ok id, r,
             [ {| MemoryApi.task_memory_id := id;
                  MemoryApi.task_user_id := MemoryApi.userId item;
                  MemoryApi.task_text := json_dumps (MemoryApi.value item);
                  MemoryApi.task_metadata :=
                    default ∅ (MemoryApi.metadata item) |} ]))
  /\ (MemoryApi.type item <> "short_term" ->
      MemoryApi.type item <> "long_term" ->
      out = (Raise (HTTPException 500), r, []))
  /\ (is_ok (fst (fst out)) = true <->
      (MemoryApi.type item = "short_term"
       /\ ttl_accepted expire_ok (MemoryApi.ttl item) = true)
      \/ MemoryApi.type item = "long_term").
Proof.
  intros out id. subst out id. unfold MemoryApi.create_memory.
  assert (forall t,
            MemoryApi.ttl item = Some t ->
            (t < - 2 ^ 63 \/ 2 ^ 63 <= t)%Z ->
            ttl_accepted expire_ok (MemoryApi.ttl item) = false) as Hrange.
  { intros t -> Ht. unfold ttl_accepted, MemoryApi.takes_timeout.
    rewrite bool_decide_false by lia.
    by rewrite bool_decide_false by lia. }
  destruct (String.eqb_spec (MemoryApi.type item) "short_term") as [Hs|Hs].
  { rewrite Hs.
    destruct (ttl_accepted expire_ok (MemoryApi.ttl item)) eqn:Ha.
    - destruct (store_index_accepted json_dumps expire_ok n1 n2 item r Ha)
        as [Hid Hin].
      destruct (MemoryApi.store_short_term_memory _ _ _ _ _ _)
        as [stored r'].
      simpl in *. subst stored. repeat split; try done. by left.
    - rewrite store_refused by done. simpl. repeat split; try done.
      by intros [[_ ?]|?]. }
  destruct (String.eqb_spec (MemoryApi.type item) "long_term") as [Hl|Hl].
  { rewrite Hl. repeat split; try done. by right. }
  repeat split; try done. by intros [[? _]|?].
Qed.

(** X13. The composite id does not separate users: an item of the user
    [u:t:x] with key [k] and an item of the user [u] with key [x:t:k] have
    the same id, so that storing the second after the first - each store
    running to its end, and the [ttl] of the second keeping its record -
    replaces the record of the first user by a record of the second,
    while the index of the first user still lists the id. *)
Theorem memory_id_shared_between_users
    (json_dumps : gmap string Json -> string) (expire_ok : Z -> bool)
    (u t k x : string)
    (v v' : gmap string Json) (m m' : option (gmap string Json))
    (l l' : option Z) (n1 n2 n3 n4 : string) (r : MemoryApi.Redis) :
  ttl_accepted expire_ok l = true ->
  ttl_keeps expire_ok l' = true ->
  let item1 :=
    {| MemoryApi.userId := u +:+ ":" +:+ t +:+ ":" +:+ x;
       MemoryApi.type := t; MemoryApi.key := k; MemoryApi.value := v;
       MemoryApi.metadata := m; MemoryApi.ttl := l |} in
  let item2 :=
    {| MemoryApi.userId := u; MemoryApi.type := t;
       MemoryApi.key := x +:+ ":" +:+ t +:+ ":" +:+ k;
       MemoryApi.value := v'; MemoryApi.metadata := m';
       MemoryApi.ttl := l' |} in
  let store := MemoryApi.store_short_term_memory json_dumps expire_ok in
  let r2 := snd (store n3 n4 item2 (snd (store n1 n2 item1 r))) in
  MemoryApi.userId item1 <> MemoryApi.userId item2
  /\ MemoryApi.memory_id_of item1 = MemoryApi.memory_id_of item2
  /\ (MemoryApi.hashes r2 !! MemoryApi.memory_id_of item1
        ≫= (fun h => h !! "userId")) = Some u
  /\ (MemoryApi.hashes r2 !! MemoryApi.memory_id_of item1
        ≫= (fun h => h !! "value")) = Some (json_dumps v')
  /\ MemoryApi.memory_id_of item1
     ∈ default ∅ (MemoryApi.sets r2
                    !! MemoryApi.index_key (MemoryApi.userId item1)).
Proof.
  intros Hl Hl' item1 item2 store r2.
  assert (MemoryApi.memory_id_of item1 = MemoryApi.memory_id_of item2) as Hid
    by apply memory_id_collision.
  assert (MemoryApi.userId item1 <> MemoryApi.userId item2) as Hne.
  { simpl. intros Heq. apply (f_equal String.length) in Heq.
    rewrite !str_app_length in Heq. simpl in Heq. lia. }
  assert (ttl_keeps expire_ok (MemoryApi.ttl item2) = true) as Hk2 by done.
  split; [done|]. split; [done|].
  subst r2 store. split; [|split].
  - rewrite Hid, store_hashes, lookup_insert_eq by done. simpl.
    by rewrite (lookup_union_l' _ _ "userId") by (by eexists).
  - rewrite Hid, store_hashes, lookup_insert_eq by done. simpl.
    by rewrite (lookup_union_l' _ _ "value") by (by eexists).
  - rewrite (store_sets _ _ n3 n4 item2) by done. rewrite lookup_insert_ne.
    + by apply (store_index_accepted json_dumps expire_ok n1 n2 item1 r).
    + unfold MemoryApi.index_key. intros Heq.
      apply (f_equal String.length) in Heq.
      rewrite !str_app_length in Heq. simpl in Heq.
      rewrite !str_app_length in Heq. simpl in Heq. lia.
Qed.

Lemma memory_id_shared_between_users_witness :
  MemoryApi.memory_id_of
    {| MemoryApi.userId := "ann:short_term:x"; MemoryApi.type := "short_term";
       MemoryApi.key := "k"; MemoryApi.value := ∅;
       MemoryApi.metadata := None; MemoryApi.ttl := Some (-5)%Z |}
  = MemoryApi.memory_id_of
      {| MemoryApi.userId := "ann"; MemoryApi.type := "short_term";
         MemoryApi.key := "x:short_term:k"; MemoryApi.value := ∅;
         MemoryApi.metadata := None; MemoryApi.ttl := Some 60%Z |}.
Proof.
  exact (proj1 (proj2 (memory_id_shared_between_users Sample.dumps_order
                         Sample.expire_int64 "ann" "short_term" "k" "x" ∅ ∅
                         None None (Some (-5)%Z) (Some 60%Z)
                         "t1" "t2" "t3" "t4" Sample.redis_empty
                         eq_refl eq_refl))).
Defined.

(** X14. Among items whose user id and type hold no colon, the composite
    id identifies the item: equal ids mean equal user, type and key. *)
Theorem memory_id_injective (item1 item2 : MemoryApi.MemoryItem) :
  colon_free (MemoryApi.userId item1) = true ->
  colon_free (MemoryApi.userId item2) = true ->
  colon_free (MemoryApi.type item1) = true ->
  colon_free (MemoryApi.type item2) = true ->
  MemoryApi.memory_id_of item1 = MemoryApi.memory_id_of item2 ->
  MemoryApi.userId item1 = MemoryApi.userId item2
  /\ MemoryApi.type item1 = MemoryApi.type item2
  /\ MemoryApi.key item1 = MemoryApi.key item2.
Proof.
  intros Hu1 Hu2 Ht1 Ht2 Hid. unfold MemoryApi.memory_id_of in Hid.
  apply (inj (String.append "memory:")) in Hid.
  apply colon_split_inj in Hid as [Hu Hid]; [|done..].
  apply colon_split_inj in Hid as [Ht Hk]; done.
Qed.

Lemma memory_id_injective_witness :
  MemoryApi.userId
    {| MemoryApi.userId := "u1"; MemoryApi.type := "short_term";
       MemoryApi.key := "a:b"; MemoryApi.value := ∅;
       MemoryApi.metadata := None; MemoryApi.ttl := None |}
  = MemoryApi.userId
      {| MemoryApi.userId := "u1"; MemoryApi.type := "short_term";
         MemoryApi.key := "a:b"; MemoryApi.value := {[ "k" := JNull ]};
         MemoryApi.metadata := None; MemoryApi.ttl := Some 60%Z |}.
Proof.
  exact (proj1 (memory_id_injective
                  {| MemoryApi.userId := "u1"; MemoryApi.type := "short_term";
                     MemoryApi.key := "a:b"; MemoryApi.value := ∅;
                     MemoryApi.metadata := None; MemoryApi.ttl := None |}
                  {| MemoryApi.userId := "u1"; MemoryApi.type := "short_term";
                     MemoryApi.key := "a:b";
                     MemoryApi.value := {[ "k" := JNull ]};
                     MemoryApi.metadata := None; MemoryApi.ttl := Some 60%Z |}
                  eq_refl eq_refl eq_refl eq_refl eq_refl)).
Defined.

(** X15. Storing a short-term item leaves every hash and every lifetime
    under another key as they were, and every set under a key other than
    the index of the user and the id; the index loses no member. When the
    [ttl] is absent, zero or a positive number that Redis takes, the call
    answers with the id, the fields of the item are written under the id
    (so that [created_at] is the time of this store also when the record
    existed) and fields the item does not write are kept, the id is in the
    index, and the lifetime of the id is the [ttl] when that is given and
    not zero, and the one it had before otherwise. With a negative [ttl]
    that Redis takes the call answers with the id and files it in the
    index, but no hash and no lifetime are left under the id. With a [ttl]
    that Redis refuses the call raises: the hash is written, the index and
    the lifetimes are as before. *)
Theorem store_short_term_frame (json_dumps : gmap string Json -> string)
    (expire_ok : Z -> bool)
    (n1 n2 : string) (item : MemoryApi.MemoryItem) (r : MemoryApi.Redis) :
  let out :=
    MemoryApi.store_short_term_memory json_dumps expire_ok n1 n2 item r in
  let r' := snd out in
  let id := MemoryApi.memory_id_of item in
  let idx := MemoryApi.index_key (MemoryApi.userId item) in
  let written :=
    MemoryApi.short_term_fields json_dumps n1 n2 item
    ∪ default ∅ (MemoryApi.hashes r !! id) in
  (forall k, k <> id -> MemoryApi.hashes r' !! k = MemoryApi.hashes r !! k)
  /\ (forall k, k <> idx -> k <> id ->
        MemoryApi.sets r' !! k = MemoryApi.sets r !! k)
  /\ (forall k, k <> id -> MemoryApi.expiry r' !! k = MemoryApi.expiry r !! k)
  /\ default ∅ (MemoryApi.sets r !! idx) ⊆ default ∅ (MemoryApi.sets r' !! idx)
  /\ (ttl_keeps expire_ok (MemoryApi.ttl item) = true ->
      fst out = Ok id
      /\ MemoryApi.hashes r' !! id = Some written
      /\ written !! "created_at" = Some n1
      /\ written !! "last_accessed" = Some n2
      /\ (forall f v,
            MemoryApi.short_term_fields json_dumps n1 n2 item !! f = Some v ->
            written !! f = Some v)
      /\ (forall f,
            MemoryApi.short_term_fields json_dumps n1 n2 item !! f = None ->
            written !! f = MemoryApi.hashes r !! id ≫= (fun old => old !! f))
      /\ id ∈ default ∅ (MemoryApi.sets r' !! idx)
      /\ MemoryApi.expiry r' !! id
         = match MemoryApi.ttl item with
           | Some t => if decide (t = 0)%Z then MemoryApi.expiry r !! id
                       else Some t
           | None => MemoryApi.expiry r !! id
           end)
  /\ (forall t,
        MemoryApi.ttl item = Some t -> (t < 0)%Z ->
        MemoryApi.takes_timeout expire_ok t = true ->
        fst out = Ok id
        /\ MemoryApi.hashes r' !! id = None
        /\ MemoryApi.expiry r' !! id = None
        /\ id ∈ default ∅ (MemoryApi.sets r' !! idx))
  /\ (forall t,
        MemoryApi.ttl item = Some t -> t <> 0%Z ->
        MemoryApi.takes_timeout expire_ok t = false ->
        fst out = Raise BackendError
        /\ MemoryApi.hashes r' !! id = Some written
        /\ MemoryApi.sets r' = MemoryApi.sets r
        /\ MemoryApi.expiry r' = MemoryApi.expiry r).
Proof.
  intros out r' id idx written. subst out r'.
  pose proof (index_key_not_id (MemoryApi.userId item) item) as Hidx.
  fold idx id in Hidx.
  rewrite store_cases. fold id idx.
  split; [|split; [|split; [|split; [|split; [|split]]]]].
  - intros k Hk.
    destruct (MemoryApi.ttl item) as [t|]; [destruct (decide (t = 0)%Z);
      [|destruct (MemoryApi.takes_timeout expire_ok t);
          [destruct (decide (t <= 0)%Z)|]]|];
      simpl; rewrite ?lookup_delete_ne by done;
      by rewrite lookup_insert_ne by done.
  - intros k Hk Hk'.
    destruct (MemoryApi.ttl item) as [t|]; [destruct (decide (t = 0)%Z);
      [|destruct (MemoryApi.takes_timeout expire_ok t);
          [destruct (decide (t <= 0)%Z)|]]|];
      simpl; rewrite ?lookup_insert_ne by done;
      by rewrite ?lookup_delete_ne by done.
  - intros k Hk.
    destruct (MemoryApi.ttl item) as [t|]; [destruct (decide (t = 0)%Z);
      [|destruct (MemoryApi.takes_timeout expire_ok t);
          [destruct (decide (t <= 0)%Z)|]]|];
      simpl; rewrite ?lookup_insert_ne by done;
      by rewrite ?lookup_delete_ne by done.
  - destruct (MemoryApi.ttl item) as [t|]; [destruct (decide (t = 0)%Z);
      [|destruct (MemoryApi.takes_timeout expire_ok t);
          [destruct (decide (t <= 0)%Z)|]]|];
      simpl; rewrite ?lookup_insert_eq, ?lookup_delete_ne by done; simpl;
      try done; apply union_subseteq_r.
  - intros Hk. unfold ttl_keeps in Hk.
    assert (written !! "created_at" = Some n1
            /\ written !! "last_accessed" = Some n2
            /\ (forall f v,
                  MemoryApi.short_term_fields json_dumps n1 n2 item !! f
                  = Some v -> written !! f = Some v)
            /\ (forall f,
                  MemoryApi.short_term_fields json_dumps n1 n2 item !! f
                  = None ->
                  written !! f
                  = MemoryApi.hashes r !! id ≫= (fun old => old !! f)))
      as (Hc & Hla & Hf & Hold).
    { unfold written.
      split; [by rewrite (lookup_union_l' _ _ "created_at") by (by eexists)|].
      split;
        [by rewrite (lookup_union_l' _ _ "last_accessed") by (by eexists)|].
      split.
      - intros f v Hf. by rewrite (lookup_union_l' _ _ f) by (by rewrite Hf).
      - intros f Hf. rewrite lookup_union_r by done.
        by destruct (MemoryApi.hashes r !! id). }
    assert (forall r2 : MemoryApi.Redis,
              id ∈ default ∅ (MemoryApi.sets (MemoryApi.sadd idx id r2) !! idx))
      as Hin.
    { intros r2. simpl. rewrite lookup_insert_eq. simpl.
      by apply elem_of_union_l, elem_of_singleton. }
    destruct (MemoryApi.ttl item) as [t|].
    + destruct (decide (t = 0)%Z).
      * refine (conj _ (conj _ (conj Hc (conj Hla (conj Hf (conj Hold
                  (conj (Hin _) _))))))); [done| |done].
        simpl. by rewrite lookup_insert_eq.
      * rewrite bool_decide_false in Hk by done. simpl in Hk.
        apply andb_true_iff in Hk as [-> Hpos%bool_decide_eq_true].
        rewrite decide_False by lia.
        refine (conj _ (conj _ (conj Hc (conj Hla (conj Hf (conj Hold
                  (conj (Hin _) _))))))); [done| |];
          simpl; by rewrite lookup_insert_eq.
    + refine (conj _ (conj _ (conj Hc (conj Hla (conj Hf (conj Hold
                (conj (Hin _) _))))))); [done| |done].
      simpl. by rewrite lookup_insert_eq.
  - intros t -> Hneg Hok. rewrite decide_False by lia. rewrite Hok.
    rewrite decide_True by lia. simpl.
    rewrite !lookup_delete_eq, lookup_insert_eq. simpl.
    repeat split. by apply elem_of_union_l, elem_of_singleton.
  - intros t -> Hne Hok. rewrite decide_False by done. rewrite Hok. simpl.
    by rewrite lookup_insert_eq.
Qed.

(* ===================================================================== *)
(** * Health flags, retries and the endpoints of the memory service *)
(* ===================================================================== *)

Section RetryFacts.
Import EmbeddingHealth.
Implicit Types (attempts : Attempts).

Lemma get_embedding_cases attempts healthy text :
  _get_embedding attempts healthy text
  = match attempts 0 text with
    | Ok v => (Ok v, healthy, 1)
    | Raise _ =>
        match attempts 1 text with
        | Ok v => (Ok v, false, 2)
        | Raise _ =>
            match attempts 2 text with
            | Ok v => (Ok v, false, 3)
            | Raise _ => (Raise BackendError, false, 3)
            end
        end
    end.
Proof.
  unfold _get_embedding. simpl. unfold attempt_once.
  destruct (attempts 0 text); [done|].
  destruct (attempts 1 text); [done|].
  by destruct (attempts 2 text).
Qed.

Lemma embedding_health_probe attempts healthy :
  (fst (is_healthy attempts healthy) = true ->
   exists n, n < 3 /\ is_ok (attempts n "Health check") = true)
  /\ ((exists n, n < 3 /\ is_ok (attempts n "Health check") = true) ->
      fst (is_healthy attempts healthy) = true).
Proof.
  unfold is_healthy. rewrite get_embedding_cases.
  destruct (attempts 0 "Health check") as [v0|e0] eqn:H0; simpl.
  { split; [|done]. intros _. exists 0. rewrite H0. split; [lia|done]. }
  destruct (attempts 1 "Health check") as [v1|e1] eqn:H1; simpl.
  { split; [|done]. intros _. exists 1. rewrite H1. split; [lia|done]. }
  destruct (attempts 2 "Health check") as [v2|e2] eqn:H2; simpl.
  { split; [|done]. intros _. exists 2. rewrite H2. split; [lia|done]. }
  split; [done|]. intros ([|[|[|n]]] & Hlt & Hn);
    [by rewrite H0 in Hn|by rewrite H1 in Hn|by rewrite H2 in Hn|lia].
Qed.

End RetryFacts.

(** X16. [_get_embedding] makes between one and three attempts and stops
    at the first that succeeds, whose embedding it returns; it raises
    exactly when three attempts in a row fail. The health flag is cleared
    as soon as one attempt fails, also when a later attempt succeeds, and
    is never set. *)
Theorem get_embedding_retry (attempts : EmbeddingHealth.Attempts)
    (healthy : bool) (text : string) :
  let out := EmbeddingHealth._get_embedding attempts healthy text in
  let r := fst (fst out) in
  let calls := snd out in
  1 <= calls <= 3
  /\ (forall v,
        r = Ok v <->
        exists n, n < 3 /\ attempts n text = Ok v
                  /\ forall k, k < n -> is_ok (attempts k text) = false)
  /\ (is_ok r = true -> is_ok (attempts (calls - 1) text) = true)
  /\ (is_ok r = false <-> forall n, n < 3 -> is_ok (attempts n text) = false)
  /\ (is_ok r = false -> calls = 3)
  /\ snd (fst out) = healthy && is_ok (attempts 0 text).
Proof.
  intros out r calls. subst out r calls. rewrite get_embedding_cases.
  destruct (attempts 0 text) as [v0|e0] eqn:H0; simpl.
  { split; [lia|]. split.
    { intros v. split.
      - intros [= <-]. exists 0. split; [lia|]. split; [done|]. lia.
      - intros ([|n] & _ & Hn & Hk); [congruence|].
        specialize (Hk 0 ltac:(lia)). by rewrite H0 in Hk. }
    split; [by rewrite H0|]. split; [|split; [done|by rewrite andb_true_r]].
    split; [done|]. intros Hall. specialize (Hall 0 ltac:(lia)).
    by rewrite H0 in Hall. }
  destruct (attempts 1 text) as [v1|e1] eqn:H1; simpl.
  { split; [lia|]. split.
    { intros v. split.
      - intros [= <-]. exists 1. split; [lia|]. split; [done|].
        intros [|k] Hk; [by rewrite H0|lia].
      - intros ([|[|n]] & _ & Hn & Hk); [congruence|congruence|].
        specialize (Hk 1 ltac:(lia)). by rewrite H1 in Hk. }
    split; [by rewrite H1|]. split; [|split; [done|by rewrite andb_false_r]].
    split; [done|]. intros Hall. specialize (Hall 1 ltac:(lia)).
    by rewrite H1 in Hall. }
  destruct (attempts 2 text) as [v2|e2] eqn:H2; simpl.
  { split; [lia|]. split.
    { intros v. split.
      - intros [= <-]. exists 2. split; [lia|]. split; [done|].
        intros [|[|k]] Hk; [by rewrite H0|by rewrite H1|lia].
      - intros ([|[|[|n]]] & Hlt & Hn & Hk); [congruence..|lia]. }
    split; [by rewrite H2|]. split; [|split; [done|by rewrite andb_false_r]].
    split; [done|]. intros Hall. specialize (Hall 2 ltac:(lia)).
    by rewrite H2 in Hall. }
  split; [lia|]. split.
  { intros v. split; [done|].
    intros ([|[|[|n]]] & Hlt & Hn & Hk); [congruence..|lia]. }
  split; [done|]. split; [|split; [done|by rewrite andb_false_r]].
  split; [|done]. intros _ [|[|[|n]]] Hn;
    [by rewrite H0|by rewrite H1|by rewrite H2|lia].
Qed.

(** X17. The two health checks of the embedding service disagree on a
    provider that recovers: [is_healthy] reports (and stores) healthy as
    soon as one of its three attempts succeeds, whatever the flag was,
    while the constructor leaves the service healthy only when its first
    attempt succeeds. The constructor fails exactly when neither the
    argument nor the environment gives a non-empty key. *)
Theorem embedding_health_checks (attempts : EmbeddingHealth.Attempts)
    (healthy : bool) (api_key env_key : option string) :
  (fst (EmbeddingHealth.is_healthy attempts healthy) = true <->
   exists n, n < 3 /\ is_ok (attempts n "Health check") = true)
  /\ snd (EmbeddingHealth.is_healthy attempts healthy) <= 3
  /\ (EmbeddingHealth.init api_key env_key attempts = None <->
      Py.truthy_opt api_key = false /\ Py.truthy_opt env_key = false)
  /\ (forall key flag,
        EmbeddingHealth.init api_key env_key attempts = Some (key, flag) ->
        flag = is_ok (attempts 0 "Test connection")
        /\ key = (if Py.truthy_opt api_key then api_key else env_key)).
Proof.
  split; [|split; [|split]].
  - unfold EmbeddingHealth.is_healthy. rewrite get_embedding_cases.
    destruct (attempts 0 "Health check") as [v0|e0] eqn:H0; simpl.
    { split; [|done]. intros _. exists 0. rewrite H0. split; [lia|done]. }
    destruct (attempts 1 "Health check") as [v1|e1] eqn:H1; simpl.
    { split; [|done]. intros _. exists 1. rewrite H1. split; [lia|done]. }
    destruct (attempts 2 "Health check") as [v2|e2] eqn:H2; simpl.
    { split; [|done]. intros _. exists 2. rewrite H2. split; [lia|done]. }
    split; [done|]. intros ([|[|[|n]]] & Hlt & Hn);
      [by rewrite H0 in Hn|by rewrite H1 in Hn|by rewrite H2 in Hn|lia].
  - unfold EmbeddingHealth.is_healthy. rewrite get_embedding_cases.
    destruct (attempts 0 "Health check"); simpl; [lia|].
    destruct (attempts 1 "Health check"); simpl; [lia|].
    destruct (attempts 2 "Health check"); simpl; lia.
  - unfold EmbeddingHealth.init. rewrite get_embedding_cases.
    destruct (Py.truthy_opt api_key) eqn:Ha.
    + rewrite Ha.
      destruct (attempts 0 "Test connection"); [by split; [|intros [? _]]|].
      destruct (attempts 1 "Test connection"); [by split; [|intros [? _]]|].
      destruct (attempts 2 "Test connection"); by split; [|intros [? _]].
    + destruct (Py.truthy_opt env_key) eqn:He; [|done].
      destruct (attempts 0 "Test connection"); [by split; [|intros [_ ?]]|].
      destruct (attempts 1 "Test connection"); [by split; [|intros [_ ?]]|].
      destruct (attempts 2 "Test connection"); by split; [|intros [_ ?]].
  - intros key flag. unfold EmbeddingHealth.init.
    rewrite get_embedding_cases.
    destruct (Py.truthy_opt (if Py.truthy_opt api_key then api_key else env_key));
      [|done].
    destruct (attempts 0 "Test connection"); [by intros [= <- <-]|].
    destruct (attempts 1 "Test connection"); [by intros [= <- <-]|].
    destruct (attempts 2 "Test connection"); by intros [= <- <-].
Qed.

(** X18. No operation of the long-term store adapter ever sets its health
    flag: after a store, a fetch, a search or a deletion the flag is set
    only if it was set before and the database call succeeded. Only the
    probe [is_healthy] sets it, to the outcome of the probe. *)
Theorem adapter_health_flag (be : VectorStore.Backend)
    (ad : VectorStoreHealth.Admin) (healthy : bool) (u q : string)
    (limit : nat) (data : MemoryData) :
  snd (VectorStore.store_memory be healthy u data)
  = healthy && is_ok (VectorStore.chroma_add be (VectorStore.uuid4 be) data)
  /\ snd (VectorStore.get_all_user_memories be healthy u)
     = healthy && is_ok (VectorStore.chroma_get be u)
  /\ (snd (VectorStore.search_memories be healthy u q limit) = true ->
      healthy = true /\ is_ok (VectorStore.chroma_query be u q limit) = true)
  /\ snd (VectorStoreHealth.delete_user_memories ad healthy u)
     = healthy && is_ok (VectorStoreHealth.chroma_delete ad u)
  /\ fst (VectorStoreHealth.delete_user_memories ad healthy u)
     = is_ok (VectorStoreHealth.chroma_delete ad u)
  /\ VectorStoreHealth.is_healthy ad healthy
     = is_ok (VectorStoreHealth.list_collections ad).
Proof.
  split; [|split; [|split; [|split; [|split]]]].
  - unfold VectorStore.store_memory.
    destruct (VectorStore.chroma_add _ _ _); simpl;
      by rewrite ?andb_true_r, ?andb_false_r.
  - unfold VectorStore.get_all_user_memories.
    destruct (VectorStore.chroma_get _ _); simpl;
      by rewrite ?andb_true_r, ?andb_false_r.
  - unfold VectorStore.search_memories.
    destruct (VectorStore.chroma_query _ _ _ _) as [res|e]; simpl; [|done].
    destruct (VectorStore.qr_metadatas res) as [|mds ?]; [done|].
    by destruct (VectorStore.collect_results _ _ _ _).
  - unfold VectorStoreHealth.delete_user_memories.
    destruct (VectorStoreHealth.chroma_delete _ _); simpl;
      by rewrite ?andb_true_r, ?andb_false_r.
  - unfold VectorStoreHealth.delete_user_memories.
    by destruct (VectorStoreHealth.chroma_delete _ _).
  - done.
Qed.

(** X19. The read endpoints of the memory service always answer with
    [success = true] and no error: [GET /api/memory] carries a memory and
    [GET /api/memory/search] a list, and when the vector database is
    unreachable these are the empty memory and the empty list, the only
    trace of the failure being the cleared health flag. *)
Theorem service_reads_report_success (be : VectorStore.Backend)
    (w : MemoryManager.World) (u q : string) (sess : option string)
    (limit : nat) :
  let got := Service.get_memory be w u sess in
  let found := Service.search_memories be w u q limit in
  Service.success (fst got) = true
  /\ Service.error (fst got) = None
  /\ is_Some (Service.resp_memory (fst got))
  /\ Service.s_success (fst found) = true
  /\ Service.s_error (fst found) = None
  /\ (forall e, VectorStore.chroma_get be u = Raise e ->
        (m_history <$> Service.resp_memory (fst got)) = Some []
        /\ (m_context <$> Service.resp_memory (fst got)) = Some ∅
        /\ MemoryManager.vs_healthy (snd got) = false)
  /\ (forall e, VectorStore.chroma_query be u q limit = Raise e ->
        Service.s_memories (fst found) = []
        /\ MemoryManager.vs_healthy (snd found) = false).
Proof.
  intros got found. subst got found.
  unfold Service.get_memory, Service.search_memories.
  unfold MemoryManager.get_memory, MemoryManager.search_memories.
  destruct (VectorStore.get_all_user_memories _ _ _) as [ms h] eqn:Hget.
  destruct (VectorStore.search_memories _ _ _ _ _) as [fs h'] eqn:Hsearch.
  simpl. repeat split; try done; try (by eexists).
  - rewrite (get_all_failed be _ u e) in Hget by done.
    injection Hget as <- <-. by rewrite selected_memories_nil.
  - rewrite (get_all_failed be _ u e) in Hget by done.
    injection Hget as <- <-. by rewrite selected_memories_nil.
  - rewrite (get_all_failed be _ u e) in Hget by done.
    by injection Hget as <- <-.
  - rewrite (search_failed be _ u q limit e) in Hsearch by done.
    by injection Hsearch as <- <-.
  - rewrite (search_failed be _ u q limit e) in Hsearch by done.
    by injection Hsearch as <- <-.
Qed.

(** X20. [POST /api/memory] answers [success = true] exactly when the
    database accepted the record, and otherwise reports the exception of
    the database; neither the id nor the memory is returned, and a failing
    summariser does not show in the answer. The record handed to the
    database carries the six fields of the request's turn as they are. *)
Theorem service_store_outcome (be : VectorStore.Backend)
    (sm : MemoryManager.Summarizer) (now : string) (w : MemoryManager.World)
    (request : Service.MemoryRequest) :
  let data :=
    MemoryManager.build_memory_data now (Service.userId request)
      (Service.sessionId request)
      (Service.turn_dict (Service.conversationTurn request))
      (Service.memory request) in
  let answer := fst (Service.store_memory be sm now w request) in
  Service.resp_memory answer = None
  /\ Service.success answer
     = is_ok (VectorStore.chroma_add be (VectorStore.uuid4 be) data)
  /\ Service.error answer
     = match VectorStore.chroma_add be (VectorStore.uuid4 be) data with
       | Ok _ => None
       | Raise e => Some e
       end
  /\ MemoryManager.turn_of data
     = Service.turn_dict (Service.conversationTurn request)
  /\ d_timestamp data
     = Some (Service.timestamp (Service.conversationTurn request)).
Proof.
  intros data answer. subst answer. unfold Service.store_memory.
  pose proof (store_memory_result be sm now w (Service.userId request)
                (Service.sessionId request)
                (Service.turn_dict (Service.conversationTurn request))
                (Service.memory request)) as Hres.
  destruct (MemoryManager.store_memory _ _ _ _ _ _ _ _) as [[r mem'] w'].
  simpl in Hres. fold data in Hres. rewrite Hres.
  by destruct (VectorStore.chroma_add be (VectorStore.uuid4 be) data).
Qed.

(** X21. [GET /api/health] reports ["healthy"] exactly when the listing
    probe of the vector database succeeds and one of the three attempts to
    embed the probe text succeeds; the flags left by earlier calls play no
    part. *)
Theorem service_health_check (ad : VectorStoreHealth.Admin)
    (attempts : EmbeddingHealth.Attempts) (vs_flag es_flag : bool) :
  Service.status (Service.health_check ad attempts vs_flag es_flag)
  = "healthy"
  <-> is_ok (VectorStoreHealth.list_collections ad) = true
      /\ exists n, n < 3 /\ is_ok (attempts n "Health check") = true.
Proof.
  destruct (embedding_health_probe attempts es_flag) as [Hp Hn].
  unfold Service.health_check, VectorStoreHealth.is_healthy.
  destruct (is_ok (VectorStoreHealth.list_collections ad)); simpl.
  - destruct (fst (EmbeddingHealth.is_healthy attempts es_flag)); simpl.
    + split; [|done]. intros _. split; [done|]. by apply Hp.
    + split; [done|]. intros [_ Hex]. by apply Hn in Hex.
  - split; [|by intros [? _]].
    by destruct (fst (EmbeddingHealth.is_healthy attempts es_flag)).
Qed.

(* ===================================================================== *)
(** * Session context *)
(* ===================================================================== *)

Section SessionFacts.
Import SessionContext.

Lemma str_app_inv_tail (a b c : string) : a +:+ c = b +:+ c -> a = b.
Proof.
  revert b. induction a as [|x a IH]; intros [|y b] Heq.
  - done.
  - apply (f_equal String.length) in Heq.
    change (String.length c = S (String.length (b +:+ c))) in Heq.
    rewrite str_app_length in Heq. lia.
  - apply (f_equal String.length) in Heq.
    change (S (String.length (a +:+ c)) = String.length c) in Heq.
    rewrite str_app_length in Heq. lia.
  - change (String x (a +:+ c) = String y (b +:+ c)) in Heq.
    injection Heq as -> Heq. by rewrite (IH b Heq).
Qed.

Lemma context_key_inj s s' : context_key s = context_key s' -> s = s'.
Proof.
  unfold context_key. intros Heq.
  apply (inj (String.append "session:")) in Heq.
  by apply str_app_inv_tail in Heq.
Qed.

End SessionFacts.

(** X22. Let the JSON codec give back the context it encoded and the
    configured lifetime be a number. When Redis takes that number and it
    is positive, a session context that was updated is read back as it was
    written, and the context key has that lifetime. When the number is
    zero or negative the update answers as well, but [EXPIRE] has deleted
    the context and the next read returns the empty context. When Redis
    refuses the number the update fails with HTTP 500 and the context
    written is what the next read returns. In every case what another
    session reads is unchanged. A session that was never written reads as
    the empty context, and that read leaves the store as it is. *)
Theorem session_context_round_trip
    (json_dumps : gmap string Json -> string)
    (json_loads : string -> option (gmap string Json))
    (py_int : string -> option Z) (expire_ok : Z -> bool)
    (now1 now2 now : string)
    (env_ttl : option string) (st : SessionContext.Store)
    (sid : string) (context : gmap string Json) (ttl : Z) :
  json_loads (json_dumps context) = Some context ->
  Py.truthy_str (json_dumps context) = true ->
  py_int (default "86400" env_ttl) = Some ttl ->
  let updated :=
    SessionContext.update_session_context json_dumps py_int expire_ok
      now1 now2 env_ttl st sid context in
  let read := SessionContext.get_session_context json_loads now in
  (MemoryApi.takes_timeout expire_ok ttl = true -> (0 < ttl)%Z ->
   fst updated = Ok ()
   /\ fst (read (snd updated) sid) = Ok context
   /\ MemoryApi.expiry (SessionContext.redis (snd updated))
        !! SessionContext.context_key sid = Some ttl)
  /\ (MemoryApi.takes_timeout expire_ok ttl = true -> (ttl <= 0)%Z ->
      fst updated = Ok ()
      /\ read (snd updated) sid = (Ok ∅, snd updated))
  /\ (MemoryApi.takes_timeout expire_ok ttl = false ->
      fst updated = Raise (HTTPException 500)
      /\ fst (read (snd updated) sid) = Ok context)
  /\ (forall sid', sid' <> sid ->
        fst (read (snd updated) sid') = fst (read st sid'))
  /\ (forall sid',
        SessionContext.strings st !! SessionContext.context_key sid' = None ->
        read st sid' = (Ok ∅, st)).
Proof.
  intros Hcodec Htext Hint updated read. subst updated read.
  unfold SessionContext.update_session_context. rewrite Hint.
  unfold SessionContext.expire, SessionContext.key_exists. simpl.
  rewrite lookup_insert_eq.
  rewrite (bool_decide_true (is_Some (Some _))) by by eexists. simpl.
  split; [|split; [|split; [|split]]].
  - intros -> Hpos. rewrite decide_False by lia. simpl.
    split; [done|]. split.
    + unfold SessionContext.get_session_context. simpl.
      rewrite lookup_insert_eq, Htext, Hcodec. done.
    + by rewrite lookup_insert_eq.
  - intros -> Hneg. rewrite decide_True by lia. simpl.
    split; [done|].
    unfold SessionContext.get_session_context. simpl.
    by rewrite lookup_delete_eq.
  - intros ->. simpl. split; [done|].
    unfold SessionContext.get_session_context. simpl.
    rewrite lookup_insert_eq, Htext, Hcodec. done.
  - intros sid' Hne.
    assert (SessionContext.context_key sid <> SessionContext.context_key sid')
      as Hkey by (intros Heq; by apply context_key_inj in Heq).
    unfold SessionContext.get_session_context.
    destruct (MemoryApi.takes_timeout expire_ok ttl);
      [destruct (decide (ttl <= 0)%Z)|]; simpl;
      rewrite ?lookup_delete_ne by done;
      rewrite lookup_insert_ne by done;
      (destruct (SessionContext.strings st !! SessionContext.context_key sid')
         as [data|]; [|done]);
      (destruct (Py.truthy_str data); [|done]);
      by destruct (json_loads data).
  - intros sid' Hnone. unfold SessionContext.get_session_context.
    by rewrite Hnone.
Qed.

Lemma session_context_round_trip_witness :
  fst (SessionContext.get_session_context Sample.loads_order
         "2024-01-01T11:00:00" Sample.store_updated "s1")
  = Ok Sample.ctx_order.
Proof.
  pose proof (session_context_round_trip Sample.dumps_order
                Sample.loads_order Sample.int_day Sample.expire_any
                "2024-01-01T10:00:00"
                "2024-01-01T10:00:01" "2024-01-01T11:00:00" None
                Sample.store_empty "s1" Sample.ctx_order 86400%Z
                eq_refl eq_refl eq_refl) as H.
  cbv zeta in H. destruct H as [H _].
  exact (proj1 (proj2 (H eq_refl eq_refl))).
Defined.

(** X23. The update writes before it looks at the configured lifetime:
    when [SESSION_CONTEXT_TTL] is not a number the call fails with HTTP
    500, yet the context is stored, without lifetime, and is what the next
    read returns. *)
Theorem session_update_fails_after_write
    (json_dumps : gmap string Json -> string)
    (json_loads : string -> option (gmap string Json))
    (py_int : string -> option Z) (expire_ok : Z -> bool)
    (now1 now2 now : string)
    (env_ttl : option string) (st : SessionContext.Store)
    (sid : string) (context : gmap string Json) :
  json_loads (json_dumps context) = Some context ->
  Py.truthy_str (json_dumps context) = true ->
  py_int (default "86400" env_ttl) = None ->
  let updated :=
    SessionContext.update_session_context json_dumps py_int expire_ok
      now1 now2 env_ttl st sid context in
  fst updated = Raise (HTTPException 500)
  /\ fst (SessionContext.get_session_context json_loads now (snd updated) sid)
     = Ok context
  /\ MemoryApi.expiry (SessionContext.redis (snd updated))
       !! SessionContext.context_key sid = None.
Proof.
  intros Hcodec Htext Hint updated. subst updated.
  unfold SessionContext.update_session_context. rewrite Hint. simpl.
  split; [done|]. split.
  - unfold SessionContext.get_session_context. simpl.
    rewrite lookup_insert_eq, Htext, Hcodec. done.
  - by rewrite lookup_delete_eq.
Qed.

Lemma session_update_fails_after_write_witness :
  fst (SessionContext.update_session_context Sample.dumps_order
         (fun _ => None) Sample.expire_any
         "2024-01-01T10:00:00" "2024-01-01T10:00:01"
         (Some "one day") Sample.store_empty "s1" Sample.ctx_order)
  = Raise (HTTPException 500).
Proof.
  pose proof (session_update_fails_after_write Sample.dumps_order
                Sample.loads_order (fun _ => None) Sample.expire_any
                "2024-01-01T10:00:00"
                "2024-01-01T10:00:01" "2024-01-01T11:00:00"
                (Some "one day") Sample.store_empty "s1" Sample.ctx_order
                eq_refl eq_refl eq_refl) as H.
  cbv zeta in H. exact (proj1 H).
Defined.

(** X24. The optimiser fed by the session store returns, for a request
    that names a session with a stored, non-empty text, the context that
    this text decodes to; when the text does not decode it returns the
    empty context instead of failing. *)
Theorem optimize_reads_session_store {Turn : Type}
    (json_dumps py_str : Json -> string) (is_dict : Json -> bool)
    (generate_embedding : string -> list R) (round2 : R -> R)
    (loads : string -> option (gmap string Json)) (now : string)
    (st : SessionContext.Store)
    (fetch : string -> Result (list Optimizer.Memory))
    (req : @Optimizer.Request Turn) (sid data : string)
    (r : Optimizer.OptimizedContext) :
  Optimizer.req_sessionId req = Some sid ->
  Py.truthy_str sid = true ->
  SessionContext.strings st !! SessionContext.context_key sid = Some data ->
  Py.truthy_str data = true ->
  Optimizer.optimize_context json_dumps py_str is_dict generate_embedding
    round2
    {| Optimizer.get_memories := fetch;
       Optimizer.get_session_context := fun s =>
         fst (SessionContext.get_session_context loads now st s) |}
    req = Ok r ->
  Optimizer.session_context r = default ∅ (loads data).
Proof.
  intros Hsid Hs Hdata Ht. rewrite optimize_unfold.
  destruct (Optimizer.fetch_relevant _ _ _ _ _ _ req) as [rel|e]; [|done].
  intros [= <-]. simpl. unfold Optimizer.fetch_session. rewrite Hsid, Hs.
  simpl. unfold SessionContext.get_session_context. rewrite Hdata, Ht.
  by destruct (loads data).
Qed.

Lemma optimize_reads_session_store_witness :
  exists r,
    Optimizer.optimize_context (Turn := nat)
      (fun _ => "{}") (fun _ => "None") (fun _ => true) (fun _ => [])
      (fun x => x)
      {| Optimizer.get_memories := fun _ => Ok [];
         Optimizer.get_session_context := fun s =>
           fst (SessionContext.get_session_context Sample.loads_order
                  "2024-01-01T11:00:00" Sample.store_updated s) |}
      Sample.request_known = Ok r
    /\ Optimizer.session_context r = Sample.ctx_order.
Proof.
  eexists. split; [reflexivity|].
  exact (optimize_reads_session_store (Turn := nat)
           (fun _ => "{}") (fun _ => "None") (fun _ => true) (fun _ => [])
           (fun x => x) Sample.loads_order "2024-01-01T11:00:00"
           Sample.store_updated (fun _ => Ok []) Sample.request_known
           "s1" "{topic: order}" _ eq_refl eq_refl eq_refl eq_refl eq_refl).
Defined.

(* ===================================================================== *)
(** * Knowledge search *)
(* ===================================================================== *)

Section KnowledgeFacts.
Import Knowledge.
Variable round2 : R -> R.

Lemma first_head {A} (l : list A) x : first l = Ok x <-> head l = Some x.
Proof. destruct l; simpl; split; congruence. Qed.

Lemma at_index_lookup {A} (l : list A) i x :
  at_index l i = Ok x <-> l !! i = Some x.
Proof. unfold at_index. destruct (l !! i); split; congruence. Qed.

(** What a position that is kept went through. *)
Lemma result_at_some ans th i doc res :
  result_at round2 ans th i doc = Ok (Some res) ->
  exists m d id,
    head (metadatas ans) ≫= (.!! i) = Some m
    /\ head (distances ans) ≫= (.!! i) = Some d
    /\ head (ids ans) ≫= (.!! i) = Some id
    /\ (th <= 1 - d)%R
    /\ res = row_result round2 doc m d id.
Proof.
  unfold result_at.
  destruct (first (metadatas ans)) as [metas|] eqn:Hm; [|done]. simpl.
  case_bool_decide; [done|].
  destruct (first (distances ans)) as [dists|] eqn:Hd; [|done]. simpl.
  case_bool_decide; [done|].
  destruct (at_index metas i) as [m|] eqn:Hmi; [|done]. simpl.
  destruct (at_index dists i) as [d|] eqn:Hdi; [|done]. simpl.
  case_bool_decide as Hth; [done|].
  destruct (first (ids ans)) as [ids0|] eqn:Hi; [|done]. simpl.
  destruct (at_index ids0 i) as [id|] eqn:Hii; [|done]. simpl.
  intros [= <-]. exists m, d, id.
  apply first_head in Hm, Hd, Hi. apply at_index_lookup in Hmi, Hdi, Hii.
  rewrite Hm, Hd, Hi. simpl. repeat split; try done.
  by apply Rnot_lt_le.
Qed.

(** The loop on a complete row. *)
Lemma result_at_row ans th i doc m d id :
  head (metadatas ans) ≫= (.!! i) = Some m ->
  head (distances ans) ≫= (.!! i) = Some d ->
  head (ids ans) ≫= (.!! i) = Some id ->
  result_at round2 ans th i doc
  = Ok (if bool_decide (1 - d < th)%R then None
        else Some (row_result round2 doc m d id)).
Proof.
  unfold result_at. intros Hm Hd Hi.
  destruct (metadatas ans) as [|metas ?]; [done|].
  destruct (distances ans) as [|dists ?]; [done|].
  destruct (ids ans) as [|ids0 ?]; [done|].
  simpl in *.
  rewrite bool_decide_false
    by (apply lookup_lt_Some in Hm; lia).
  rewrite bool_decide_false
    by (apply lookup_lt_Some in Hd; lia).
  unfold at_index. rewrite Hm, Hd. simpl.
  case_bool_decide; [done|]. by rewrite Hi.
Qed.

Lemma collect_sound ans th docs : forall i results,
  collect round2 ans th i docs = Ok results ->
  Forall (fun res => exists j doc,
            docs !! j = Some doc
            /\ result_at round2 ans th (i + j) doc = Ok (Some res)) results
  /\ (res_content <$> results) `sublist_of` docs.
Proof.
  induction docs as [|doc docs IH]; intros i results; simpl.
  - intros [= <-]. split; [constructor|done].
  - destruct (result_at round2 ans th i doc) as [found|] eqn:Hat; [|done].
    simpl.
    destruct (collect round2 ans th (S i) docs) as [rest|] eqn:Hrest; [|done].
    simpl. intros [= <-].
    destruct (IH _ _ Hrest) as [Hall Hsub].
    assert (Forall (fun res => exists j doc',
              (doc :: docs) !! j = Some doc'
              /\ result_at round2 ans th (i + j) doc' = Ok (Some res)) rest)
      as Hall'.
    { eapply Forall_impl; [exact Hall|].
      intros res (j & doc' & Hj & Hres). exists (S j), doc'. split; [done|].
      by replace (i + S j) with (S i + j) by lia. }
    destruct found as [res|].
    + split.
      * constructor; [|done]. exists 0, doc. split; [done|].
        by rewrite Nat.add_0_r.
      * destruct (result_at_some _ _ _ _ _ Hat) as (m & d & id & _ & _ & _ & _ & ->).
        csimpl. by constructor.
    + split; [done|]. by constructor.
Qed.

Lemma collect_rows ans th docs : forall i,
  (forall j doc, docs !! j = Some doc ->
     exists m d id,
       head (metadatas ans) ≫= (.!! (i + j)) = Some m
       /\ head (distances ans) ≫= (.!! (i + j)) = Some d
       /\ head (ids ans) ≫= (.!! (i + j)) = Some id) ->
  exists results,
    collect round2 ans th i docs = Ok results
    /\ forall j doc m d id,
         docs !! j = Some doc ->
         head (metadatas ans) ≫= (.!! (i + j)) = Some m ->
         head (distances ans) ≫= (.!! (i + j)) = Some d ->
         head (ids ans) ≫= (.!! (i + j)) = Some id ->
         (th <= 1 - d)%R ->
         row_result round2 doc m d id ∈ results.
Proof.
  induction docs as [|doc docs IH]; intros i Hrows; simpl.
  - exists []. split; [done|]. intros j ? ? ? ? Hj. by destruct j.
  - destruct (Hrows 0 doc eq_refl) as (m0 & d0 & id0 & Hm0 & Hd0 & Hi0).
    rewrite Nat.add_0_r in Hm0, Hd0, Hi0.
    rewrite (result_at_row _ _ _ _ _ _ _ Hm0 Hd0 Hi0). simpl.
    destruct (IH (S i)) as (rest & -> & Hrest).
    { intros j doc' Hj. destruct (Hrows (S j) doc' Hj) as (m & d & id & H).
      exists m, d, id. by replace (S i + j) with (i + S j) by lia. }
    simpl. eexists. split; [done|].
    intros j doc' m d id Hj Hm Hd Hi Hth. destruct j as [|j].
    + injection Hj as <-. rewrite Nat.add_0_r in Hm, Hd, Hi.
      assert (m = m0) as -> by congruence.
      assert (d = d0) as -> by congruence.
      assert (id = id0) as -> by congruence.
      rewrite bool_decide_false by lra. by left.
    + replace (i + S j) with (S i + j) in Hm, Hd, Hi by lia.
      pose proof (Hrest j doc' m d id Hj Hm Hd Hi Hth) as Hin.
      case_bool_decide; [done|]. by right.
Qed.

End KnowledgeFacts.

(** X25. Every result of a knowledge search that answers is built from one
    row of the database answer - document, metadata, distance and id of the
    same position - whose relevance [1 - distance] is not below the
    threshold of the request; the title and the source fall back to
    ["Untitled"] and ["knowledge_base"], and the results keep the order of
    the documents. *)
Theorem search_knowledge_sound
    (generate_embedding : string -> list R) (round2 : R -> R)
    (run_query : list R -> string -> nat -> Result Knowledge.Answer)
    (request : Knowledge.SearchRequest) (ans : Knowledge.Answer)
    (results : list Knowledge.SearchResult) :
  run_query (generate_embedding (Knowledge.query request))
            (Knowledge.organizationId request) (Knowledge.limit request)
  = Ok ans ->
  Knowledge.search_knowledge generate_embedding round2 (Some run_query)
    request = Ok results ->
  Forall (fun res => exists i m d,
            answer_row ans i (Knowledge.res_content res) m d
                       (Knowledge.res_id res)
            /\ (Knowledge.threshold request <= 1 - d)%R
            /\ res = row_result round2 (Knowledge.res_content res) m d
                       (Knowledge.res_id res)) results
  /\ (Knowledge.res_content <$> results)
       `sublist_of` default [] (head (Knowledge.documents ans)).
Proof.
  intros Hq. unfold Knowledge.search_knowledge. rewrite Hq. simpl.
  destruct (Knowledge.first (Knowledge.documents ans)) as [docs|] eqn:Hdocs;
    [|done].
  simpl. apply first_head in Hdocs.
  destruct (Knowledge.collect round2 ans (Knowledge.threshold request) 0 docs)
    as [rs|] eqn:Hc; [|done].
  simpl. intros [= <-].
  apply collect_sound in Hc as [Hall Hsub].
  rewrite Hdocs. split; [|done].
  eapply Forall_impl; [exact Hall|].
  intros res (j & doc & Hj & Hres). simpl in Hres.
  apply result_at_some in Hres
    as (m & d & id & Hm & Hd & Hi & Hth & ->).
  exists j, m, d. unfold answer_row. simpl. rewrite Hdocs. simpl.
  done.
Qed.

Lemma search_knowledge_sound_witness :
  exists results,
    Knowledge.search_knowledge (fun _ => []) (fun x => x)
      (Some Sample.query_two) Sample.search_request = Ok results
    /\ (Knowledge.res_content <$> results)
         `sublist_of` ["Refund policy"; "Opening hours"].
Proof.
  assert (exists results,
            Knowledge.search_knowledge (fun _ => []) (fun x => x)
              (Some Sample.query_two) Sample.search_request = Ok results)
    as [results Hr].
  { unfold Knowledge.search_knowledge, Sample.query_two. simpl.
    unfold Knowledge.result_at. simpl.
    rewrite bool_decide_false by lra. simpl.
    rewrite bool_decide_true by lra. simpl. eauto. }
  exists results. split; [done|].
  exact (proj2 (search_knowledge_sound (fun _ => []) (fun x => x)
                  Sample.query_two Sample.search_request Sample.answer_two
                  results eq_refl Hr)).
Defined.

(** X26. When the answer of the database holds, for every document, a
    metadata entry, a distance and an id at the same position, the search
    answers, and every row whose relevance [1 - distance] reaches the
    threshold is among the results. *)
Theorem search_knowledge_complete
    (generate_embedding : string -> list R) (round2 : R -> R)
    (run_query : list R -> string -> nat -> Result Knowledge.Answer)
    (request : Knowledge.SearchRequest) (ans : Knowledge.Answer)
    (docs : list string) :
  run_query (generate_embedding (Knowledge.query request))
            (Knowledge.organizationId request) (Knowledge.limit request)
  = Ok ans ->
  head (Knowledge.documents ans) = Some docs ->
  (forall i, i < length docs ->
     exists m d id,
       head (Knowledge.metadatas ans) ≫= (.!! i) = Some m
       /\ head (Knowledge.distances ans) ≫= (.!! i) = Some d
       /\ head (Knowledge.ids ans) ≫= (.!! i) = Some id) ->
  exists results,
    Knowledge.search_knowledge generate_embedding round2 (Some run_query)
      request = Ok results
    /\ forall i doc m d id,
         answer_row ans i doc m d id ->
         (Knowledge.threshold request <= 1 - d)%R ->
         row_result round2 doc m d id ∈ results.
Proof.
  intros Hq Hdocs Hrows. unfold Knowledge.search_knowledge. rewrite Hq.
  simpl. rewrite (proj2 (first_head _ _) Hdocs). simpl.
  destruct (collect_rows round2 ans (Knowledge.threshold request) docs 0)
    as (results & -> & Hin).
  { intros j doc Hj. apply Hrows. by apply lookup_lt_Some in Hj. }
  exists results. split; [done|].
  intros i doc m d id (Hd & Hm & Hdist & Hid) Hth.
  rewrite Hdocs in Hd. simpl in Hd.
  by apply (Hin i doc m d id).
Qed.

Lemma search_knowledge_complete_witness :
  exists results,
    Knowledge.search_knowledge (fun _ => []) (fun x => x)
      (Some Sample.query_two) Sample.search_request = Ok results
    /\ row_result (fun x => x) "Refund policy"
         {| Knowledge.title := Some "Refunds"; Knowledge.source := None;
            Knowledge.url := None |} (1 / 10)%R "doc-1" ∈ results.
Proof.
  destruct (search_knowledge_complete (fun _ => []) (fun x => x)
              Sample.query_two Sample.search_request Sample.answer_two
              ["Refund policy"; "Opening hours"] eq_refl eq_refl)
    as (results & Hr & Hin).
  { intros [|[|i]] Hi; simpl in Hi; [| |lia]; simpl;
      eexists _, _, _; repeat split. }
  exists results. split; [done|].
  apply (Hin 0); [by repeat split|]. simpl. lra.
Defined.

(** X27. A knowledge search never answers with a status other than 500
    when it fails: the 503 raised for a collection that could not be
    created is caught by the handler of the endpoint and replaced. An
    answer that holds more documents than ids fails in the same way when
    such a document reaches the threshold, whereas a document without
    metadata entry is skipped. *)
Theorem search_knowledge_errors
    (generate_embedding : string -> list R) (round2 : R -> R)
    (request : Knowledge.SearchRequest) :
  Knowledge.search_knowledge generate_embedding round2 None request
  = Raise (HTTPException 500)
  /\ (forall collection e,
        Knowledge.search_knowledge generate_embedding round2 collection
          request = Raise e -> e = HTTPException 500)
  /\ (forall run_query doc m d,
        (Knowledge.threshold request <= 1 - d)%R ->
        run_query (generate_embedding (Knowledge.query request))
          (Knowledge.organizationId request) (Knowledge.limit request)
        = Ok {| Knowledge.documents := [[doc]];
                Knowledge.metadatas := [[m]];
                Knowledge.distances := [[d]];
                Knowledge.ids := [[]] |} ->
        Knowledge.search_knowledge generate_embedding round2
          (Some run_query) request = Raise (HTTPException 500))
  /\ (forall run_query doc d id,
        run_query (generate_embedding (Knowledge.query request))
          (Knowledge.organizationId request) (Knowledge.limit request)
        = Ok {| Knowledge.documents := [[doc]];
                Knowledge.metadatas := [[]];
                Knowledge.distances := [[d]];
                Knowledge.ids := [[id]] |} ->
        Knowledge.search_knowledge generate_embedding round2
          (Some run_query) request = Ok []).
Proof.
  split; [done|]. split; [|split].
  - intros collection e. unfold Knowledge.search_knowledge, except_http500.
    destruct (match collection with None => _ | Some _ => _ end); [done|].
    by intros [= <-].
  - intros run_query doc m d Hth Hq. unfold Knowledge.search_knowledge.
    rewrite Hq. simpl. unfold Knowledge.result_at. simpl.
    rewrite bool_decide_false by lra. done.
  - intros run_query doc d id Hq. unfold Knowledge.search_knowledge.
    rewrite Hq. done.
Qed.

(* ===================================================================== *)
(** * Health of the API service *)
(* ===================================================================== *)

(** X28. The overall status of [GET /health] is ["healthy"] exactly when
    the Redis ping succeeds and the knowledge collection exists and
    answers [count()]; otherwise it is ["degraded"], whatever the text of
    the exception. The OpenAI key does not enter the overall status. *)
Theorem api_health_status (describe : Exc -> string) (ping : Result unit)
    (knowledge_collection : option (Result nat))
    (openai_api_key : option string) :
  let h := ApiHealth.health_check describe ping knowledge_collection
             openai_api_key in
  (ApiHealth.status h = "healthy"
   <-> is_ok ping = true /\ exists n, knowledge_collection = Some (Ok n))
  /\ (ApiHealth.status h = "healthy" \/ ApiHealth.status h = "degraded")
  /\ ApiHealth.status h
     = ApiHealth.status
         (ApiHealth.health_check describe ping knowledge_collection None).
Proof.
  destruct ping as [[]|e], knowledge_collection as [[n|e']|]; simpl;
    (split; [split; [try done; eauto|intros [? [? ?]]; done]|]);
    (split; [eauto|done]).
Qed.

(* ===================================================================== *)
(** * Reading memory items *)
(* ===================================================================== *)

Section StringFacts.

Lemma prefix_app (s t : string) : String.prefix s (s +:+ t) = true.
Proof.
  induction s as [|a s IH]; [by destruct t|].
  change (String.prefix (String a s) (String a (s +:+ t)) = true).
  simpl. by destruct (Ascii.ascii_dec a a).
Qed.

Lemma contains_prefix (needle hay : string) :
  String.prefix needle hay = true -> PyStr.contains needle hay = true.
Proof. intros H. destruct hay; cbn [PyStr.contains]; by rewrite H. Qed.

Lemma contains_app (needle a b : string) :
  PyStr.contains needle (a +:+ needle +:+ b) = true.
Proof.
  induction a as [|x a IH].
  - change (PyStr.contains needle (needle +:+ b) = true).
    apply contains_prefix, prefix_app.
  - change (PyStr.contains needle (String x (a +:+ needle +:+ b)) = true).
    simpl. rewrite IH. apply orb_true_r.
Qed.

Lemma endswith_app (a suffix : string) :
  PyStr.endswith (a +:+ suffix) suffix = true.
Proof.
  induction a as [|x a IH].
  - change (PyStr.endswith suffix suffix = true).
    destruct suffix; simpl; [done|]. by rewrite Ascii.eqb_refl, String.eqb_refl.
  - change (PyStr.endswith (String x (a +:+ suffix)) suffix = true).
    simpl. rewrite IH. apply orb_true_r.
Qed.

End StringFacts.

Section ReadItemFacts.
Import MemoryApi MemoryRead.
Variable json_loads : string -> option (gmap string Json).
Variable clock : string -> string.
Implicit Types (r : Redis) (h : gmap string string).

Local Abbreviation load := (load_item json_loads).
Local Abbreviation read := (read_items json_loads clock).

Lemma touch_insert (v : string) h :
  {[ "last_accessed" := v ]} ∪ h = <["last_accessed" := v]> h.
Proof. by rewrite insert_union_singleton_l. Qed.

Lemma load_item_touch v h :
  is_ok (load (<["last_accessed" := v]> h)) = is_ok (load h).
Proof.
  unfold load_item, load_field.
  rewrite !lookup_insert_ne by done.
  destruct (h !! "value") as [t|]; simpl.
  - destruct (json_loads t); simpl; [|done].
    destruct (h !! "metadata") as [t'|]; simpl; [|done].
    by destruct (json_loads t').
  - destruct (h !! "metadata") as [t'|]; simpl; [|done].
    by destruct (json_loads t').
Qed.

(** What the loop does to Redis: a hash is left as it was or, for an id of
    the loop with a non-empty hash, gets its [last_accessed] field set;
    when the loop ends normally all these ids were touched. *)
Lemma read_items_hashes ids : forall r res r',
  read ids r = (res, r') ->
  sets r' = sets r /\ expiry r' = expiry r
  /\ forall id,
       (hashes r' !! id = hashes r !! id
        /\ (is_ok res = true -> id ∈ ids ->
            default ∅ (hashes r !! id) = ∅))
       \/ (id ∈ ids
           /\ exists h, hashes r !! id = Some h /\ h <> ∅
              /\ hashes r' !! id = Some (<["last_accessed" := clock id]> h)).
Proof.
  induction ids as [|id0 ids IH]; intros r res r'; simpl.
  - intros [= <- <-]. repeat split. intros id. left. split; [done|].
    intros _ Hin. by apply elem_of_nil in Hin.
  - case_bool_decide as Hempty.
    + intros Hread. destruct (IH _ _ _ Hread) as (Hs & He & Hh).
      repeat split; [done..|]. intros id.
      destruct (Hh id) as [[Heq Hok]|(Hin & h & H1 & H2 & H3)].
      * left. split; [done|]. intros Hres [->|Hin]%elem_of_cons; auto.
      * right. split; [by right|]. eauto.
    + destruct (load _) as [it|e] eqn:Hload.
      2:{ intros [= <- <-]. repeat split. intros id. by left. }
      destruct (read ids _) as [rest r2] eqn:Hread.
      intros [= <- <-].
      destruct (IH _ _ _ Hread) as (Hs & He & Hh).
      repeat split; [done..|]. intros id.
      destruct (hashes r !! id0) as [h0|] eqn:Hh0; [|done].
      simpl in Hempty, Hload, Hread.
      destruct (decide (id = id0)) as [->|Hne].
      * right. split; [by left|]. exists h0. repeat split; [done..|].
        destruct (Hh id0) as [[Heq _]|(_ & h & H1 & _ & H3)].
        -- rewrite Heq. simpl. rewrite lookup_insert_eq, Hh0. simpl.
           by rewrite touch_insert.
        -- rewrite H3. simpl in H1. rewrite lookup_insert_eq, Hh0 in H1.
           simpl in H1. injection H1 as <-.
           by rewrite touch_insert, insert_insert_eq.
      * destruct (Hh id) as [[Heq Hok]|(Hin & h & H1 & H2 & H3)];
          simpl in *; rewrite lookup_insert_ne in * by done.
        -- left. split; [done|]. intros Hres [?|Hin]%elem_of_cons; [done|].
           apply Hok; [|done]. by destruct rest.
        -- right. split; [by right|]. eauto.
Qed.

(** The loop ends normally when every record it meets decodes. *)
Lemma read_items_ok ids : forall r,
  (forall id h, id ∈ ids -> hashes r !! id = Some h -> h <> ∅ ->
     is_ok (load h) = true) ->
  is_ok (fst (read ids r)) = true.
Proof.
  induction ids as [|id0 ids IH]; intros r Hdec; simpl; [done|].
  case_bool_decide as Hempty.
  - apply IH. intros id h Hin. apply Hdec. by right.
  - destruct (hashes r !! id0) as [h0|] eqn:Hh0; [|done].
    simpl in *.
    pose proof (Hdec id0 h0 ltac:(by left) Hh0 Hempty) as Hok.
    destruct (load h0) as [it|e]; [|done].
    destruct (read ids _) as [rest r2] eqn:Hread. simpl.
    assert (is_ok rest = true) as Hrest; [|by destruct rest].
    replace rest with (fst (read ids
      (hset id0 {[ "last_accessed" := clock id0 ]} r)))
      by (by rewrite Hread).
    apply IH. intros id h Hin. simpl.
    destruct (decide (id = id0)) as [->|Hne].
    + rewrite lookup_insert_eq, Hh0. simpl. intros [= <-] _.
      rewrite touch_insert, load_item_touch.
      by apply (Hdec id0); [left| |].
    + rewrite lookup_insert_ne by done. apply Hdec. by right.
Qed.

(** A record of the loop is in the list it returns. *)
Lemma read_items_elem ids : forall r items r' id h,
  read ids r = (Ok items, r') ->
  id ∈ ids -> hashes r !! id = Some h -> h <> ∅ ->
  exists it, it ∈ items /\ load h = Ok it.
Proof.
  induction ids as [|id0 ids IH]; intros r items r' id h; simpl.
  - intros _ Hin. by apply elem_of_nil in Hin.
  - intros Hread Hin Hh Hne.
    destruct (decide (id = id0)) as [->|Hdiff].
    + rewrite Hh in Hread. simpl in Hread.
      rewrite bool_decide_false in Hread by done.
      destruct (load h) as [it|e] eqn:Hload; [|by injection Hread].
      destruct (read ids _) as [rest r2].
      destruct rest as [l|]; [|done]. injection Hread as <- <-.
      exists it. split; [by left|done].
    + apply elem_of_cons in Hin as [?|Hin]; [done|].
      case_bool_decide.
      * by apply (IH _ _ _ _ _ Hread Hin Hh Hne).
      * destruct (load _) as [it0|e]; [|by injection Hread].
        destruct (read ids _) as [rest r2] eqn:Hrest.
        destruct rest as [l|]; [|done]. injection Hread as <- <-.
        destruct (IH _ _ _ id h Hrest Hin) as (it & Hit & Hl);
          [by simpl; rewrite lookup_insert_ne by done|done|].
        exists it. split; [by right|done].
Qed.

End ReadItemFacts.

Lemma filter_ids_incl type key ids id :
  id ∈ MemoryRead.filter_ids type key ids -> id ∈ ids.
Proof.
  unfold MemoryRead.filter_ids.
  destruct (Py.truthy_opt key), (Py.truthy_opt type);
    rewrite ?list_elem_of_filter; tauto.
Qed.

Lemma filter_ids_elem type key ids id :
  id ∈ ids ->
  (Py.truthy_opt type = true ->
   PyStr.contains (":" +:+ default "" type +:+ ":") id = true) ->
  (Py.truthy_opt key = true ->
   PyStr.endswith id (":" +:+ default "" key) = true) ->
  id ∈ MemoryRead.filter_ids type key ids.
Proof.
  unfold MemoryRead.filter_ids. intros Hin Ht Hk.
  destruct (Py.truthy_opt key), (Py.truthy_opt type);
    rewrite ?list_elem_of_filter; auto.
Qed.

(** The id of an item passes the type filter and the key filter of its
    own type and key. *)
Lemma memory_id_has_type (item : MemoryApi.MemoryItem) :
  PyStr.contains (":" +:+ MemoryApi.type item +:+ ":")
    (MemoryApi.memory_id_of item) = true.
Proof.
  replace (MemoryApi.memory_id_of item)
    with (("memory:" +:+ MemoryApi.userId item)
          +:+ (":" +:+ MemoryApi.type item +:+ ":")
          +:+ MemoryApi.key item)
    by (unfold MemoryApi.memory_id_of; by rewrite !str_app_assoc).
  apply contains_app.
Qed.

Lemma memory_id_has_key (item : MemoryApi.MemoryItem) :
  PyStr.endswith (MemoryApi.memory_id_of item) (":" +:+ MemoryApi.key item)
  = true.
Proof.
  replace (MemoryApi.memory_id_of item)
    with (("memory:" +:+ MemoryApi.userId item +:+ ":"
           +:+ MemoryApi.type item)
          +:+ (":" +:+ MemoryApi.key item))
    by (unfold MemoryApi.memory_id_of; by rewrite !str_app_assoc).
  apply endswith_app.
Qed.

(** X29. Reading the memories of a user writes nothing to Redis but the
    [last_accessed] field: the sets and the lifetimes are left as they
    are, and every hash is unchanged or is a non-empty hash of an id that
    the user's index holds and the filters let through, whose
    [last_accessed] field was set to the time of the read. When the read
    answers, every such record was touched. *)
Theorem get_memories_touches_only
    (json_loads : string -> option (gmap string Json))
    (clock : string -> string)
    (fallback : string -> Result (list MemoryRead.Item))
    (collection_up : bool) (user_id : string) (type key : option string)
    (r : MemoryApi.Redis) :
  let out := MemoryRead.get_memories json_loads clock fallback
               collection_up user_id type key r in
  let ids := MemoryRead.filter_ids type key
               (elements (default ∅ (MemoryApi.sets r
                                       !! MemoryApi.index_key user_id))) in
  MemoryApi.sets (snd out) = MemoryApi.sets r
  /\ MemoryApi.expiry (snd out) = MemoryApi.expiry r
  /\ (forall id,
        MemoryApi.hashes (snd out) !! id = MemoryApi.hashes r !! id
        \/ (id ∈ ids
            /\ exists h, MemoryApi.hashes r !! id = Some h /\ h <> ∅
               /\ MemoryApi.hashes (snd out) !! id
                  = Some (<["last_accessed" := clock id]> h)))
  /\ (forall id h,
        is_ok (fst out) = true -> id ∈ ids ->
        MemoryApi.hashes r !! id = Some h -> h <> ∅ ->
        MemoryApi.hashes (snd out) !! id
        = Some (<["last_accessed" := clock id]> h)).
Proof.
  intros out ids. subst out. unfold MemoryRead.get_memories. fold ids.
  destruct (MemoryRead.read_items json_loads clock ids r) as [res r']
    eqn:Hread.
  simpl. destruct (read_items_hashes _ _ _ _ _ _ Hread) as (Hs & He & Hh).
  split; [done|]. split; [done|]. split.
  - intros id. destruct (Hh id) as [[Heq _]|Hr]; [by left|by right].
  - intros id h Hok Hin Hid Hne.
    destruct (Hh id) as [[_ Hempty]|(_ & h' & H1 & _ & H3)].
    + exfalso. apply Hne. rewrite Hid in Hempty. simpl in Hempty.
      apply Hempty; [|done]. by destruct res.
    + rewrite H3. congruence.
Qed.

(** X30. A short-term item that was stored is read back by
    [get_memories], under any filter that names its type or its key,
    with the value and the metadata it was stored with, its id, its key
    and the times of the store, provided its [ttl] is absent, zero or a
    positive number that Redis takes, the JSON codec gives back the two
    dictionaries and the other records of the user's index decode. *)
Theorem stored_item_read_back
    (json_dumps : gmap string Json -> string)
    (json_loads : string -> option (gmap string Json))
    (expire_ok : Z -> bool)
    (clock : string -> string)
    (fallback : string -> Result (list MemoryRead.Item))
    (collection_up : bool) (now1 now2 : string)
    (item : MemoryApi.MemoryItem) (type key : option string)
    (r : MemoryApi.Redis) :
  ttl_keeps expire_ok (MemoryApi.ttl item) = true ->
  json_loads (json_dumps (MemoryApi.value item))
  = Some (MemoryApi.value item) ->
  json_loads (if MemoryApi.truthy_dict (MemoryApi.metadata item)
              then json_dumps (default ∅ (MemoryApi.metadata item))
              else "{}")
  = Some (default ∅ (MemoryApi.metadata item)) ->
  (forall id h,
     id ∈ default ∅ (MemoryApi.sets r
                       !! MemoryApi.index_key (MemoryApi.userId item)) ->
     id <> MemoryApi.memory_id_of item ->
     MemoryApi.hashes r !! id = Some h -> h <> ∅ ->
     is_ok (MemoryRead.load_item json_loads h) = true) ->
  (type = None \/ type = Some (MemoryApi.type item)) ->
  (key = None \/ key = Some (MemoryApi.key item)) ->
  exists items it,
    fst (MemoryRead.get_memories json_loads clock fallback collection_up
           (MemoryApi.userId item) type key
           (snd (MemoryApi.store_short_term_memory json_dumps expire_ok
                   now1 now2 item r)))
    = Ok items
    /\ it ∈ items
    /\ MemoryRead.item_value it = Some (MemoryApi.value item)
    /\ MemoryRead.item_metadata it
       = Some (default ∅ (MemoryApi.metadata item))
    /\ MemoryRead.fields it !! "id" = Some (MemoryApi.memory_id_of item)
    /\ MemoryRead.fields it !! "key" = Some (MemoryApi.key item)
    /\ MemoryRead.fields it !! "created_at" = Some now1
    /\ MemoryRead.fields it !! "last_accessed" = Some now2.
Proof.
  intros Hkeeps Hvalue Hmeta Hothers Htype Hkey.
  set (r1 := snd (MemoryApi.store_short_term_memory json_dumps expire_ok
                    now1 now2 item r)).
  set (mid := MemoryApi.memory_id_of item).
  set (F := MemoryApi.short_term_fields json_dumps now1 now2 item).
  set (h := F ∪ default ∅ (MemoryApi.hashes r !! mid)).
  assert (MemoryApi.hashes r1 = <[mid := h]> (MemoryApi.hashes r)) as Hh
    by (by apply store_hashes).
  assert (MemoryApi.sets r1
          = <[MemoryApi.index_key (MemoryApi.userId item) :=
                {[mid]} ∪ default ∅ (MemoryApi.sets r
                  !! MemoryApi.index_key (MemoryApi.userId item))]>
              (MemoryApi.sets r)) as Hs
    by (by apply store_sets).
  assert (forall f v, F !! f = Some v -> h !! f = Some v) as HF.
  { intros f v Hf. unfold h. by apply lookup_union_Some_l. }
  assert (h !! "value" = Some (json_dumps (MemoryApi.value item))) as Hv
    by (apply HF; reflexivity).
  assert (h !! "metadata"
          = Some (if MemoryApi.truthy_dict (MemoryApi.metadata item)
                  then json_dumps (default ∅ (MemoryApi.metadata item))
                  else "{}")) as Hm
    by (apply HF; reflexivity).
  assert (h <> ∅) as Hne.
  { intros Heq. rewrite Heq, lookup_empty in Hv. done. }
  assert (MemoryRead.load_item json_loads h
          = Ok {| MemoryRead.fields := delete "value" (delete "metadata" h);
                  MemoryRead.item_value := Some (MemoryApi.value item);
                  MemoryRead.item_metadata :=
                    Some (default ∅ (MemoryApi.metadata item)) |}) as Hload.
  { unfold MemoryRead.load_item, MemoryRead.load_field.
    rewrite Hv, Hvalue. simpl. by rewrite Hm, Hmeta. }
  unfold MemoryRead.get_memories.
  set (ids := MemoryRead.filter_ids type key _).
  assert (mid ∈ ids) as Hin.
  { apply filter_ids_elem.
    - rewrite Hs, lookup_insert_eq. simpl. apply elem_of_elements.
      by apply elem_of_union_l, elem_of_singleton.
    - intros Ht. destruct Htype as [Heq|Heq]; rewrite Heq in Ht |- *;
        [done|]. apply memory_id_has_type.
    - intros Hk. destruct Hkey as [Heq|Heq]; rewrite Heq in Hk |- *;
        [done|]. apply memory_id_has_key. }
  pose proof (read_items_ok json_loads clock ids r1) as Hok.
  destruct (MemoryRead.read_items json_loads clock ids r1) as [res r2]
    eqn:Hread.
  destruct res as [items|e].
  2:{ exfalso.
      assert (is_ok (fst (@Raise (list MemoryRead.Item) e, r2)) = true)
        as Habs; [|done].
      apply Hok.
      intros id h' Hid. apply filter_ids_incl in Hid.
      rewrite Hs, lookup_insert_eq in Hid. simpl in Hid.
      apply elem_of_elements in Hid. rewrite Hh.
      destruct (decide (id = mid)) as [->|Hdiff].
      - rewrite lookup_insert_eq. intros [= <-] _. by rewrite Hload.
      - rewrite lookup_insert_ne by done. apply Hothers; [|done].
        apply elem_of_union in Hid as [Hid|Hid]; [|done].
        by apply elem_of_singleton in Hid. }
  destruct (read_items_elem json_loads clock ids r1 items r2 mid h Hread Hin)
    as (it & Hit & Hl); [by rewrite Hh, lookup_insert_eq|done|].
  rewrite Hload in Hl. injection Hl as <-.
  eexists items, _. split.
  { simpl. destruct items as [|? ?]; [by apply elem_of_nil in Hit|].
    simpl. by rewrite andb_false_r. }
  split; [done|]. simpl.
  repeat split; rewrite !lookup_delete_ne by done; apply HF; reflexivity.
Qed.

Lemma stored_item_read_back_witness :
  exists items it,
    fst (MemoryRead.get_memories Sample.loads_order (fun _ => "t3")
           (fun _ => Ok []) true "u1" (Some "short_term") (Some "prefs")
           (snd (MemoryApi.store_short_term_memory Sample.dumps_order
                   Sample.expire_int64 "t1" "t2" Sample.item_prefs
                   Sample.redis_empty)))
    = Ok items
    /\ it ∈ items
    /\ MemoryRead.item_value it = Some Sample.ctx_order
    /\ MemoryRead.item_metadata it = Some Sample.ctx_order
    /\ MemoryRead.fields it !! "id" = Some "memory:u1:short_term:prefs"
    /\ MemoryRead.fields it !! "key" = Some "prefs"
    /\ MemoryRead.fields it !! "created_at" = Some "t1"
    /\ MemoryRead.fields it !! "last_accessed" = Some "t2".
Proof.
  apply (stored_item_read_back Sample.dumps_order Sample.loads_order
           Sample.expire_int64
           (fun _ => "t3") (fun _ => Ok []) true "t1" "t2"
           Sample.item_prefs (Some "short_term") (Some "prefs")
           Sample.redis_empty eq_refl eq_refl eq_refl).
  - intros id h Hin. exfalso. simpl in Hin.
    rewrite lookup_empty in Hin. simpl in Hin. by apply elem_of_empty in Hin.
  - by right.
  - by right.
Defined.
